(** * Kubelet monitor: a shallow embedding of
      pkg/discovery/monitoring/kubelet/kubelet_monitor.go

    The monitor scrapes every node of a discovery task through the kubelet
    client and turns what it gets into metric entries of a sink.  The
    embedding follows the Go source function by function:

    - [float64] values are the kernel's binary64 floats ([PrimFloat]), so
      that [<=], [>=], [*] and [/] round and compare as Go's do (NaN and the
      infinities included);
    - a Go pointer is an [option] ([None] is [nil]); a dereference of a nil
      pointer is a run-time panic, and a function that can panic returns an
      [option] whose [None] is that panic;
    - the methods of [*KubeletMonitor] pass the monitor explicitly;
    - a Go map that is ranged over is given in the order of the range, as
      an association list (the order of a Go range over a map is not
      specified, so statements quantify over it). *)

From Stdlib Require Import ZArith Floats.
From stdpp Require Import base option list strings gmap.

Open Scope string_scope.
Open Scope list_scope.
Open Scope float_scope.

(** ** Go values *)

(** A pointer: [None] is [nil]. *)
Abbreviation ptr := option (only parsing).

(** [*p]: [None] is the nil-pointer panic. *)
Definition deref {A} (p : ptr A) : option A := p.

(** [float64(n)] for an integer [n] (an [int64] or a [uint64]): the nearest
    binary64, ties to even. *)
Definition float64 (n : Z) : float :=
  SF2Prim (binary_normalize prec emax n 0 false).

(** Go's [x <= y] and [x >= y] on [float64]. *)
Definition fle (x y : float) : bool := (x <=? y)%float.
Definition fge (x y : float) : bool := (y <=? x)%float.

(** [x] lies strictly inside (0,100). *)
Definition strictly_inside_0_100 (x : float) : bool :=
  (0 <? x)%float && (x <? 100)%float.

(** Go's [error]: the message. *)
Definition error := string.

(** ** Package util *)
Module util.

(** Modelled from the spec: the unit conversions of package util, which is
    not among the sources ("pure functions converting nanocore CPU usage to
    core units, and base-2 byte counts to kilobyte/megabyte units"). *)
Definition MetricNanoToUnit (val : float) : float := val / 1000000000.
Definition Base2BytesToKilobytes (val : float) : float := val / 1024.
Definition Base2BytesToMegabytes (val : float) : float := val / (1024 * 1024).
Definition Base2MegabytesToBytes (val : float) : float := val * 1024 * 1024.

End util.

(** ** Package api: the node *)
Module api.
Record Node := { Name : string }.
End api.

(** ** Package metrics: entries and the sink *)
Module metrics.

Inductive DiscoveredEntityType :=
| NodeType | PodType | ContainerType | ApplicationType.

Inductive ResourceType :=
| CPU | Memory | CPURequest | MemoryRequest | VCPUThrottling
| VStorage | StorageAmount | NumPods.

Inductive MetricProp := Used | Capacity | Available | Threshold.

(** The names of the state metrics the monitor emits: the constant
    [metrics.CpuFrequency] and the literal "NodeCacheUsed".  The value of a
    state metric is the frequency, or the constant 1. *)
Inductive StateName := CpuFrequency | NodeCacheUsed.

Record Point := { Value : float; Timestamp : Z }.

Record ThrottlingCumulative :=
  { Throttled : float; Total : float; TTimestamp : Z }.

(** The [interface{}] value of an entry: a scalar, samples, or a
    cumulative throttling record. *)
Inductive MetricValue :=
| Scalar (v : float)
| Points (ps : list Point)
| Throttling (ts : list ThrottlingCumulative).

Inductive EntityMetric :=
| EntityStateMetric
    (etype : DiscoveredEntityType) (key : string) (name : StateName) (v : float)
| EntityResourceMetric
    (etype : DiscoveredEntityType) (key : string)
    (rtype : ResourceType) (prop : MetricProp) (v : MetricValue).

Definition NewEntityStateMetric := EntityStateMetric.
Definition NewEntityResourceMetric := EntityResourceMetric.

(** Modelled from the spec: the sink of package metrics, which is not among
    the sources ("an append-only (within one cycle) collection of
    MetricEntry"): the entries in the order they were added. *)
Definition EntityMetricSink := list EntityMetric.

Definition NewEntityMetricSink : EntityMetricSink := [].

Definition AddNewMetricEntries
    (sink : EntityMetricSink) (entries : list EntityMetric) : EntityMetricSink :=
  sink ++ entries.

End metrics.

(** ** Package stats: what the kubelet summary holds *)
Module stats.

Module CPUStats.
Record t := { UsageNanoCores : ptr Z }.
End CPUStats.

Module MemoryStats.
Record t := { AvailableBytes : ptr Z; WorkingSetBytes : ptr Z }.
End MemoryStats.

Module FsStats.
Record t :=
  { AvailableBytes : ptr Z; CapacityBytes : ptr Z; UsedBytes : ptr Z }.
End FsStats.

Module RuntimeStats.
Record t := { ImageFs : ptr FsStats.t }.
End RuntimeStats.

Module NodeStats.
Record t :=
  { NodeName : string;
    CPU : ptr CPUStats.t;
    Memory : ptr MemoryStats.t;
    Fs : ptr FsStats.t;
    Runtime : ptr RuntimeStats.t }.
End NodeStats.

Module ContainerStats.
Record t :=
  { Name : string; CPU : ptr CPUStats.t; Memory : ptr MemoryStats.t }.
End ContainerStats.

Module PodReference.
Record t := { Name : string; Namespace : string; UID : string }.
End PodReference.

(** [VolumeStats] embeds [FsStats]. *)
Module VolumeStats.
Record t := { Name : string; CapacityBytes : ptr Z; UsedBytes : ptr Z }.
End VolumeStats.

Module PodStats.
Record t :=
  { PodRef : PodReference.t;
    Containers : list ContainerStats.t;
    EphemeralStorage : ptr FsStats.t;
    VolumeStats : list VolumeStats.t }.
End PodStats.

Module Summary.
Record t := { Node : NodeStats.t; Pods : list PodStats.t }.
End Summary.

End stats.

(** ** Package evictionapi: eviction thresholds *)
Module evictionapi.

(** The signals the monitor distinguishes; every other signal of the
    kubelet is [SignalOther]. *)
Inductive Signal :=
| SignalMemoryAvailable
| SignalNodeFsAvailable
| SignalImageFsAvailable
| SignalOther (name : string).

(** [Quantity] is a [*resource.Quantity], given by what its [Value()]
    returns; [Percentage] is a [float32], given by the [float64] it
    converts to. *)
Record ThresholdValue := { Quantity : ptr Z; Percentage : float }.

Record Threshold := { Signal_ : Signal; Value : ThresholdValue }.

End evictionapi.

(** ** Package dto: the prometheus client model *)
Module dto.

Inductive MetricType :=
| MetricType_COUNTER | MetricType_GAUGE | MetricType_SUMMARY
| MetricType_UNTYPED | MetricType_HISTOGRAM.

Record LabelPair := { Name : string; Value : string }.

Record Counter := { CValue : ptr float }.

Record Metric := { Label : list LabelPair; Counter_ : ptr Counter }.

Record MetricFamily := { Type_ : ptr MetricType; Metric_ : list (ptr Metric) }.

(** The generated getters answer the zero value on a nil receiver or a nil
    field. *)
Definition GetType (m : ptr MetricFamily) : MetricType :=
  match m with
  | Some f => default MetricType_COUNTER (Type_ f)
  | None => MetricType_COUNTER
  end.

Definition GetMetric (m : ptr MetricFamily) : list (ptr Metric) :=
  match m with
  | Some f => Metric_ f
  | None => []
  end.

Definition GetValue (c : ptr Counter) : float :=
  match c with
  | Some c => default 0 (CValue c)
  | None => 0
  end.

Definition MetricType_eqb (a b : MetricType) : bool :=
  match a, b with
  | MetricType_COUNTER, MetricType_COUNTER
  | MetricType_GAUGE, MetricType_GAUGE
  | MetricType_SUMMARY, MetricType_SUMMARY
  | MetricType_UNTYPED, MetricType_UNTYPED
  | MetricType_HISTOGRAM, MetricType_HISTOGRAM => true
  | _, _ => false
  end.

End dto.

(** ** Package features (src/unnamed/part_000) *)
Module features.

Definition Feature := string.

Definition PersistentVolumes : Feature := "PersistentVolumes".
Definition ThrottlingMetrics : Feature := "ThrottlingMetrics".
Definition GitopsApps : Feature := "GitopsApps".
Definition HonorAzLabelPvAffinity : Feature := "HonorAzLabelPvAffinity".
Definition GoMemLimit : Feature := "GoMemLimit".
Definition AllowIncreaseNsQuota4Resizing : Feature := "AllowIncreaseNsQuota4Resizing".
Definition IgnoreAffinities : Feature := "IgnoreAffinities".

(** [DefaultKubeturboFeatureGates]: the default of every known gate. *)
Definition DefaultKubeturboFeatureGates : list (Feature * bool) :=
  [ (PersistentVolumes, true); (ThrottlingMetrics, true); (GitopsApps, false);
    (HonorAzLabelPvAffinity, true); (GoMemLimit, true);
    (AllowIncreaseNsQuota4Resizing, true); (IgnoreAffinities, false) ].

End features.

(** ** Package kubeclient: the kubelet client *)
Module kubeclient.

(** Modelled from the spec: the names of the two counter families ("one
    represents total periods, the other throttled periods") are constants
    of package kubeclient, which is not among the sources; their values are
    the ones the doc comment of parseMetricFamilies quotes. *)
Definition ContainerCPUThrottledTotal : string :=
  "container_cpu_cfs_throttled_periods_total".
Definition ContainerCPUTotal : string := "container_cpu_cfs_periods_total".

(** What the client answers to the calls of one discovery cycle.  A call
    answers a value and an [error] ([None] is the nil error), as in Go.  The
    map of metric families is given as the association list of the order
    in which it is ranged over. *)
Record KubeletClient :=
  { GetNodeCpuFrequency : api.Node -> float * ptr error;
    GetSummary : string -> string -> ptr stats.Summary.t * ptr error;
    HasCacheBeenUsed : string -> bool;
    GetKubeletThresholds :
      string -> string -> list evictionapi.Threshold * ptr error;
    GetCPUThrottlingMetrics :
      string -> string -> list (string * ptr dto.MetricFamily) * ptr error }.

End kubeclient.

(** ** Package types *)
Module types.
Inductive MonitoringSource := KubeletSource | ClusterSource.
End types.

(** ** What the monitor takes from outside

    The key and address functions of package util, the process-wide feature
    gate and the clock are not among the sources: they are parameters. *)
Class Collaborators :=
  { NodeKeyFunc : api.Node -> string;
    NodeStatsKeyFunc : stats.NodeStats.t -> string;
    PodMetricId : stats.PodReference.t -> string;
    ContainerMetricId : string -> string -> string;
    ApplicationMetricId : string -> string;
    PodVolumeMetricId : string -> string -> string;
    GetNodeIPForMonitor :
      api.Node -> types.MonitoringSource -> string * ptr error;
    (** [utilfeature.DefaultFeatureGate.Enabled] *)
    Enabled : features.Feature -> bool;
    (** [time.Now().UnixNano()] as the task of a node reads it *)
    UnixNano : api.Node -> Z }.

(** ** The monitor *)

(** A [chan struct{}] with a buffer of one: how many values are buffered, and
    whether it is closed. *)
Record chan := { buffered : nat; closed : bool }.

Definition make_chan : chan := {| buffered := 0; closed := false |}.

(** The fields of [KubeletMonitor] the cycle uses ([kubeClient] is never
    read; [wg] is the barrier that the sequential run of the tasks stands
    for). *)
Record KubeletMonitor :=
  { nodeList : list api.Node;
    kubeletClient : kubeclient.KubeletClient;
    metricSink : metrics.EntityMetricSink;
    stopCh : chan;
    isFullDiscovery : bool }.

Definition with_metricSink (m : KubeletMonitor) (s : metrics.EntityMetricSink) :=
  {| nodeList := nodeList m; kubeletClient := kubeletClient m;
     metricSink := s; stopCh := stopCh m;
     isFullDiscovery := isFullDiscovery m |}.

Definition with_stopCh (m : KubeletMonitor) (c : chan) :=
  {| nodeList := nodeList m; kubeletClient := kubeletClient m;
     metricSink := metricSink m; stopCh := c;
     isFullDiscovery := isFullDiscovery m |}.

(** [m.metricSink.AddNewMetricEntries(entries...)] *)
Definition addEntries (m : KubeletMonitor) (entries : list metrics.EntityMetric) :=
  with_metricSink m (metrics.AddNewMetricEntries (metricSink m) entries).

Definition NewKubeletMonitor
    (kubeletClient : kubeclient.KubeletClient) (isFullDiscovery : bool)
    : KubeletMonitor :=
  {| nodeList := [];
     kubeletClient := kubeletClient;
     metricSink := metrics.NewEntityMetricSink;
     stopCh := make_chan;
     isFullDiscovery := isFullDiscovery |}.

Definition reset (m : KubeletMonitor) : KubeletMonitor :=
  with_stopCh (with_metricSink m metrics.NewEntityMetricSink) make_chan.

Definition GetMonitoringSource (m : KubeletMonitor) : types.MonitoringSource :=
  types.KubeletSource.

(** [task.NodeList()] is given as [nodes]. *)
Definition ReceiveTask (m : KubeletMonitor) (nodes : list api.Node) : KubeletMonitor :=
  let m := reset m in
  {| nodeList := nodes; kubeletClient := kubeletClient m;
     metricSink := metricSink m; stopCh := stopCh m;
     isFullDiscovery := isFullDiscovery m |}.

(** What a send on a channel does: it goes through, it blocks (the buffer is
    full and nobody receives), or it panics (the channel is closed). *)
Inductive sent := Sent (c : chan) | SendBlocks | SendPanics.

Definition send (c : chan) : sent :=
  if closed c then SendPanics
  else match buffered c with
       | O => Sent {| buffered := 1; closed := false |}
       | S _ => SendBlocks
       end.

(** The receive of [select { case <-c: ...; default: ... }]: [Some c'] when
    the case is taken (a buffered value is consumed, or the channel is
    closed and drained), [None] when the default is. *)
Definition try_receive (c : chan) : option chan :=
  match buffered c with
  | S n => Some {| buffered := n; closed := closed c |}
  | O => if closed c then Some c else None
  end.

(** [close(c)]: [None] is the panic of closing a closed channel. *)
Definition close (c : chan) : option chan :=
  if closed c then None else Some {| buffered := buffered c; closed := true |}.

(** [m.stopCh <- struct{}{}]: [None] when the send does not return (it blocks
    or panics). *)
Definition Stop (m : KubeletMonitor) : option KubeletMonitor :=
  match send (stopCh m) with
  | Sent c => Some (with_stopCh m c)
  | SendBlocks | SendPanics => None
  end.

(** ** Metric generators *)

Definition genThrottlingMetrics (m : KubeletMonitor)
    (etype : metrics.DiscoveredEntityType) (key : string)
    (throttled total : float) (timestamp : Z) : KubeletMonitor :=
  let metric :=
    metrics.NewEntityResourceMetric etype key metrics.VCPUThrottling metrics.Used
      (metrics.Throttling
         [ {| metrics.Throttled := throttled;
              metrics.Total := total;
              metrics.TTimestamp := timestamp |} ]) in
  addEntries m [metric].

Definition genUsedMetrics (m : KubeletMonitor)
    (etype : metrics.DiscoveredEntityType) (key : string)
    (cpu memory : float) (timestamp : Z) : KubeletMonitor :=
  let cpuMetric :=
    metrics.NewEntityResourceMetric etype key metrics.CPU metrics.Used
      (metrics.Points [ {| metrics.Value := cpu; metrics.Timestamp := timestamp |} ]) in
  let memMetric :=
    metrics.NewEntityResourceMetric etype key metrics.Memory metrics.Used
      (metrics.Points [ {| metrics.Value := memory; metrics.Timestamp := timestamp |} ]) in
  addEntries m [cpuMetric; memMetric].

Definition genRequestUsedMetrics (m : KubeletMonitor)
    (etype : metrics.DiscoveredEntityType) (key : string)
    (cpu memory : float) (timestamp : Z) : KubeletMonitor :=
  let cpuRequestMetric :=
    metrics.NewEntityResourceMetric etype key metrics.CPURequest metrics.Used
      (metrics.Points [ {| metrics.Value := cpu; metrics.Timestamp := timestamp |} ]) in
  let memRequestMetric :=
    metrics.NewEntityResourceMetric etype key metrics.MemoryRequest metrics.Used
      (metrics.Points [ {| metrics.Value := memory; metrics.Timestamp := timestamp |} ]) in
  addEntries m [cpuRequestMetric; memRequestMetric].

Definition genNumConsumersUsedMetrics (m : KubeletMonitor)
    (etype : metrics.DiscoveredEntityType) (key : string) : KubeletMonitor :=
  let numConsumersMetric :=
    metrics.NewEntityResourceMetric etype key metrics.NumPods metrics.Used
      (metrics.Scalar 1) in
  addEntries m [numConsumersMetric].

Definition is_NodeType (etype : metrics.DiscoveredEntityType) : bool :=
  match etype with metrics.NodeType => true | _ => false end.

Definition genFSMetrics (m : KubeletMonitor)
    (etype : metrics.DiscoveredEntityType) (key : string)
    (capacity used available : float) : KubeletMonitor :=
  let capacityMetric :=
    metrics.NewEntityResourceMetric etype key metrics.VStorage metrics.Capacity
      (metrics.Scalar capacity) in
  let m := addEntries m [capacityMetric] in
  if is_NodeType etype then
    let availableMetric :=
      metrics.NewEntityResourceMetric etype key metrics.VStorage metrics.Available
        (metrics.Scalar available) in
    addEntries m [availableMetric]
  else
    let usedMetric :=
      metrics.NewEntityResourceMetric etype key metrics.VStorage metrics.Used
        (metrics.Scalar used) in
    addEntries m [usedMetric].

Definition genPVMetrics (m : KubeletMonitor)
    (etype : metrics.DiscoveredEntityType) (key : string)
    (capacity used : float) : KubeletMonitor :=
  let capacityMetric :=
    metrics.NewEntityResourceMetric etype key metrics.StorageAmount metrics.Capacity
      (metrics.Scalar capacity) in
  let usedMetric :=
    metrics.NewEntityResourceMetric etype key metrics.StorageAmount metrics.Used
      (metrics.Scalar used) in
  addEntries m [capacityMetric; usedMetric].

(** ** Eviction thresholds *)

(** [value.Percentage != 0] decides; only the other branch reads
    [value.Quantity], and panics on a nil one. *)
Definition GetThresholdPercentile
    (value : evictionapi.ThresholdValue) (capacity : float) : option float :=
  if negb (evictionapi.Percentage value =? 0)%float then
    Some (evictionapi.Percentage value * 100)
  else
    q ← deref (evictionapi.Quantity value);
    Some (float64 q * 100 / capacity).

(** The three thresholds as the loop over [thresholds] leaves them:
    memory, root file system, image file system. *)
Record computed :=
  { memThreshold : float; rootfsThreshold : float; imagefsThreshold : float }.

(** One turn of the loop of parseThresholdValues. *)
Definition thresholdStep (memoryCapacity rootfsCapacity imagefsCapacity : float)
    (c : computed) (threshold : evictionapi.Threshold) : option computed :=
  match evictionapi.Signal_ threshold with
  | evictionapi.SignalMemoryAvailable =>
      v ← GetThresholdPercentile (evictionapi.Value threshold) memoryCapacity;
      Some {| memThreshold := v;
              rootfsThreshold := rootfsThreshold c;
              imagefsThreshold := imagefsThreshold c |}
  | evictionapi.SignalNodeFsAvailable =>
      v ← GetThresholdPercentile (evictionapi.Value threshold) rootfsCapacity;
      Some {| memThreshold := memThreshold c;
              rootfsThreshold := v;
              imagefsThreshold := imagefsThreshold c |}
  | evictionapi.SignalImageFsAvailable =>
      v ← GetThresholdPercentile (evictionapi.Value threshold) imagefsCapacity;
      Some {| memThreshold := memThreshold c;
              rootfsThreshold := rootfsThreshold c;
              imagefsThreshold := v |}
  | evictionapi.SignalOther _ => Some c
  end.

(** A loop whose body can panic. *)
Fixpoint foldM {A B} (f : A -> B -> option A) (l : list B) (a : A) : option A :=
  match l with
  | [] => Some a
  | b :: l => a' ← f a b; foldM f l a'
  end.

(** The loop of parseThresholdValues, from the zero values. *)
Definition computeThresholds (memoryCapacity rootfsCapacity imagefsCapacity : float)
    (thresholds : list evictionapi.Threshold) : option computed :=
  foldM (thresholdStep memoryCapacity rootfsCapacity imagefsCapacity) thresholds
    {| memThreshold := 0; rootfsThreshold := 0; imagefsThreshold := 0 |}.

(** The three range checks that follow the loop.  The third assigns
    [rootfsThreshold], as the source does. *)
Definition applyDefaults (memoryCapacity : float) (c : computed) : computed :=
  let memThreshold :=
    if fle (memThreshold c) 0 || fge (memThreshold c) 100
    then util.Base2MegabytesToBytes 100 * 100 / memoryCapacity
    else memThreshold c in
  let rootfsThreshold :=
    if fle (rootfsThreshold c) 0 || fge (rootfsThreshold c) 100
    then 10
    else rootfsThreshold c in
  let rootfsThreshold :=
    if fle (imagefsThreshold c) 0 || fge (imagefsThreshold c) 100
    then 15
    else rootfsThreshold in
  {| memThreshold := memThreshold;
     rootfsThreshold := rootfsThreshold;
     imagefsThreshold := imagefsThreshold c |}.

Definition parseThresholdValues (m : KubeletMonitor) (key : string)
    (memoryCapacity rootfsCapacity imagefsCapacity : float)
    (thresholds : list evictionapi.Threshold) : option KubeletMonitor :=
  c ← computeThresholds memoryCapacity rootfsCapacity imagefsCapacity thresholds;
  let c := applyDefaults memoryCapacity c in
  let imagefsKey := key +:+ "-imagefs" in
  let m := addEntries m
    [metrics.NewEntityResourceMetric metrics.NodeType key
       metrics.Memory metrics.Threshold (metrics.Scalar (memThreshold c))] in
  let m := addEntries m
    [metrics.NewEntityResourceMetric metrics.NodeType key
       metrics.VStorage metrics.Threshold (metrics.Scalar (rootfsThreshold c))] in
  let m := addEntries m
    [metrics.NewEntityResourceMetric metrics.NodeType imagefsKey
       metrics.VStorage metrics.Threshold (metrics.Scalar (imagefsThreshold c))] in
  Some m.

(** ** The counter-stream correlator *)

Record throttlingMetric := { cpuThrottled : float; cpuTotal : float }.

(** [name], [namespace], [podName] as the loop over the labels leaves them. *)
Record identity := { name : string; namespace : string; podName : string }.

Definition labelStep (i : identity) (l : dto.LabelPair) : identity :=
  let n := dto.Name l in
  if (n =? "container")%string || (n =? "container_name")%string then
    {| name := dto.Value l; namespace := namespace i; podName := podName i |}
  else if (n =? "namespace")%string then
    {| name := name i; namespace := dto.Value l; podName := podName i |}
  else if (n =? "pod")%string || (n =? "pod_name")%string then
    {| name := name i; namespace := namespace i; podName := dto.Value l |}
  else i.

Definition readLabels (labels : list dto.LabelPair) : identity :=
  fold_left labelStep labels {| name := ""; namespace := ""; podName := "" |}.

(** [fmt.Sprintf("%s/%s/%s", namespace, podName, name)] *)
Definition metricID (i : identity) : string :=
  namespace i +:+ "/" +:+ podName i +:+ "/" +:+ name i.

(** One turn of the loop over the metrics of the family [metricName]. *)
Definition metricStep (metricName : string)
    (parsed : gmap string throttlingMetric) (metric : ptr dto.Metric)
    : gmap string throttlingMetric :=
  match metric with
  | None => parsed
  | Some metric =>
      let i := readLabels (dto.Label metric) in
      if (name i =? "")%string then parsed
      else
        let tm := default {| cpuThrottled := 0; cpuTotal := 0 |} (parsed !! metricID i) in
        let tm :=
          if (metricName =? kubeclient.ContainerCPUTotal)%string then
            {| cpuThrottled := cpuThrottled tm;
               cpuTotal := dto.GetValue (dto.Counter_ metric) |}
          else
            {| cpuThrottled := dto.GetValue (dto.Counter_ metric);
               cpuTotal := cpuTotal tm |} in
        <[metricID i := tm]> parsed
  end.

(** The loop over the families, in the order of the range; a family that is
    not a counter ends it. *)
Fixpoint parseFamilies (metricFamilies : list (string * ptr dto.MetricFamily))
    (parsed : gmap string throttlingMetric) : gmap string throttlingMetric :=
  match metricFamilies with
  | [] => parsed
  | (metricName, metricFamily) :: rest =>
      if negb (dto.MetricType_eqb (dto.GetType metricFamily) dto.MetricType_COUNTER)
      then parsed
      else parseFamilies rest
             (fold_left (metricStep metricName) (dto.GetMetric metricFamily) parsed)
  end.

Definition parseMetricFamilies (metricFamilies : list (string * ptr dto.MetricFamily))
    : gmap string throttlingMetric :=
  parseFamilies metricFamilies ∅.

(** The entries are added in the order [map_to_list] gives the parsed map
    (the order of the Go range is not specified).  No value of the parsed
    map is nil, so the nil check of the loop always passes. *)
Definition generateThrottlingMetrics (m : KubeletMonitor)
    (metricFamilies : list (string * ptr dto.MetricFamily)) (timestamp : Z)
    : KubeletMonitor :=
  let parsedMetrics := parseMetricFamilies metricFamilies in
  fold_left
    (fun m '(metricID, tm) =>
       genThrottlingMetrics m metrics.ContainerType metricID
         (cpuThrottled tm) (cpuTotal tm) timestamp)
    (map_to_list parsedMetrics) m.

(** ** Node, pod and container statistics *)

(** [a != nil && a.f != nil]: the value [a.f] points to, if both hold. *)
Definition nonNil2 {A B} (a : ptr A) (f : A -> ptr B) : option B := a ≫= f.

Section Monitor.
Context `{Collaborators}.

Definition parseNodeCpuFreq (m : KubeletMonitor) (node : api.Node)
    (cpuFrequencyMHz : float) : KubeletMonitor :=
  let cpuFrequencyMetric :=
    metrics.NewEntityStateMetric metrics.NodeType (NodeKeyFunc node)
      metrics.CpuFrequency cpuFrequencyMHz in
  addEntries m [cpuFrequencyMetric].

Definition parseNodeStats (m : KubeletMonitor) (nodeStats : stats.NodeStats.t)
    (thresholds : list evictionapi.Threshold) (timestamp : Z)
    : option KubeletMonitor :=
  let cpuUsageCore :=
    match nonNil2 (stats.NodeStats.CPU nodeStats) stats.CPUStats.UsageNanoCores with
    | Some v => util.MetricNanoToUnit (float64 v)
    | None => 0
    end in
  let memoryWorkingSetBytes :=
    match nonNil2 (stats.NodeStats.Memory nodeStats) stats.MemoryStats.WorkingSetBytes with
    | Some v => float64 v
    | None => 0
    end in
  let memoryAvailableBytes :=
    match nonNil2 (stats.NodeStats.Memory nodeStats) stats.MemoryStats.AvailableBytes with
    | Some v => float64 v
    | None => 0
    end in
  let rootfsCapacityBytes :=
    match nonNil2 (stats.NodeStats.Fs nodeStats) stats.FsStats.CapacityBytes with
    | Some v => float64 v
    | None => 0
    end in
  let rootfsUsedBytes :=
    match nonNil2 (stats.NodeStats.Fs nodeStats) stats.FsStats.UsedBytes with
    | Some v => float64 v
    | None => 0
    end in
  let rootfsAvailableBytes :=
    match nonNil2 (stats.NodeStats.Fs nodeStats) stats.FsStats.AvailableBytes with
    | Some v => float64 v
    | None => 0
    end in
  let imageFs := nonNil2 (stats.NodeStats.Runtime nodeStats) stats.RuntimeStats.ImageFs in
  let imagefsCapacityBytes :=
    match nonNil2 imageFs stats.FsStats.CapacityBytes with
    | Some v => float64 v
    | None => 0
    end in
  (* the check is on UsedBytes, the dereference is of AvailableBytes *)
  imagefsAvailableBytes ←
    match imageFs with
    | Some fs =>
        match stats.FsStats.UsedBytes fs with
        | Some _ => float64 <$> deref (stats.FsStats.AvailableBytes fs)
        | None => Some 0
        end
    | None => Some 0
    end;
  let key := NodeStatsKeyFunc nodeStats in
  let memoryWorkingSetKiloBytes := util.Base2BytesToKilobytes memoryWorkingSetBytes in
  let memoryCapacityBytes := memoryAvailableBytes + memoryWorkingSetBytes in
  let m := genUsedMetrics m metrics.NodeType key cpuUsageCore memoryWorkingSetKiloBytes timestamp in
  if isFullDiscovery m then
    let imagefsKey := key +:+ "-imagefs" in
    let m := genFSMetrics m metrics.NodeType key rootfsCapacityBytes 0 rootfsAvailableBytes in
    let m := genFSMetrics m metrics.NodeType imagefsKey imagefsCapacityBytes 0 imagefsAvailableBytes in
    parseThresholdValues m key memoryCapacityBytes rootfsCapacityBytes imagefsCapacityBytes thresholds
  else Some m.

(** One turn of the loop of parseContainerStats: the two totals and the
    monitor. *)
Definition containerStep (podMId : string) (timestamp : Z)
    (acc : float * float * KubeletMonitor) (container : stats.ContainerStats.t)
    : float * float * KubeletMonitor :=
  let '(totalUsedCPU, totalUsedMem, m) := acc in
  match nonNil2 (stats.ContainerStats.CPU container) stats.CPUStats.UsageNanoCores with
  | None => acc
  | Some usageNanoCores =>
    match nonNil2 (stats.ContainerStats.Memory container) stats.MemoryStats.WorkingSetBytes with
    | None => acc
    | Some workingSetBytes =>
      let cpuUsed := util.MetricNanoToUnit (float64 usageNanoCores) in
      let memUsed := util.Base2BytesToKilobytes (float64 workingSetBytes) in
      let totalUsedCPU := totalUsedCPU + cpuUsed in
      let totalUsedMem := totalUsedMem + memUsed in
      let containerMId := ContainerMetricId podMId (stats.ContainerStats.Name container) in
      let m := genUsedMetrics m metrics.ContainerType containerMId cpuUsed memUsed timestamp in
      let m := genRequestUsedMetrics m metrics.ContainerType containerMId cpuUsed memUsed timestamp in
      let appMId := ApplicationMetricId containerMId in
      let m := genUsedMetrics m metrics.ApplicationType appMId cpuUsed memUsed timestamp in
      (totalUsedCPU, totalUsedMem, m)
    end
  end.

Definition parseContainerStats (m : KubeletMonitor) (pod : stats.PodStats.t)
    (timestamp : Z) : float * float * KubeletMonitor :=
  let podMId := PodMetricId (stats.PodStats.PodRef pod) in
  let containers := stats.PodStats.Containers pod in
  fold_left (containerStep podMId timestamp) containers (0, 0, m).

Definition volumeStep (podKey : string) (m : KubeletMonitor)
    (volStat : stats.VolumeStats.t) : KubeletMonitor :=
  let capacity :=
    match stats.VolumeStats.CapacityBytes volStat with
    | Some v => util.Base2BytesToMegabytes (float64 v)
    | None => 0
    end in
  let used :=
    match stats.VolumeStats.UsedBytes volStat with
    | Some v => util.Base2BytesToMegabytes (float64 v)
    | None => 0
    end in
  let volKey := PodVolumeMetricId podKey (stats.VolumeStats.Name volStat) in
  genPVMetrics m metrics.PodType volKey capacity used.

Definition parseVolumeStats (m : KubeletMonitor)
    (volStats : list stats.VolumeStats.t) (podKey : string) : KubeletMonitor :=
  fold_left (volumeStep podKey) volStats m.

Definition podStep (timestamp : Z) (m : KubeletMonitor) (pod : stats.PodStats.t)
    : KubeletMonitor :=
  let '(cpuUsed, memUsed, m) := parseContainerStats m pod timestamp in
  let key := PodMetricId (stats.PodStats.PodRef pod) in
  let ephemeralFsCapacity :=
    match nonNil2 (stats.PodStats.EphemeralStorage pod) stats.FsStats.CapacityBytes with
    | Some v => util.Base2BytesToMegabytes (float64 v)
    | None => 0
    end in
  let ephemeralFsUsed :=
    match nonNil2 (stats.PodStats.EphemeralStorage pod) stats.FsStats.UsedBytes with
    | Some v => util.Base2BytesToMegabytes (float64 v)
    | None => 0
    end in
  let m := genUsedMetrics m metrics.PodType key cpuUsed memUsed timestamp in
  if isFullDiscovery m then
    let m := genNumConsumersUsedMetrics m metrics.PodType key in
    let m := genFSMetrics m metrics.PodType key ephemeralFsCapacity ephemeralFsUsed 0 in
    if Enabled features.PersistentVolumes
    then parseVolumeStats m (stats.PodStats.VolumeStats pod) key
    else m
  else m.

Definition parsePodStats (m : KubeletMonitor) (podStats : list stats.PodStats.t)
    (timestamp : Z) : KubeletMonitor :=
  fold_left (podStep timestamp) podStats m.

(** ** Scraping one node *)

(** What follows the cache check of scrapeKubelet: thresholds, throttling
    counters, then the three parsers.  Both fetches only log their error,
    and the lookup of the throttled-periods family only logs. *)
Definition collect (m : KubeletMonitor) (node : api.Node) (ip : string)
    (summary : ptr stats.Summary.t) : option KubeletMonitor :=
  let kc := kubeletClient m in
  let '(thresholds, _) := kubeclient.GetKubeletThresholds kc ip (api.Name node) in
  let '(metricFamilies, _) := kubeclient.GetCPUThrottlingMetrics kc ip (api.Name node) in
  let currentMilliSec := (UnixNano node ÷ 1000000)%Z in
  let m := generateThrottlingMetrics m metricFamilies currentMilliSec in
  summary ← deref summary;
  m ← parseNodeStats m (stats.Summary.Node summary) thresholds currentMilliSec;
  Some (parsePodStats m (stats.Summary.Pods summary) currentMilliSec).

(** [Some m'] is the monitor when the function returns, early or not; [None]
    is a panic. *)
Definition scrapeKubelet (m : KubeletMonitor) (node : api.Node)
    : option KubeletMonitor :=
  let kc := kubeletClient m in
  let freq :=
    if isFullDiscovery m then Some (kubeclient.GetNodeCpuFrequency kc node) else None in
  match freq with
  | Some (_, Some err) => Some m
  | _ =>
    let m :=
      match freq with
      | Some (nodefreq, _) => parseNodeCpuFreq m node nodefreq
      | None => m
      end in
    let '(ip, err) := GetNodeIPForMonitor node types.KubeletSource in
    match err with
    | Some _ => Some m
    | None =>
      let '(summary, err) := kubeclient.GetSummary kc ip (api.Name node) in
      match err with
      | Some _ => Some m
      | None =>
        if kubeclient.HasCacheBeenUsed kc ip then
          if isFullDiscovery m then
            let cacheUsedMetric :=
              metrics.NewEntityStateMetric metrics.NodeType (NodeKeyFunc node)
                metrics.NodeCacheUsed 1 in
            collect (addEntries m [cacheUsedMetric]) node ip summary
          else Some m
        else collect m node ip summary
      end
    end
  end.

(** ** The cycle *)

(** The goroutine of one node: the select on [stopCh], then the scrape. *)
Definition task (m : KubeletMonitor) (n : api.Node) : option KubeletMonitor :=
  match try_receive (stopCh m) with
  | Some c => Some (with_stopCh m c)
  | None => scrapeKubelet m n
  end.

(** The goroutines share the stop channel and the sink only.  A receive is
    atomic and the additions to the sink of two tasks commute up to the
    order of the entries, so a run of the goroutines is given by the order
    [sched] in which the tasks start; a panic of one of them ends the
    process. *)
Definition runTasks (sched : list api.Node) (m : KubeletMonitor)
    : option KubeletMonitor :=
  foldM task sched m.

Definition closeStopCh (m : KubeletMonitor) : option KubeletMonitor :=
  c ← close (stopCh m); Some (with_stopCh m c).

(** The returned [error] ([None] is nil) and the monitor after the deferred
    close; the outer [None] is a panic. *)
Definition RetrieveResourceStat (sched : list api.Node) (m : KubeletMonitor)
    : option (ptr error * KubeletMonitor) :=
  match nodeList m with
  | [] =>
      m ← closeStopCh m;
      Some (Some "Invalid nodeList or empty nodeList. Finish Immediately...", m)
  | _ :: _ =>
      m ← runTasks sched m;
      m ← closeStopCh m;
      Some (None, m)
  end.

Definition Do (sched : list api.Node) (m : KubeletMonitor)
    : option metrics.EntityMetricSink :=
  r ← RetrieveResourceStat sched m;
  Some (metricSink r.2).

End Monitor.


(** * The group and version of a resource: from
      cmd/kubeturbo/app/kubeturbo_builder.go *)

(** ** Package schema *)
Module schema.
Record GroupVersion := { Group : string; Version : string }.
End schema.

(** ** Package metav1 *)
Module metav1.
Record APIResource := { Name : string }.
Record APIResourceList :=
  { GroupVersion : string; APIResources : list APIResource }.
End metav1.

(** ** Package kubernetes *)
Module kubernetes.
(** A client set, given by what [ServerPreferredResources] answers: a slice
    of pointers ([None] is the nil slice) and an error. *)
Record Clientset :=
  { ServerPreferredResources :
      ptr (list (ptr metav1.APIResourceList)) * ptr error }.
End kubernetes.

(** ** What the discovery takes from outside

    The parser of group versions and the comparison of versions are of the
    Kubernetes libraries, the group names and the default of package util;
    none is among the sources: they are parameters. *)
Class Apimachinery :=
  { (** [schema.ParseGroupVersion] *)
    ParseGroupVersion : string -> schema.GroupVersion * ptr error;
    (** [versionhelper.CompareKubeAwareVersionStrings] *)
    CompareKubeAwareVersionStrings : string -> string -> Z;
    K8sExtensionsGroupName : string;
    K8sAppsGroupName : string;
    K8sAPIDeploymentReplicasetDefaultGV : schema.GroupVersion }.

Section Builder.
Context `{Apimachinery}.

Definition latestComparedVersion (newVersion existingVersion : string) : string :=
  if negb (existingVersion =? "")%string
     && (CompareKubeAwareVersionStrings newVersion existingVersion <=? 0)%Z
  then existingVersion
  else newVersion.

(** The inner loop of discoverk8sAPIResourceGV: is there a resource of that
    name in the list. *)
Definition found (resourceName : string) (apiResources : list metav1.APIResource)
    : bool :=
  existsb (fun apiResource => (metav1.Name apiResource =? resourceName)%string)
    apiResources.

(** The three returns that follow the loop. *)
Definition discovered (latestExtensionsVersion latestAppsVersion : schema.GroupVersion)
    : schema.GroupVersion * ptr error :=
  if negb (schema.Version latestAppsVersion =? "")%string
  then (latestAppsVersion, None)
  else if negb (schema.Version latestExtensionsVersion =? "")%string
  then (latestExtensionsVersion, None)
  else (K8sAPIDeploymentReplicasetDefaultGV, None).

(** The loop over the lists, from the two versions found so far, and what
    follows it.  [None] is the panic on a nil list. *)
Fixpoint discoverLoop (resourceName : string)
    (apiResourceLists : list (ptr metav1.APIResourceList))
    (latestExtensionsVersion latestAppsVersion : schema.GroupVersion)
    : option (schema.GroupVersion * ptr error) :=
  match apiResourceLists with
  | [] => Some (discovered latestExtensionsVersion latestAppsVersion)
  | apiResourceList :: rest =>
      apiResourceList ← deref apiResourceList;
      if (length (metav1.APIResources apiResourceList) =? 0)%nat then
        discoverLoop resourceName rest latestExtensionsVersion latestAppsVersion
      else if negb (found resourceName (metav1.APIResources apiResourceList)) then
        discoverLoop resourceName rest latestExtensionsVersion latestAppsVersion
      else
        let '(gv, err) := ParseGroupVersion (metav1.GroupVersion apiResourceList) in
        match err with
        | Some err =>
            Some (K8sAPIDeploymentReplicasetDefaultGV,
                  Some ("error parsing GroupVersion: " +:+ err))
        | None =>
            let group := schema.Group gv in
            let version := schema.Version gv in
            if (group =? K8sExtensionsGroupName)%string then
              discoverLoop resourceName rest
                {| schema.Group := schema.Group latestExtensionsVersion;
                   schema.Version :=
                     latestComparedVersion version
                       (schema.Version latestExtensionsVersion) |}
                latestAppsVersion
            else if (group =? K8sAppsGroupName)%string then
              discoverLoop resourceName rest latestExtensionsVersion
                {| schema.Group := schema.Group latestAppsVersion;
                   schema.Version :=
                     latestComparedVersion version
                       (schema.Version latestAppsVersion) |}
            else
              discoverLoop resourceName rest latestExtensionsVersion latestAppsVersion
        end
  end.

(** The error of the client is only logged when lists came back. *)
Definition discoverk8sAPIResourceGV (client : kubernetes.Clientset)
    (resourceName : string) : option (schema.GroupVersion * ptr error) :=
  let defaultGV := K8sAPIDeploymentReplicasetDefaultGV in
  let '(apiResourceLists, err) := kubernetes.ServerPreferredResources client in
  match apiResourceLists with
  | None => Some (defaultGV, err)
  | Some apiResourceLists =>
      discoverLoop resourceName apiResourceLists
        {| schema.Group := K8sExtensionsGroupName; schema.Version := "" |}
        {| schema.Group := K8sAppsGroupName; schema.Version := "" |}
  end.

End Builder.
(** ** The vocabulary of the statements *)

(** A threshold the loop can read without a panic: its signal is not one of
    the three, or its value carries a percentage or a non-nil quantity. *)
Definition readable (t : evictionapi.Threshold) : Prop :=
  match evictionapi.Signal_ t with
  | evictionapi.SignalOther _ => True
  | _ =>
      (evictionapi.Percentage (evictionapi.Value t) =? 0)%float = false
      \/ is_Some (evictionapi.Quantity (evictionapi.Value t))
  end.

(** The threshold entry of a node resource. *)
Definition thresholdEntry (key : string) (rtype : metrics.ResourceType) (v : float)
    : metrics.EntityMetric :=
  metrics.EntityResourceMetric metrics.NodeType key rtype metrics.Threshold
    (metrics.Scalar v).

(** The range check of parseThresholdValues: [x <= 0 || x >= 100]. *)
Definition outOfRange (x : float) : bool := fle x 0 || fge x 100.

(** A label that names no container. *)
Definition notContainerLabel (l : dto.LabelPair) : Prop :=
  dto.Name l <> "container" /\ dto.Name l <> "container_name".


(** The entry generateThrottlingMetrics adds for an identity. *)
Definition throttlingEntry (timestamp : Z) (e : string * throttlingMetric)
    : metrics.EntityMetric :=
  metrics.EntityResourceMetric metrics.ContainerType e.1
    metrics.VCPUThrottling metrics.Used
    (metrics.Throttling
       [ {| metrics.Throttled := cpuThrottled e.2;
            metrics.Total := cpuTotal e.2;
            metrics.TTimestamp := timestamp |} ]).

(** An identity is reported by the families when some point of theirs
    carries a container label and the labels of that identity. *)
Definition reports (metricFamilies : list (string * ptr dto.MetricFamily))
    (i : string) : Prop :=
  exists metricName f metric,
    (metricName, f) ∈ metricFamilies /\ Some metric ∈ dto.GetMetric f /\
    name (readLabels (dto.Label metric)) <> "" /\
    metricID (readLabels (dto.Label metric)) = i.

(** Every family is a counter. *)
Definition allCounters (metricFamilies : list (string * ptr dto.MetricFamily)) : Prop :=
  Forall (fun e => dto.GetType e.2 = dto.MetricType_COUNTER) metricFamilies.

(** No family bears the total-periods name. *)
Definition totalAbsent (metricFamilies : list (string * ptr dto.MetricFamily)) : Prop :=
  Forall (fun e => e.1 <> kubeclient.ContainerCPUTotal) metricFamilies.

(** Every throttling metric of the map has a zero total. *)
Definition totalsZero (parsed : gmap string throttlingMetric) : Prop :=
  forall i tm, parsed !! i = Some tm -> cpuTotal tm = 0.

(** The monitor with an emptied sink. *)
Definition cfg (m : KubeletMonitor) : KubeletMonitor := with_metricSink m [].

(** The monitor with the entries [s] put before its own. *)
Definition prepend (s : metrics.EntityMetricSink) (m : KubeletMonitor) : KubeletMonitor :=
  with_metricSink m (s ++ metricSink m).

(** The two totals and the monitor of parseContainerStats, with [s] put
    before the entries of the monitor. *)
Definition prepend3 (s : metrics.EntityMetricSink)
    (acc : float * float * KubeletMonitor) : float * float * KubeletMonitor :=
  (acc.1.1, acc.1.2, prepend s acc.2).

(** The image file system statistics of the node, if there are any, do not
    report used bytes without available bytes. *)
Definition imagefsConsistent (nodeStats : stats.NodeStats.t) : Prop :=
  forall fs,
    nonNil2 (stats.NodeStats.Runtime nodeStats) stats.RuntimeStats.ImageFs = Some fs ->
    is_Some (stats.FsStats.UsedBytes fs) ->
    is_Some (stats.FsStats.AvailableBytes fs).

(** A used entry of a node, as parseNodeStats adds first. *)
Definition isNodeUsed (key : string) (rtype : metrics.ResourceType)
    (e : metrics.EntityMetric) : Prop :=
  exists v timestamp,
    e = metrics.EntityResourceMetric metrics.NodeType key rtype metrics.Used
          (metrics.Points
             [ {| metrics.Value := v; metrics.Timestamp := timestamp |} ]).

Section Vocabulary.
Context `{Collaborators}.

(** The entries the scrape of [node] adds: the sink it leaves when it starts
    from an empty one; [None] when it panics. *)
Definition contribution (m : KubeletMonitor) (node : api.Node)
    : option (list metrics.EntityMetric) :=
  metricSink <$> scrapeKubelet (cfg m) node.

(** The state entries of scrapeKubelet. *)
Definition cpuFrequencyEntry (node : api.Node) (cpuFrequencyMHz : float)
    : metrics.EntityMetric :=
  metrics.EntityStateMetric metrics.NodeType (NodeKeyFunc node)
    metrics.CpuFrequency cpuFrequencyMHz.

Definition cacheUsedEntry (node : api.Node) : metrics.EntityMetric :=
  metrics.EntityStateMetric metrics.NodeType (NodeKeyFunc node)
    metrics.NodeCacheUsed 1.

(** The summary of the node is not fetched: its address is not found, or
    the fetch answers an error. *)
Definition summaryFails (m : KubeletMonitor) (node : api.Node) : Prop :=
  is_Some (GetNodeIPForMonitor node types.KubeletSource).2 \/
  is_Some (kubeclient.GetSummary (kubeletClient m)
             (GetNodeIPForMonitor node types.KubeletSource).1 (api.Name node)).2.

(** What the scrape of a node adds when its summary is not fetched: in full
    discovery the frequency entry, if the frequency was fetched. *)
Definition entriesBeforeSummary (m : KubeletMonitor) (node : api.Node)
    : list metrics.EntityMetric :=
  if isFullDiscovery m then
    match kubeclient.GetNodeCpuFrequency (kubeletClient m) node with
    | (nodefreq, None) => [cpuFrequencyEntry node nodefreq]
    | (_, Some _) => []
    end
  else [].

(** Every call of the client for the node succeeds and answers [summary],
    and, in a sampling discovery, not from the cache. *)
Definition answersAll (m : KubeletMonitor) (node : api.Node)
    (summary : stats.Summary.t) : Prop :=
  let kc := kubeletClient m in
  exists ip,
    (kubeclient.GetNodeCpuFrequency kc node).2 = None /\
    GetNodeIPForMonitor node types.KubeletSource = (ip, None) /\
    kubeclient.GetSummary kc ip (api.Name node) = (Some summary, None) /\
    (kubeclient.GetKubeletThresholds kc ip (api.Name node)).2 = None /\
    (kubeclient.GetCPUThrottlingMetrics kc ip (api.Name node)).2 = None /\
    (isFullDiscovery m = true \/ kubeclient.HasCacheBeenUsed kc ip = false).

(** The answers of the client for a node cannot make its scrape panic: a
    summary fetched without error is not nil, its image file system does
    not report used bytes without available bytes, and, in a full
    discovery, the thresholds are readable.  Nothing is asked of the errors
    the fetches answer. *)
Definition wellFormedAnswers (full : bool) (kc : kubeclient.KubeletClient)
    (node : api.Node) : Prop :=
  forall ip summary,
    GetNodeIPForMonitor node types.KubeletSource = (ip, None) ->
    kubeclient.GetSummary kc ip (api.Name node) = (summary, None) ->
    exists s,
      summary = Some s /\
      imagefsConsistent (stats.Summary.Node s) /\
      (full = true ->
       Forall readable (kubeclient.GetKubeletThresholds kc ip (api.Name node)).1).

End Vocabulary.

(** ** More vocabulary: entries *)

(** The key of an entry. *)
Definition entryKey (e : metrics.EntityMetric) : string :=
  match e with
  | metrics.EntityStateMetric _ key _ _ => key
  | metrics.EntityResourceMetric _ key _ _ _ => key
  end.

(** The CPU (in cores) and memory (in KB) a container uses, when its
    statistics hold both. *)
Definition usage (container : stats.ContainerStats.t) : option (float * float) :=
  cpu ← nonNil2 (stats.ContainerStats.CPU container) stats.CPUStats.UsageNanoCores;
  mem ← nonNil2 (stats.ContainerStats.Memory container) stats.MemoryStats.WorkingSetBytes;
  Some (util.MetricNanoToUnit (float64 cpu), util.Base2BytesToKilobytes (float64 mem)).

(** Go's left-to-right sum of [float64] values, from 0. *)
Definition fsum (xs : list float) : float := fold_left PrimFloat.add xs 0.

(** A used sample of an entity. *)
Definition usedSample (etype : metrics.DiscoveredEntityType) (key : string)
    (rtype : metrics.ResourceType) (v : float) (timestamp : Z)
    : metrics.EntityMetric :=
  metrics.EntityResourceMetric etype key rtype metrics.Used
    (metrics.Points [ {| metrics.Value := v; metrics.Timestamp := timestamp |} ]).

(** Every sample of the entry carries the time stamp [timestamp]. *)
Definition stamped (timestamp : Z) (e : metrics.EntityMetric) : Prop :=
  match e with
  | metrics.EntityResourceMetric _ _ _ _ (metrics.Points ps) =>
      Forall (fun p => metrics.Timestamp p = timestamp) ps
  | metrics.EntityResourceMetric _ _ _ _ (metrics.Throttling ts) =>
      Forall (fun t => metrics.TTimestamp t = timestamp) ts
  | _ => True
  end.

(** A usage sample: used CPU or memory (plain or against the request) of
    some entity, or the cumulative throttling counters of a container. *)
Definition usageSample (e : metrics.EntityMetric) : Prop :=
  match e with
  | metrics.EntityResourceMetric etype _ rtype prop v =>
      prop = metrics.Used /\
      match v with
      | metrics.Points _ =>
          rtype = metrics.CPU \/ rtype = metrics.Memory
          \/ rtype = metrics.CPURequest \/ rtype = metrics.MemoryRequest
      | metrics.Throttling _ =>
          rtype = metrics.VCPUThrottling /\ etype = metrics.ContainerType
      | metrics.Scalar _ => False
      end
  | metrics.EntityStateMetric _ _ _ _ => False
  end.

(** Not an entry of a volume. *)
Definition noVolume (e : metrics.EntityMetric) : Prop :=
  match e with
  | metrics.EntityResourceMetric _ _ metrics.StorageAmount _ _ => False
  | _ => True
  end.

(** What holds of every entry a scrape adds, by the mode of the discovery
    and the gate of the volumes. *)
Definition entryOK (full gate : bool) (timestamp : Z)
    (e : metrics.EntityMetric) : Prop :=
  stamped timestamp e /\
  (full = false -> usageSample e) /\
  (full && gate = false -> noVolume e).

Section Vocabulary2.
Context `{Collaborators}.

(** The six entries of a container with statistics: used and request-used
    of the container, used of its application. *)
Definition containerEntries (podMId : string) (timestamp : Z)
    (container : stats.ContainerStats.t) : list metrics.EntityMetric :=
  match usage container with
  | None => []
  | Some (cpu, mem) =>
      let containerMId :=
        ContainerMetricId podMId (stats.ContainerStats.Name container) in
      let appMId := ApplicationMetricId containerMId in
      [ usedSample metrics.ContainerType containerMId metrics.CPU cpu timestamp;
        usedSample metrics.ContainerType containerMId metrics.Memory mem timestamp;
        usedSample metrics.ContainerType containerMId metrics.CPURequest cpu timestamp;
        usedSample metrics.ContainerType containerMId metrics.MemoryRequest mem timestamp;
        usedSample metrics.ApplicationType appMId metrics.CPU cpu timestamp;
        usedSample metrics.ApplicationType appMId metrics.Memory mem timestamp ]
  end.

End Vocabulary2.

(** Two states of the loop of parseThresholdValues agree on the thresholds
    of the signals other than [s]. *)
Definition agreeOutside (s : evictionapi.Signal) (c c' : computed) : Prop :=
  match s with
  | evictionapi.SignalMemoryAvailable =>
      rootfsThreshold c = rootfsThreshold c' /\
      imagefsThreshold c = imagefsThreshold c'
  | evictionapi.SignalNodeFsAvailable =>
      memThreshold c = memThreshold c' /\
      imagefsThreshold c = imagefsThreshold c'
  | evictionapi.SignalImageFsAvailable =>
      memThreshold c = memThreshold c' /\
      rootfsThreshold c = rootfsThreshold c'
  | evictionapi.SignalOther _ => c = c'
  end.

(** The statistics of a node without the used bytes of its file systems:
    those of the root file system are dropped; of those of the image file
    system only whether they are there is kept, and without them the
    available bytes are dropped too. *)
Definition withoutUsedBytes (nodeStats : stats.NodeStats.t) : stats.NodeStats.t :=
  {| stats.NodeStats.NodeName := stats.NodeStats.NodeName nodeStats;
     stats.NodeStats.CPU := stats.NodeStats.CPU nodeStats;
     stats.NodeStats.Memory := stats.NodeStats.Memory nodeStats;
     stats.NodeStats.Fs :=
       (fun fs =>
          {| stats.FsStats.AvailableBytes := stats.FsStats.AvailableBytes fs;
             stats.FsStats.CapacityBytes := stats.FsStats.CapacityBytes fs;
             stats.FsStats.UsedBytes := None |})
       <$> stats.NodeStats.Fs nodeStats;
     stats.NodeStats.Runtime :=
       (fun r =>
          {| stats.RuntimeStats.ImageFs :=
               (fun fs =>
                  {| stats.FsStats.AvailableBytes :=
                       match stats.FsStats.UsedBytes fs with
                       | Some _ => stats.FsStats.AvailableBytes fs
                       | None => None
                       end;
                     stats.FsStats.CapacityBytes := stats.FsStats.CapacityBytes fs;
                     stats.FsStats.UsedBytes :=
                       match stats.FsStats.UsedBytes fs with
                       | Some _ => Some 0%Z
                       | None => None
                       end |})
               <$> stats.RuntimeStats.ImageFs r |})
       <$> stats.NodeStats.Runtime nodeStats |}.


(** ** Vocabulary of the statements on the group and version *)

Section Vocabulary3.
Context `{Apimachinery}.

(** The version a list offers for a resource in a group: the list is not
    nil, names the resource, and its group version parses to that group. *)
Definition offeredVersion (resourceName group : string)
    (apiResourceList : ptr metav1.APIResourceList) : option string :=
  match apiResourceList with
  | Some l =>
      if found resourceName (metav1.APIResources l) then
        match ParseGroupVersion (metav1.GroupVersion l) with
        | (gv, None) =>
            if (schema.Group gv =? group)%string then Some (schema.Version gv)
            else None
        | (_, Some _) => None
        end
      else None
  | None => None
  end.

(** The versions the lists offer for a resource in a group, in the order of
    the lists. *)
Definition offeredVersions (resourceName group : string)
    (apiResourceLists : list (ptr metav1.APIResourceList)) : list string :=
  omap (offeredVersion resourceName group) apiResourceLists.

(** The list names the resource and its group version does not parse. *)
Definition unparsable (resourceName : string) (l : metav1.APIResourceList)
    (err : error) : Prop :=
  found resourceName (metav1.APIResources l) = true /\
  (ParseGroupVersion (metav1.GroupVersion l)).2 = Some err.

(** The latest of the versions, as a run of latestComparedVersion finds it
    from [existingVersion]. *)
Definition latest (existingVersion : string) (versions : list string) : string :=
  fold_left (fun existing new => latestComparedVersion new existing)
    versions existingVersion.

End Vocabulary3.
(** ** Concrete inputs

    The clients, collaborators and nodes at which statements are
    evaluated. *)
Module fixtures.

Definition node1 : api.Node := {| api.Name := "node-1" |}.
Definition node2 : api.Node := {| api.Name := "node-2" |}.

(** A client none of whose fetches succeeds. *)
Definition unreachable : kubeclient.KubeletClient :=
  {| kubeclient.GetNodeCpuFrequency := fun _ => (0, Some "unreachable");
     kubeclient.GetSummary := fun _ _ => (None, Some "unreachable");
     kubeclient.HasCacheBeenUsed := fun _ => false;
     kubeclient.GetKubeletThresholds := fun _ _ => ([], Some "unreachable");
     kubeclient.GetCPUThrottlingMetrics := fun _ _ => ([], Some "unreachable") |}.

(** 50 MiB and 8 GiB, in bytes. *)
Definition MiB50 : float := 52428800.
Definition GiB8 : float := 8589934592.

(** An image file system threshold of 25%. *)
Definition imagefs25 : evictionapi.Threshold :=
  {| evictionapi.Signal_ := evictionapi.SignalImageFsAvailable;
     evictionapi.Value :=
       {| evictionapi.Quantity := None; evictionapi.Percentage := 0.25 |} |}.

(** A counter family with one point, labelled with a container, a
    namespace and a pod. *)
Definition labels (c ns p : string) : list dto.LabelPair :=
  [ {| dto.Name := "container"; dto.Value := c |};
    {| dto.Name := "namespace"; dto.Value := ns |};
    {| dto.Name := "pod"; dto.Value := p |} ].

Definition point (ls : list dto.LabelPair) (v : float) : ptr dto.Metric :=
  Some {| dto.Label := ls; dto.Counter_ := Some {| dto.CValue := Some v |} |}.

Definition counterFamily (points : list (ptr dto.Metric)) : ptr dto.MetricFamily :=
  Some {| dto.Type_ := Some dto.MetricType_COUNTER; dto.Metric_ := points |}.

Definition total (c ns p : string) : string * ptr dto.MetricFamily :=
  (kubeclient.ContainerCPUTotal, counterFamily [point (labels c ns p) 10]).

Definition throttled (c ns p : string) : string * ptr dto.MetricFamily :=
  (kubeclient.ContainerCPUThrottledTotal, counterFamily [point (labels c ns p) 5]).


(** The labels of the example in the doc comment of parseMetricFamilies. *)
Definition docLabels : list dto.LabelPair :=
  [ {| dto.Name := "container"; dto.Value := "metallb-speaker" |};
    {| dto.Name := "id";
       dto.Value := "/kubepods/pod8266a379-dd56-42f8-8af0-19fc0d8ea3af/8e1a2ff0f116c9d086af53cbd7430dced0e70fed104aea79e3891870564aed38" |};
    {| dto.Name := "image";
       dto.Value := "sha256:8c49f7de2c13b87026d7afb04f35494e5d9ce6b5eeeb7f8983d38e601d0ac910" |};
    {| dto.Name := "name";
       dto.Value := "k8s_metallb-speaker_metallb-speaker-m29mf_ccp_8266a379-dd56-42f8-8af0-19fc0d8ea3af_16" |};
    {| dto.Name := "namespace"; dto.Value := "ccp" |};
    {| dto.Name := "pod"; dto.Value := "metallb-speaker-m29mf" |} ].

(** Modelled from the spec: the keys and addresses of package util, which
    is not among the sources ("entity keys are deterministic, derived
    functions of cluster identity (node name; namespace/pod/container
    tuple)"); every gate at its default; a clock that stands still. *)
Definition collab : Collaborators :=
  {| NodeKeyFunc := api.Name;
     NodeStatsKeyFunc := stats.NodeStats.NodeName;
     PodMetricId := fun r =>
       stats.PodReference.Namespace r +:+ "/" +:+ stats.PodReference.Name r;
     ContainerMetricId := fun podMId containerName =>
       podMId +:+ "/" +:+ containerName;
     ApplicationMetricId := fun containerMId => "App-" +:+ containerMId;
     PodVolumeMetricId := fun podKey volName => podKey +:+ "-" +:+ volName;
     GetNodeIPForMonitor := fun n _ => ("ip-of-" +:+ api.Name n, None);
     Enabled := fun f =>
       default false
         (snd <$> find (fun e => (e.1 =? f)%string)
                    features.DefaultKubeturboFeatureGates);
     UnixNano := fun _ => 1700000000123456789%Z |}.

(** The statistics of a node that uses half a core and has a working set
    of 2 GiB out of 8 GiB; no file system statistics. *)
Definition nodeStatsOf (nodeName : string) : stats.NodeStats.t :=
  {| stats.NodeStats.NodeName := nodeName;
     stats.NodeStats.CPU :=
       Some {| stats.CPUStats.UsageNanoCores := Some 500000000%Z |};
     stats.NodeStats.Memory :=
       Some {| stats.MemoryStats.AvailableBytes := Some 6442450944%Z;
               stats.MemoryStats.WorkingSetBytes := Some 2147483648%Z |};
     stats.NodeStats.Fs := None;
     stats.NodeStats.Runtime := None |}.

Definition summaryOf (nodeName : string) : stats.Summary.t :=
  {| stats.Summary.Node := nodeStatsOf nodeName; stats.Summary.Pods := [] |}.

(** A client all of whose fetches succeed; no pod, no threshold, no
    throttling counter. *)
Definition reachable : kubeclient.KubeletClient :=
  {| kubeclient.GetNodeCpuFrequency := fun _ => (2400, None);
     kubeclient.GetSummary := fun _ nodeName => (Some (summaryOf nodeName), None);
     kubeclient.HasCacheBeenUsed := fun _ => false;
     kubeclient.GetKubeletThresholds := fun _ _ => ([], None);
     kubeclient.GetCPUThrottlingMetrics := fun _ _ => ([], None) |}.

(** The same, answering from its cache. *)
Definition cached : kubeclient.KubeletClient :=
  {| kubeclient.GetNodeCpuFrequency := fun _ => (2400, None);
     kubeclient.GetSummary := fun _ nodeName => (Some (summaryOf nodeName), None);
     kubeclient.HasCacheBeenUsed := fun _ => true;
     kubeclient.GetKubeletThresholds := fun _ _ => ([], None);
     kubeclient.GetCPUThrottlingMetrics := fun _ _ => ([], None) |}.

(** A client that gets the frequency of a node but not its summary. *)
Definition summaryDown : kubeclient.KubeletClient :=
  {| kubeclient.GetNodeCpuFrequency := fun _ => (2400, None);
     kubeclient.GetSummary := fun _ _ => (None, Some "connection refused");
     kubeclient.HasCacheBeenUsed := fun _ => false;
     kubeclient.GetKubeletThresholds := fun _ _ => ([], None);
     kubeclient.GetCPUThrottlingMetrics := fun _ _ => ([], None) |}.

(** Node statistics whose image file system reports its used bytes and its
    capacity, but not its available bytes. *)
Definition imagefsUsedOnly : stats.NodeStats.t :=
  {| stats.NodeStats.NodeName := "node-1";
     stats.NodeStats.CPU := None;
     stats.NodeStats.Memory := None;
     stats.NodeStats.Fs := None;
     stats.NodeStats.Runtime :=
       Some {| stats.RuntimeStats.ImageFs :=
                 Some {| stats.FsStats.AvailableBytes := None;
                         stats.FsStats.CapacityBytes := Some 107374182400%Z;
                         stats.FsStats.UsedBytes := Some 1073741824%Z |} |} |}.

(** A client all of whose fetches succeed, with those statistics. *)
Definition imagefsUsedOnlyClient : kubeclient.KubeletClient :=
  {| kubeclient.GetNodeCpuFrequency := fun _ => (2400, None);
     kubeclient.GetSummary := fun _ _ =>
       (Some {| stats.Summary.Node := imagefsUsedOnly; stats.Summary.Pods := [] |},
        None);
     kubeclient.HasCacheBeenUsed := fun _ => false;
     kubeclient.GetKubeletThresholds := fun _ _ => ([], None);
     kubeclient.GetCPUThrottlingMetrics := fun _ _ => ([], None) |}.

(** The used entries of a node of [reachable]. *)
Definition usedEntries (nodeName : string) : list metrics.EntityMetric :=
  [ metrics.EntityResourceMetric metrics.NodeType nodeName metrics.CPU metrics.Used
      (metrics.Points
         [ {| metrics.Value := 0.5; metrics.Timestamp := 1700000000123 |} ]);
    metrics.EntityResourceMetric metrics.NodeType nodeName metrics.Memory metrics.Used
      (metrics.Points
         [ {| metrics.Value := 2097152; metrics.Timestamp := 1700000000123 |} ]) ].

End fixtures.

(** ** More concrete inputs *)
Module samples.

(** A gauge family with one point. *)
Definition gaugeFamily (points : list (ptr dto.Metric)) : ptr dto.MetricFamily :=
  Some {| dto.Type_ := Some dto.MetricType_GAUGE; dto.Metric_ := points |}.

Definition memoryGauge : string * ptr dto.MetricFamily :=
  ("container_memory_working_set_bytes",
   gaugeFamily [fixtures.point (fixtures.labels "c" "ns" "p") 4096]).

(** A container that uses a quarter of a core and 1 MiB, one without
    memory statistics, and a pod of the two. *)
Definition busy : stats.ContainerStats.t :=
  {| stats.ContainerStats.Name := "busy";
     stats.ContainerStats.CPU :=
       Some {| stats.CPUStats.UsageNanoCores := Some 250000000%Z |};
     stats.ContainerStats.Memory :=
       Some {| stats.MemoryStats.AvailableBytes := None;
               stats.MemoryStats.WorkingSetBytes := Some 1048576%Z |} |}.

Definition starting : stats.ContainerStats.t :=
  {| stats.ContainerStats.Name := "starting";
     stats.ContainerStats.CPU :=
       Some {| stats.CPUStats.UsageNanoCores := Some 1000%Z |};
     stats.ContainerStats.Memory := None |}.

Definition podRef : stats.PodReference.t :=
  {| stats.PodReference.Name := "p"; stats.PodReference.Namespace := "ns";
     stats.PodReference.UID := "uid-1" |}.

Definition pod (containers : list stats.ContainerStats.t) : stats.PodStats.t :=
  {| stats.PodStats.PodRef := podRef;
     stats.PodStats.Containers := containers;
     stats.PodStats.EphemeralStorage := None;
     stats.PodStats.VolumeStats := [] |}.

(** A pod that mounts a volume of 1 GiB, half of it used. *)
Definition podWithVolume : stats.PodStats.t :=
  {| stats.PodStats.PodRef := podRef;
     stats.PodStats.Containers := [busy; starting];
     stats.PodStats.EphemeralStorage := None;
     stats.PodStats.VolumeStats :=
       [ {| stats.VolumeStats.Name := "data";
            stats.VolumeStats.CapacityBytes := Some 1073741824%Z;
            stats.VolumeStats.UsedBytes := Some 536870912%Z |} ] |}.

(** A client all of whose fetches succeed, for nodes that run that pod and
    report the throttling counters of its container. *)
Definition busyClient : kubeclient.KubeletClient :=
  {| kubeclient.GetNodeCpuFrequency := fun _ => (2400, None);
     kubeclient.GetSummary := fun _ nodeName =>
       (Some {| stats.Summary.Node := fixtures.nodeStatsOf nodeName;
                stats.Summary.Pods := [podWithVolume] |}, None);
     kubeclient.HasCacheBeenUsed := fun _ => false;
     kubeclient.GetKubeletThresholds := fun _ _ => ([], None);
     kubeclient.GetCPUThrottlingMetrics := fun _ _ =>
       ([fixtures.total "busy" "ns" "p"; fixtures.throttled "busy" "ns" "p"],
        None) |}.

(** The collaborators of [fixtures.collab] with every gate disabled. *)
Definition gatesOff : Collaborators :=
  {| NodeKeyFunc := @NodeKeyFunc fixtures.collab;
     NodeStatsKeyFunc := @NodeStatsKeyFunc fixtures.collab;
     PodMetricId := @PodMetricId fixtures.collab;
     ContainerMetricId := @ContainerMetricId fixtures.collab;
     ApplicationMetricId := @ApplicationMetricId fixtures.collab;
     PodVolumeMetricId := @PodVolumeMetricId fixtures.collab;
     GetNodeIPForMonitor := @GetNodeIPForMonitor fixtures.collab;
     Enabled := fun _ => false;
     UnixNano := @UnixNano fixtures.collab |}.

(** Memory thresholds of 100 MiB (hard) and 5% (soft), and a threshold on
    the process ids. *)
Definition memoryHard : evictionapi.Threshold :=
  {| evictionapi.Signal_ := evictionapi.SignalMemoryAvailable;
     evictionapi.Value :=
       {| evictionapi.Quantity := Some 104857600%Z; evictionapi.Percentage := 0 |} |}.

Definition memorySoft : evictionapi.Threshold :=
  {| evictionapi.Signal_ := evictionapi.SignalMemoryAvailable;
     evictionapi.Value :=
       {| evictionapi.Quantity := None; evictionapi.Percentage := 0.0625 |} |}.

Definition pidAvailable : evictionapi.Threshold :=
  {| evictionapi.Signal_ := evictionapi.SignalOther "pid.available";
     evictionapi.Value :=
       {| evictionapi.Quantity := None; evictionapi.Percentage := 0.125 |} |}.

(** A node with 100 GiB of file system, for the root and for the images,
    of which [used] bytes are used (40 GiB are available). *)
Definition withFileSystems (used : Z) : stats.NodeStats.t :=
  let fs :=
    {| stats.FsStats.AvailableBytes := Some 42949672960%Z;
       stats.FsStats.CapacityBytes := Some 107374182400%Z;
       stats.FsStats.UsedBytes := Some used |} in
  {| stats.NodeStats.NodeName := "node-1";
     stats.NodeStats.CPU := None;
     stats.NodeStats.Memory := None;
     stats.NodeStats.Fs := Some fs;
     stats.NodeStats.Runtime := Some {| stats.RuntimeStats.ImageFs := Some fs |} |}.

(** An order of the versions of the workload resources. *)
Definition versionRank (version : string) : Z :=
  if (version =? "v1")%string then 3%Z
  else if (version =? "v1beta2")%string then 2%Z
  else if (version =? "v1beta1")%string then 1%Z
  else 0%Z.

(** The group versions of the lists below parsed, every other string
    refused; the versions compared by their rank; the group names and the
    default of a cluster. *)
Definition apimachinery : Apimachinery :=
  {| ParseGroupVersion := fun s =>
       if (s =? "apps/v1")%string
       then ({| schema.Group := "apps"; schema.Version := "v1" |}, None)
       else if (s =? "apps/v1beta2")%string
       then ({| schema.Group := "apps"; schema.Version := "v1beta2" |}, None)
       else if (s =? "extensions/v1beta1")%string
       then ({| schema.Group := "extensions"; schema.Version := "v1beta1" |}, None)
       else if (s =? "v1")%string
       then ({| schema.Group := ""; schema.Version := "v1" |}, None)
       else ({| schema.Group := ""; schema.Version := "" |},
             Some ("unexpected GroupVersion string: " +:+ s));
     CompareKubeAwareVersionStrings := fun a b => (versionRank a - versionRank b)%Z;
     K8sExtensionsGroupName := "extensions";
     K8sAppsGroupName := "apps";
     K8sAPIDeploymentReplicasetDefaultGV :=
       {| schema.Group := "apps"; schema.Version := "v1" |} |}.

Definition resourcesOf (groupVersion : string) (names : list string)
    : ptr metav1.APIResourceList :=
  Some {| metav1.GroupVersion := groupVersion;
          metav1.APIResources := (fun n => {| metav1.Name := n |}) <$> names |}.

(** The core group, and deployments in an old and in the current version of
    the apps group and in the extensions group. *)
Definition core : ptr metav1.APIResourceList := resourcesOf "v1" ["pods"; "nodes"].

Definition workloads : list (ptr metav1.APIResourceList) :=
  [ resourcesOf "extensions/v1beta1" ["deployments"; "ingresses"];
    resourcesOf "apps/v1beta2" ["deployments"; "replicasets"];
    resourcesOf "apps/v1" ["deployments"; "replicasets"] ].

End samples.

(** * Properties *)

(** ** Comparison of binary64 values *)

Lemma SFcompare_swap (a b : spec_float) :
  SFcompare b a = CompOpp <$> SFcompare a b.
Proof.
  destruct a as [sa|sa| |sa ma ea], b as [sb|sb| |sb mb eb]; simpl;
    try reflexivity; try (destruct sa; reflexivity);
    try (destruct sb; reflexivity);
    try (destruct sa, sb; reflexivity).
  rewrite (Z.compare_antisym ea eb).
  change (PosDef.Pos.compare_cont Eq mb ma)
    with (Pos.compare_cont (CompOpp Eq) mb ma).
  rewrite <- (Pos.compare_cont_antisym ma mb Eq).
  destruct sa, sb; simpl; try reflexivity;
    destruct (ea ?= eb)%Z; simpl; try reflexivity.
  all: destruct (PosDef.Pos.compare_cont Eq ma mb); reflexivity.
Qed.

Lemma SFcompare_None_nan (a b : spec_float) :
  SFcompare a b = None -> SFcompare b b <> None -> SFcompare a a = None.
Proof. destruct a, b; simpl; congruence. Qed.

(** A value that is neither [<= 0] nor [>= 100] lies strictly inside
    (0,100), unless it is a NaN (which no comparison holds of). *)
Lemma guard_inside (x : float) :
  fle x 0 = false -> fge x 100 = false -> is_nan x = false ->
  strictly_inside_0_100 x = true.
Proof.
  unfold fle, fge, is_nan, strictly_inside_0_100.
  rewrite !FloatAxioms.leb_spec, !FloatAxioms.ltb_spec, FloatAxioms.eqb_spec.
  unfold SFleb, SFltb, SFeqb.
  rewrite (SFcompare_swap (Prim2SF x) (Prim2SF 0)).
  rewrite (SFcompare_swap (Prim2SF x) (Prim2SF 100)).
  destruct (SFcompare (Prim2SF x) (Prim2SF 0)) as [[]|] eqn:E0;
  destruct (SFcompare (Prim2SF x) (Prim2SF 100)) as [[]|] eqn:E1; simpl;
  try discriminate; try reflexivity; intros _ _ Hn.
  all: first
    [ apply SFcompare_None_nan in E1; [ | vm_compute; discriminate ];
      rewrite E1 in Hn; discriminate
    | apply SFcompare_None_nan in E0; [ | vm_compute; discriminate ];
      rewrite E0 in Hn; discriminate ].
Qed.

(** A NaN passes the range check of parseThresholdValues. *)
Lemma nan_passes_guard (x : float) :
  is_nan x = true -> fle x 0 = false /\ fge x 100 = false.
Proof.
  unfold fle, fge, is_nan.
  rewrite !FloatAxioms.leb_spec, FloatAxioms.eqb_spec.
  unfold SFleb, SFeqb.
  destruct (Prim2SF x); simpl; try discriminate;
    try (destruct s; discriminate).
  - intros _. split; reflexivity.
  - rewrite Z.compare_refl, Pos.compare_cont_refl. destruct s; discriminate.
Qed.

(** ** Eviction thresholds *)

(** C10: GetThresholdPercentile tells the two kinds of signal apart by
    [Percentage != 0] alone.  When it holds, the result is [Percentage * 100]
    whatever [Quantity] is, a nil one included, so [Quantity] is not read.
    When it does not, the result is [Quantity.Value() * 100 / capacity]: a
    percentage of exactly 0 is read as an absolute quantity (and a nil
    [Quantity] is then dereferenced). *)
Theorem GetThresholdPercentile_by_Percentage
    (q : ptr Z) (p capacity : float) :
  let value := {| evictionapi.Quantity := q; evictionapi.Percentage := p |} in
  ((p =? 0)%float = false ->
     GetThresholdPercentile value capacity = Some (p * 100) /\
     forall q', GetThresholdPercentile
                  {| evictionapi.Quantity := q'; evictionapi.Percentage := p |}
                  capacity
                = GetThresholdPercentile value capacity) /\
  ((p =? 0)%float = true ->
     GetThresholdPercentile value capacity
     = (fun n => float64 n * 100 / capacity) <$> q).
Proof.
  unfold GetThresholdPercentile; simpl. split; intros ->; simpl.
  - split; [ reflexivity | intros q'; reflexivity ].
  - destruct q; reflexivity.
Qed.

Lemma GetThresholdPercentile_by_Percentage_witness :
  (GetThresholdPercentile
     {| evictionapi.Quantity := None; evictionapi.Percentage := 0.25 |} 1000
   = Some 25)
  /\ (GetThresholdPercentile
        {| evictionapi.Quantity := Some 500%Z; evictionapi.Percentage := 0 |} 1000
      = Some 50).
Proof.
  split.
  - exact (proj1 (proj1 (GetThresholdPercentile_by_Percentage None 0.25 1000)
                   eq_refl)).
  - exact (proj2 (GetThresholdPercentile_by_Percentage (Some 500%Z) 0 1000)
             eq_refl).
Defined.

Lemma GetThresholdPercentile_is_Some value capacity :
  (evictionapi.Percentage value =? 0)%float = false
  \/ is_Some (evictionapi.Quantity value) ->
  is_Some (GetThresholdPercentile value capacity).
Proof.
  unfold GetThresholdPercentile.
  destruct (evictionapi.Percentage value =? 0)%float; simpl.
  - intros [? | [q ->]]; [ discriminate | eexists; reflexivity ].
  - intros _. eexists; reflexivity.
Qed.

Lemma thresholdStep_is_Some mc rc ic c t :
  readable t -> is_Some (thresholdStep mc rc ic c t).
Proof.
  unfold readable, thresholdStep.
  destruct (evictionapi.Signal_ t); intros Hr;
    try (destruct (GetThresholdPercentile_is_Some (evictionapi.Value t) mc Hr) as [v ->];
         eexists; reflexivity);
    try (destruct (GetThresholdPercentile_is_Some (evictionapi.Value t) rc Hr) as [v ->];
         eexists; reflexivity);
    try (destruct (GetThresholdPercentile_is_Some (evictionapi.Value t) ic Hr) as [v ->];
         eexists; reflexivity).
  eexists; reflexivity.
Qed.

Lemma foldM_is_Some {A B} (f : A -> B -> option A) (P : B -> Prop) l :
  (forall a b, P b -> is_Some (f a b)) ->
  Forall P l -> forall a, is_Some (foldM f l a).
Proof.
  intros Hf Hl. induction Hl as [ | b l Hb _ IH ]; intros a; simpl.
  - eexists; reflexivity.
  - destruct (Hf a b Hb) as [a' ->]. simpl. apply IH.
Qed.

(** The loop of parseThresholdValues ends without a panic on readable
    thresholds. *)
Lemma computeThresholds_is_Some mc rc ic thresholds :
  Forall readable thresholds -> is_Some (computeThresholds mc rc ic thresholds).
Proof.
  intros Hl. unfold computeThresholds.
  apply (foldM_is_Some _ readable); [ | exact Hl ].
  intros a b. apply thresholdStep_is_Some.
Qed.

Lemma addEntries_addEntries m l1 l2 :
  addEntries (addEntries m l1) l2 = addEntries m (l1 ++ l2).
Proof.
  unfold addEntries, with_metricSink, metrics.AddNewMetricEntries; simpl.
  by rewrite <- app_assoc.
Qed.

(** C1, as amended: on thresholds it can read, parseThresholdValues adds
    three threshold entries.  The memory one is the computed threshold when
    that is neither [<= 0] nor [>= 100], and then it lies strictly inside
    (0,100) unless it is a NaN; otherwise it is
    [100 MiB * 100 / memoryCapacity], which is emitted without a range
    check.  When the computed image file system threshold is neither [<= 0]
    nor [>= 100], it is emitted as it is, and the root file system one is
    the computed threshold, or 10 when that is [<= 0] or [>= 100]; in that
    case each of the two lies strictly inside (0,100) unless the computed
    threshold of its signal is a NaN.  Nothing is said of the two file
    system entries when the computed image file system threshold is
    [<= 0] or [>= 100]. *)
Theorem parseThresholdValues_emitted
    (m : KubeletMonitor) (key : string)
    (memoryCapacity rootfsCapacity imagefsCapacity : float)
    (thresholds : list evictionapi.Threshold) :
  Forall readable thresholds ->
  exists c,
    computeThresholds memoryCapacity rootfsCapacity imagefsCapacity thresholds
      = Some c /\
    let mem :=
      if outOfRange (memThreshold c)
      then util.Base2MegabytesToBytes 100 * 100 / memoryCapacity
      else memThreshold c in
    let root := if outOfRange (rootfsThreshold c) then 10 else rootfsThreshold c in
    (exists root' img',
       parseThresholdValues m key memoryCapacity rootfsCapacity imagefsCapacity
         thresholds
       = Some (addEntries m
                 [ thresholdEntry key metrics.Memory mem;
                   thresholdEntry key metrics.VStorage root';
                   thresholdEntry (key +:+ "-imagefs") metrics.VStorage img' ])) /\
    (outOfRange (memThreshold c) = false -> is_nan (memThreshold c) = false ->
       strictly_inside_0_100 mem = true) /\
    (outOfRange (imagefsThreshold c) = false ->
       parseThresholdValues m key memoryCapacity rootfsCapacity imagefsCapacity
         thresholds
       = Some (addEntries m
                 [ thresholdEntry key metrics.Memory mem;
                   thresholdEntry key metrics.VStorage root;
                   thresholdEntry (key +:+ "-imagefs") metrics.VStorage
                     (imagefsThreshold c) ]) /\
       (is_nan (imagefsThreshold c) = false ->
          strictly_inside_0_100 (imagefsThreshold c) = true) /\
       (is_nan (rootfsThreshold c) = false -> strictly_inside_0_100 root = true)).
Proof.
  intros Hr.
  destruct (computeThresholds_is_Some memoryCapacity rootfsCapacity
              imagefsCapacity thresholds Hr) as [c Hc].
  exists c. split; [ exact Hc | ].
  assert (Hin : forall x, outOfRange x = false -> is_nan x = false ->
                          strictly_inside_0_100 x = true).
  { intros x Hx Hn. unfold outOfRange in Hx.
    apply orb_false_iff in Hx as [H0 H100]. by apply guard_inside. }
  unfold parseThresholdValues. rewrite Hc. simpl.
  rewrite !addEntries_addEntries. simpl.
  unfold applyDefaults, thresholdEntry, metrics.NewEntityResourceMetric. simpl.
  fold (outOfRange (memThreshold c)) (outOfRange (rootfsThreshold c))
       (outOfRange (imagefsThreshold c)).
  split; [ | split ].
  - eexists _, _. reflexivity.
  - intros Hm Hn. rewrite Hm. by apply Hin.
  - intros Hi. rewrite Hi. split; [ reflexivity | split ].
    + by apply Hin.
    + intros Hn. destruct (outOfRange (rootfsThreshold c)) eqn:Ho.
      * reflexivity.
      * by apply Hin.
Qed.

Lemma parseThresholdValues_emitted_witness :
  exists c,
    computeThresholds fixtures.GiB8 fixtures.GiB8 fixtures.GiB8 [fixtures.imagefs25]
      = Some c /\
    parseThresholdValues (NewKubeletMonitor fixtures.unreachable true) "node-1"
      fixtures.GiB8 fixtures.GiB8 fixtures.GiB8 [fixtures.imagefs25]
    = Some (addEntries (NewKubeletMonitor fixtures.unreachable true)
              [ thresholdEntry "node-1" metrics.Memory
                  (if outOfRange (memThreshold c)
                   then util.Base2MegabytesToBytes 100 * 100 / fixtures.GiB8
                   else memThreshold c);
                thresholdEntry "node-1" metrics.VStorage
                  (if outOfRange (rootfsThreshold c) then 10 else rootfsThreshold c);
                thresholdEntry "node-1-imagefs" metrics.VStorage
                  (imagefsThreshold c) ]).
Proof.
  assert (Hr : Forall readable [fixtures.imagefs25]).
  { constructor; [ left; reflexivity | constructor ]. }
  destruct (parseThresholdValues_emitted
              (NewKubeletMonitor fixtures.unreachable true) "node-1"
              fixtures.GiB8 fixtures.GiB8 fixtures.GiB8 [fixtures.imagefs25] Hr)
    as (c & Hc & _ & _ & Himg).
  exists c. split; [ exact Hc | ].
  apply Himg.
  vm_compute in Hc. injection Hc as <-. reflexivity.
Defined.

(** C1 fails as stated: with 50 MiB of memory and no memory threshold
    configured, the memory threshold emitted is the default
    [100 MiB * 100 / 50 MiB = 200], which is not inside (0,100). *)
Lemma parseThresholdValues_memory_default_outside :
  parseThresholdValues (NewKubeletMonitor fixtures.unreachable true) "node-1"
    fixtures.MiB50 fixtures.GiB8 fixtures.GiB8 [fixtures.imagefs25]
  = Some (addEntries (NewKubeletMonitor fixtures.unreachable true)
            [ thresholdEntry "node-1" metrics.Memory 200;
              thresholdEntry "node-1" metrics.VStorage 10;
              thresholdEntry "node-1-imagefs" metrics.VStorage 25 ])
  /\ strictly_inside_0_100 200 = false.
Proof. split; reflexivity. Qed.

(** With no threshold configured at all, the third check assigns its default
    to the root file system threshold: 15 is emitted for the root file
    system and the raw 0 for the image file system. *)
Lemma parseThresholdValues_imagefs_default_misassigned :
  parseThresholdValues (NewKubeletMonitor fixtures.unreachable true) "node-1"
    fixtures.GiB8 fixtures.GiB8 fixtures.GiB8 []
  = Some (addEntries (NewKubeletMonitor fixtures.unreachable true)
            [ thresholdEntry "node-1" metrics.Memory 1.220703125;
              thresholdEntry "node-1" metrics.VStorage 15;
              thresholdEntry "node-1-imagefs" metrics.VStorage 0 ])
  /\ strictly_inside_0_100 0 = false.
Proof. split; reflexivity. Qed.

(** The same with an image file system threshold of 150%: the root file
    system gets 15 and the raw 150 is emitted for the image file system. *)
Example parseThresholdValues_imagefs_raw_emitted :
  parseThresholdValues (NewKubeletMonitor fixtures.unreachable true) "node-1"
    fixtures.GiB8 fixtures.GiB8 fixtures.GiB8
    [ {| evictionapi.Signal_ := evictionapi.SignalImageFsAvailable;
         evictionapi.Value :=
           {| evictionapi.Quantity := None; evictionapi.Percentage := 1.5 |} |} ]
  = Some (addEntries (NewKubeletMonitor fixtures.unreachable true)
            [ thresholdEntry "node-1" metrics.Memory 1.220703125;
              thresholdEntry "node-1" metrics.VStorage 15;
              thresholdEntry "node-1-imagefs" metrics.VStorage 150 ])
  /\ strictly_inside_0_100 150 = false.
Proof. split; reflexivity. Qed.

(** ** The counter-stream correlator *)

(** The example of the doc comment of parseMetricFamilies. *)
Example parseMetricFamilies_doc_example :
  parseMetricFamilies
    [ (kubeclient.ContainerCPUTotal,
       fixtures.counterFamily [fixtures.point fixtures.docLabels 10]);
      (kubeclient.ContainerCPUThrottledTotal,
       fixtures.counterFamily [fixtures.point fixtures.docLabels 5]) ]
  = {[ "ccp/metallb-speaker-m29mf/metallb-speaker" :=
         {| cpuThrottled := 5; cpuTotal := 10 |} ]}.
Proof. vm_compute. reflexivity. Qed.

Lemma labelStep_name i l : notContainerLabel l -> name (labelStep i l) = name i.
Proof.
  intros [H1 H2]. unfold labelStep.
  apply String.eqb_neq in H1, H2. rewrite H1, H2. simpl.
  repeat case_match; reflexivity.
Qed.

Lemma fold_labelStep_name labels :
  Forall notContainerLabel labels ->
  forall i, name (fold_left labelStep labels i) = name i.
Proof.
  induction 1 as [ | l labels Hl _ IH ]; intros i; simpl.
  - reflexivity.
  - rewrite IH. by apply labelStep_name.
Qed.

Lemma readLabels_no_container labels :
  Forall notContainerLabel labels -> name (readLabels labels) = "".
Proof. intros Hl. unfold readLabels. by rewrite fold_labelStep_name. Qed.

(** A point without a container label leaves the parsed map as it is. *)
Lemma metricStep_no_container metricName parsed metric :
  Forall notContainerLabel (dto.Label metric) ->
  metricStep metricName parsed (Some metric) = parsed.
Proof.
  intros Hl. unfold metricStep. by rewrite (readLabels_no_container _ Hl).
Qed.

Lemma parseFamilies_family_ext fams1 metricName f f' fams2 :
  dto.GetType f = dto.GetType f' ->
  (forall parsed,
     fold_left (metricStep metricName) (dto.GetMetric f) parsed
     = fold_left (metricStep metricName) (dto.GetMetric f') parsed) ->
  forall parsed,
    parseFamilies (fams1 ++ (metricName, f) :: fams2) parsed
    = parseFamilies (fams1 ++ (metricName, f') :: fams2) parsed.
Proof.
  intros Ht Hm. induction fams1 as [ | [n g] fams1 IH ]; intros parsed; simpl.
  - rewrite Ht, Hm. reflexivity.
  - destruct (negb _); [ reflexivity | apply IH ].
Qed.

Lemma readLabels_fixture c ns p :
  readLabels (fixtures.labels c ns p)
  = {| name := c; namespace := ns; podName := p |}.
Proof. reflexivity. Qed.

(** C2: the total-periods family with a point labelled
    {container=c, namespace=ns, pod=p} of value 10 and the throttled-periods
    family with a point of the same labels and value 5 are correlated into
    the map that sends "ns/p/c" to {cpuThrottled: 5, cpuTotal: 10}, in
    whichever order the two families are ranged over; and a point none of
    whose labels is "container" or "container_name" contributes nothing: the
    result is the one without that point, wherever the point stands. *)
Theorem parseMetricFamilies_correlates (c ns p : string) :
  c <> "" ->
  parseMetricFamilies [fixtures.total c ns p; fixtures.throttled c ns p]
    = {[ ns +:+ "/" +:+ p +:+ "/" +:+ c := {| cpuThrottled := 5; cpuTotal := 10 |} ]}
  /\ parseMetricFamilies [fixtures.throttled c ns p; fixtures.total c ns p]
    = {[ ns +:+ "/" +:+ p +:+ "/" +:+ c := {| cpuThrottled := 5; cpuTotal := 10 |} ]}
  /\ forall fams1 metricName type points1 metric points2 fams2,
       Forall notContainerLabel (dto.Label metric) ->
       parseMetricFamilies
         (fams1
          ++ (metricName,
              Some {| dto.Type_ := type;
                      dto.Metric_ := points1 ++ Some metric :: points2 |})
          :: fams2)
       = parseMetricFamilies
           (fams1
            ++ (metricName,
                Some {| dto.Type_ := type; dto.Metric_ := points1 ++ points2 |})
            :: fams2).
Proof.
  intros Hc. apply String.eqb_neq in Hc.
  repeat split.
  - unfold parseMetricFamilies, fixtures.total, fixtures.throttled; simpl.
    unfold metricStep; simpl. rewrite !readLabels_fixture; simpl.
    rewrite Hc. unfold metricID; simpl.
    rewrite lookup_empty; simpl. rewrite lookup_insert_eq; simpl.
    rewrite insert_insert_eq. by rewrite insert_empty.
  - unfold parseMetricFamilies, fixtures.total, fixtures.throttled; simpl.
    unfold metricStep; simpl. rewrite !readLabels_fixture; simpl.
    rewrite Hc. unfold metricID; simpl.
    rewrite lookup_empty; simpl. rewrite lookup_insert_eq; simpl.
    rewrite insert_insert_eq. by rewrite insert_empty.
  - intros fams1 metricName type points1 metric points2 fams2 Hl.
    unfold parseMetricFamilies.
    apply parseFamilies_family_ext; [ reflexivity | ].
    intros parsed. cbn [dto.GetMetric dto.Metric_].
    rewrite !fold_left_app. cbn [fold_left].
    by rewrite metricStep_no_container.
Qed.

Lemma parseMetricFamilies_correlates_witness :
  parseMetricFamilies [fixtures.total "c" "ns" "p"; fixtures.throttled "c" "ns" "p"]
  = {[ "ns/p/c" := {| cpuThrottled := 5; cpuTotal := 10 |} ]}.
Proof.
  assert (Hc : "c" <> "") by discriminate.
  exact (proj1 (parseMetricFamilies_correlates "c" "ns" "p" Hc)).
Defined.




(** *** From the parsed map to the sink *)

Lemma fold_genThrottlingMetrics timestamp l :
  forall m,
    fold_left
      (fun m '(metricID, tm) =>
         genThrottlingMetrics m metrics.ContainerType metricID
           (cpuThrottled tm) (cpuTotal tm) timestamp) l m
    = addEntries m (throttlingEntry timestamp <$> l).
Proof.
  induction l as [ | [k tm] l IH ]; intros m; simpl.
  - unfold addEntries, metrics.AddNewMetricEntries, with_metricSink.
    rewrite app_nil_r. by destruct m.
  - rewrite IH. unfold genThrottlingMetrics.
    by rewrite addEntries_addEntries.
Qed.

Lemma generateThrottlingMetrics_entries m metricFamilies timestamp :
  generateThrottlingMetrics m metricFamilies timestamp
  = addEntries m
      (throttlingEntry timestamp <$> map_to_list (parseMetricFamilies metricFamilies)).
Proof. apply fold_genThrottlingMetrics. Qed.

Lemma metricStep_is_Some metricName parsed metric i :
  is_Some (metricStep metricName parsed metric !! i) <->
  is_Some (parsed !! i) \/
  exists mt, metric = Some mt /\ name (readLabels (dto.Label mt)) <> "" /\
             metricID (readLabels (dto.Label mt)) = i.
Proof.
  unfold metricStep. destruct metric as [mt | ].
  - destruct (name (readLabels (dto.Label mt)) =? "")%string eqn:E.
    + apply String.eqb_eq in E. split; [ by left | ].
      intros [ ? | (mt' & [= <-] & Hn & _) ]; [ done | congruence ].
    + apply String.eqb_neq in E.
      rewrite lookup_insert. case_decide as Hi.
      * split; [ | by eauto ]. intros _. right. by exists mt.
      * split; [ by left | ].
        intros [ ? | (mt' & [= <-] & _ & ?) ]; [ done | congruence ].
  - split; [ by left | ]. intros [ ? | (mt' & ? & _) ]; [ done | congruence ].
Qed.

Lemma fold_metricStep_is_Some metricName points i :
  forall parsed,
    is_Some (fold_left (metricStep metricName) points parsed !! i) <->
    is_Some (parsed !! i) \/
    exists mt, Some mt ∈ points /\ name (readLabels (dto.Label mt)) <> "" /\
               metricID (readLabels (dto.Label mt)) = i.
Proof.
  induction points as [ | pt points IH ]; intros parsed; simpl.
  - split; [ by left | ]. intros [ ? | (mt & Hin & _) ]; [ done | ].
    by apply elem_of_nil in Hin.
  - rewrite IH, metricStep_is_Some. split.
    + intros [ [ ? | (mt & -> & Hn & Hi) ] | (mt & Hin & Hn & Hi) ].
      * by left.
      * right. exists mt. split; [ left | done ].
      * right. exists mt. split; [ by right | done ].
    + intros [ ? | (mt & Hin & Hn & Hi) ]; [ by left; left | ].
      apply elem_of_cons in Hin as [ <- | Hin ].
      * left; right. by exists mt.
      * right. by exists mt.
Qed.

Lemma parseFamilies_is_Some metricFamilies i :
  allCounters metricFamilies ->
  forall parsed,
    is_Some (parseFamilies metricFamilies parsed !! i) <->
    is_Some (parsed !! i) \/ reports metricFamilies i.
Proof.
  unfold allCounters.
  induction 1 as [ | [n f] fams Hf _ IH ]; intros parsed; simpl.
  - split; [ by left | ].
    intros [ ? | (n & f & mt & Hin & _) ]; [ done | ].
    by apply elem_of_nil in Hin.
  - simpl in Hf. rewrite Hf. simpl.
    rewrite IH, fold_metricStep_is_Some. unfold reports. split.
    + intros [ [ ? | (mt & Hin & Hn & Hi) ] | (n' & f' & mt & Hin & Hp & Hn & Hi) ].
      * by left.
      * right. exists n, f, mt. split; [ left | done ].
      * right. exists n', f', mt. split; [ by right | done ].
    + intros [ ? | (n' & f' & mt & Hin & Hp & Hn & Hi) ]; [ by left; left | ].
      apply elem_of_cons in Hin as [ [= -> ->] | Hin ].
      * left; right. by exists mt.
      * right. by exists n', f', mt.
Qed.

Lemma metricStep_totalsZero metricName parsed metric :
  metricName <> kubeclient.ContainerCPUTotal ->
  totalsZero parsed -> totalsZero (metricStep metricName parsed metric).
Proof.
  intros Hn Hz. apply String.eqb_neq in Hn.
  unfold metricStep. destruct metric as [mt | ]; [ | done ].
  destruct (name (readLabels (dto.Label mt)) =? "")%string; [ done | ].
  rewrite Hn. intros i tm. rewrite lookup_insert. case_decide as Hi.
  - intros [= <-]. simpl.
    destruct (parsed !! metricID (readLabels (dto.Label mt))) as [tm' | ] eqn:E;
      simpl; [ by apply (Hz _ _ E) | reflexivity ].
  - apply Hz.
Qed.

Lemma fold_metricStep_totalsZero metricName points :
  metricName <> kubeclient.ContainerCPUTotal ->
  forall parsed,
    totalsZero parsed -> totalsZero (fold_left (metricStep metricName) points parsed).
Proof.
  intros Hn. induction points as [ | pt points IH ]; intros parsed Hz; simpl.
  - done.
  - apply IH. by apply metricStep_totalsZero.
Qed.

Lemma parseFamilies_totalsZero metricFamilies :
  totalAbsent metricFamilies ->
  forall parsed, totalsZero parsed -> totalsZero (parseFamilies metricFamilies parsed).
Proof.
  induction 1 as [ | [n f] fams Hn _ IH ]; intros parsed Hz; simpl.
  - done.
  - destruct (negb _); [ done | ].
    apply IH. by apply fold_metricStep_totalsZero.
Qed.

(** C3, as amended: generateThrottlingMetrics adds a throttling entry for
    every identity of the correlated map, whether or not both counters were
    reported for it.  When the total-periods family is absent (and every
    family is a counter), each identity that some point reports gets an
    entry, and every entry added has a zero-filled total. *)
Theorem generateThrottlingMetrics_total_absent
    (m : KubeletMonitor) (metricFamilies : list (string * ptr dto.MetricFamily))
    (timestamp : Z) :
  totalAbsent metricFamilies -> allCounters metricFamilies ->
  exists added,
    generateThrottlingMetrics m metricFamilies timestamp = addEntries m added /\
    (forall i, reports metricFamilies i ->
       exists throttled,
         throttlingEntry timestamp (i, {| cpuThrottled := throttled; cpuTotal := 0 |})
         ∈ added) /\
    (forall e, e ∈ added ->
       exists i throttled,
         reports metricFamilies i /\
         e = throttlingEntry timestamp
               (i, {| cpuThrottled := throttled; cpuTotal := 0 |})).
Proof.
  intros Ha Hc.
  exists (throttlingEntry timestamp <$> map_to_list (parseMetricFamilies metricFamilies)).
  split; [ apply generateThrottlingMetrics_entries | ].
  assert (Hz : totalsZero (parseMetricFamilies metricFamilies)).
  { apply parseFamilies_totalsZero; [ done | ]. intros i tm.
    by rewrite lookup_empty. }
  assert (Hd : forall i, is_Some (parseMetricFamilies metricFamilies !! i)
                         <-> reports metricFamilies i).
  { intros i. unfold parseMetricFamilies.
    rewrite (parseFamilies_is_Some _ _ Hc), lookup_empty.
    split; [ intros [ [? ?] | ? ]; done | by right ]. }
  split.
  - intros i Hi. apply Hd in Hi as [tm Htm].
    exists (cpuThrottled tm). apply list_elem_of_fmap.
    exists (i, tm). split.
    + unfold throttlingEntry; simpl. by rewrite (Hz _ _ Htm).
    + by apply elem_of_map_to_list.
  - intros e He. apply list_elem_of_fmap in He as ([i tm] & -> & Hin).
    apply elem_of_map_to_list in Hin.
    exists i, (cpuThrottled tm). split.
    + apply Hd. by exists tm.
    + unfold throttlingEntry; simpl. by rewrite (Hz _ _ Hin).
Qed.

Lemma generateThrottlingMetrics_total_absent_witness :
  exists added,
    generateThrottlingMetrics (NewKubeletMonitor fixtures.unreachable false)
      [fixtures.throttled "c" "ns" "p"] 1000
    = addEntries (NewKubeletMonitor fixtures.unreachable false) added /\
    exists throttled,
      throttlingEntry 1000 ("ns/p/c", {| cpuThrottled := throttled; cpuTotal := 0 |})
      ∈ added.
Proof.
  assert (Ha : totalAbsent [fixtures.throttled "c" "ns" "p"]).
  { constructor; [ discriminate | constructor ]. }
  assert (Hc : allCounters [fixtures.throttled "c" "ns" "p"]).
  { constructor; [ reflexivity | constructor ]. }
  destruct (generateThrottlingMetrics_total_absent
              (NewKubeletMonitor fixtures.unreachable false)
              [fixtures.throttled "c" "ns" "p"] 1000 Ha Hc)
    as (added & Hg & Hin & _).
  exists added. split; [ exact Hg | ].
  apply Hin.
  exists kubeclient.ContainerCPUThrottledTotal,
    (fixtures.counterFamily [fixtures.point (fixtures.labels "c" "ns" "p") 5]).
  eexists. split; [ left | ]. split; [ left | ].
  split; [ discriminate | reflexivity ].
Defined.

(** C3 fails as stated: with the throttled-periods family alone, an entry is
    added for the identity, and its total is zero-filled. *)
Lemma generateThrottlingMetrics_zero_filled_total :
  metricSink
    (generateThrottlingMetrics (NewKubeletMonitor fixtures.unreachable false)
       [fixtures.throttled "c" "ns" "p"] 1000)
  = [ metrics.EntityResourceMetric metrics.ContainerType "ns/p/c"
        metrics.VCPUThrottling metrics.Used
        (metrics.Throttling
           [ {| metrics.Throttled := 5; metrics.Total := 0;
                metrics.TTimestamp := 1000 |} ]) ].
Proof. vm_compute. reflexivity. Qed.

(** ** The monitor only adds to its sink

    Every method reads the discovery mode and the client of the monitor and
    adds entries to its sink: what it adds does not depend on the entries
    that are already there, and nothing else of the monitor changes. *)

Lemma prepend_addEntries s m es :
  addEntries (prepend s m) es = prepend s (addEntries m es).
Proof.
  unfold addEntries, prepend, with_metricSink, metrics.AddNewMetricEntries; simpl.
  by rewrite app_assoc.
Qed.

Lemma cfg_addEntries m es : cfg (addEntries m es) = cfg m.
Proof. reflexivity. Qed.

Lemma addEntries_nil m : addEntries m [] = m.
Proof.
  unfold addEntries, with_metricSink, metrics.AddNewMetricEntries.
  rewrite app_nil_r. by destruct m.
Qed.

Lemma prepend_cfg m : prepend (metricSink m) (cfg m) = m.
Proof.
  unfold prepend, cfg, with_metricSink; simpl. rewrite app_nil_r. by destruct m.
Qed.

(** With the same configuration, putting entries before is adding the
    entries of the other monitor. *)
Lemma prepend_same_cfg m m0 :
  cfg m0 = cfg m -> prepend (metricSink m) m0 = addEntries m (metricSink m0).
Proof.
  unfold prepend, addEntries, cfg, with_metricSink, metrics.AddNewMetricEntries.
  destruct m, m0; simpl. by intros [= -> -> -> ->].
Qed.

Lemma fold_left_prepend {X} (h : KubeletMonitor -> X -> KubeletMonitor) s :
  (forall m x, h (prepend s m) x = prepend s (h m x)) ->
  forall l m, fold_left h l (prepend s m) = prepend s (fold_left h l m).
Proof.
  intros Hh l. induction l as [ | x l IH ]; intros m; simpl.
  - reflexivity.
  - by rewrite Hh, IH.
Qed.

Lemma fold_left_cfg {X} (h : KubeletMonitor -> X -> KubeletMonitor) :
  (forall m x, cfg (h m x) = cfg m) ->
  forall l m, cfg (fold_left h l m) = cfg m.
Proof.
  intros Hh l. induction l as [ | x l IH ]; intros m; simpl.
  - reflexivity.
  - by rewrite IH, Hh.
Qed.

Lemma genUsedMetrics_prepend s m etype key cpu memory timestamp :
  genUsedMetrics (prepend s m) etype key cpu memory timestamp
  = prepend s (genUsedMetrics m etype key cpu memory timestamp).
Proof. apply prepend_addEntries. Qed.

Lemma genRequestUsedMetrics_prepend s m etype key cpu memory timestamp :
  genRequestUsedMetrics (prepend s m) etype key cpu memory timestamp
  = prepend s (genRequestUsedMetrics m etype key cpu memory timestamp).
Proof. apply prepend_addEntries. Qed.

Lemma genNumConsumersUsedMetrics_prepend s m etype key :
  genNumConsumersUsedMetrics (prepend s m) etype key
  = prepend s (genNumConsumersUsedMetrics m etype key).
Proof. apply prepend_addEntries. Qed.

Lemma genFSMetrics_prepend s m etype key capacity used available :
  genFSMetrics (prepend s m) etype key capacity used available
  = prepend s (genFSMetrics m etype key capacity used available).
Proof.
  unfold genFSMetrics. destruct (is_NodeType etype);
    by rewrite !prepend_addEntries.
Qed.

Lemma genFSMetrics_cfg m etype key capacity used available :
  cfg (genFSMetrics m etype key capacity used available) = cfg m.
Proof. unfold genFSMetrics. by destruct (is_NodeType etype). Qed.

Lemma genPVMetrics_prepend s m etype key capacity used :
  genPVMetrics (prepend s m) etype key capacity used
  = prepend s (genPVMetrics m etype key capacity used).
Proof. apply prepend_addEntries. Qed.

Lemma generateThrottlingMetrics_prepend s m metricFamilies timestamp :
  generateThrottlingMetrics (prepend s m) metricFamilies timestamp
  = prepend s (generateThrottlingMetrics m metricFamilies timestamp).
Proof. rewrite !generateThrottlingMetrics_entries. apply prepend_addEntries. Qed.

Lemma generateThrottlingMetrics_cfg m metricFamilies timestamp :
  cfg (generateThrottlingMetrics m metricFamilies timestamp) = cfg m.
Proof. by rewrite generateThrottlingMetrics_entries. Qed.

Lemma parseThresholdValues_prepend s m key mc rc ic thresholds :
  parseThresholdValues (prepend s m) key mc rc ic thresholds
  = prepend s <$> parseThresholdValues m key mc rc ic thresholds.
Proof.
  unfold parseThresholdValues.
  destruct (computeThresholds mc rc ic thresholds); simpl; [ | reflexivity ].
  by rewrite !prepend_addEntries.
Qed.

Lemma parseThresholdValues_cfg m key mc rc ic thresholds m' :
  parseThresholdValues m key mc rc ic thresholds = Some m' -> cfg m' = cfg m.
Proof.
  unfold parseThresholdValues.
  destruct (computeThresholds mc rc ic thresholds); simpl; [ | discriminate ].
  by intros [= <-].
Qed.

Section MonitorFrames.
Context `{Collaborators}.

Lemma parseNodeStats_prepend s m nodeStats thresholds timestamp :
  parseNodeStats (prepend s m) nodeStats thresholds timestamp
  = prepend s <$> parseNodeStats m nodeStats thresholds timestamp.
Proof.
  unfold parseNodeStats.
  match goal with |- context [ mbind _ ?o ] => destruct o end;
    simpl; [ | reflexivity ].
  destruct (isFullDiscovery m); [ | by rewrite genUsedMetrics_prepend ].
  by rewrite genUsedMetrics_prepend, !genFSMetrics_prepend,
       parseThresholdValues_prepend.
Qed.

Lemma parseNodeStats_cfg m nodeStats thresholds timestamp m' :
  parseNodeStats m nodeStats thresholds timestamp = Some m' -> cfg m' = cfg m.
Proof.
  unfold parseNodeStats.
  match goal with |- context [ mbind _ ?o ] => destruct o end;
    simpl; [ | discriminate ].
  destruct (isFullDiscovery m); [ | by intros [= <-] ].
  intros Hp. apply parseThresholdValues_cfg in Hp.
  by rewrite Hp, !genFSMetrics_cfg.
Qed.

Lemma containerStep_prepend s podMId timestamp acc container :
  containerStep podMId timestamp (prepend3 s acc) container
  = prepend3 s (containerStep podMId timestamp acc container).
Proof.
  destruct acc as [[c u] m]. unfold containerStep, prepend3.
  cbn [fst snd].
  destruct (nonNil2 (stats.ContainerStats.CPU container) _); [ | reflexivity ].
  destruct (nonNil2 (stats.ContainerStats.Memory container) _); [ | reflexivity ].
  cbn [fst snd].
  by rewrite genUsedMetrics_prepend, genRequestUsedMetrics_prepend,
       genUsedMetrics_prepend.
Qed.

Lemma containerStep_cfg podMId timestamp acc container :
  cfg (containerStep podMId timestamp acc container).2 = cfg acc.2.
Proof.
  destruct acc as [[c u] m]. unfold containerStep.
  repeat case_match; reflexivity.
Qed.

Lemma parseContainerStats_prepend s m pod timestamp :
  parseContainerStats (prepend s m) pod timestamp
  = prepend3 s (parseContainerStats m pod timestamp).
Proof.
  unfold parseContainerStats.
  change (0, 0, prepend s m) with (prepend3 s (0, 0, m)).
  generalize (0, 0, m).
  induction (stats.PodStats.Containers pod) as [ | c l IH ]; intros acc;
    cbn [fold_left].
  - reflexivity.
  - by rewrite containerStep_prepend, IH.
Qed.

Lemma parseContainerStats_cfg m pod timestamp :
  cfg (parseContainerStats m pod timestamp).2 = cfg m.
Proof.
  unfold parseContainerStats.
  change (cfg m) with (cfg (0, 0, m).2).
  generalize (0, 0, m).
  induction (stats.PodStats.Containers pod) as [ | c l IH ]; intros acc;
    cbn [fold_left].
  - reflexivity.
  - by rewrite IH, containerStep_cfg.
Qed.

Lemma parseVolumeStats_prepend s m volStats podKey :
  parseVolumeStats (prepend s m) volStats podKey
  = prepend s (parseVolumeStats m volStats podKey).
Proof.
  unfold parseVolumeStats. apply fold_left_prepend.
  intros m' v. apply genPVMetrics_prepend.
Qed.

Lemma parseVolumeStats_cfg m volStats podKey :
  cfg (parseVolumeStats m volStats podKey) = cfg m.
Proof. unfold parseVolumeStats. by apply fold_left_cfg. Qed.

Lemma podStep_prepend s timestamp m pod :
  podStep timestamp (prepend s m) pod = prepend s (podStep timestamp m pod).
Proof.
  unfold podStep. rewrite parseContainerStats_prepend.
  destruct (parseContainerStats m pod timestamp) as [[c u] m'] eqn:E.
  unfold prepend3; simpl.
  pose proof (parseContainerStats_cfg m pod timestamp) as Hc.
  rewrite E in Hc; simpl in Hc.
  rewrite genUsedMetrics_prepend.
  change (isFullDiscovery (prepend s _)) with (isFullDiscovery m').
  change (isFullDiscovery (genUsedMetrics m' _ _ _ _ _)) with (isFullDiscovery m').
  destruct (isFullDiscovery m'); [ | reflexivity ].
  rewrite genNumConsumersUsedMetrics_prepend, genFSMetrics_prepend.
  destruct (Enabled features.PersistentVolumes); [ | reflexivity ].
  by rewrite parseVolumeStats_prepend.
Qed.

Lemma podStep_cfg timestamp m pod : cfg (podStep timestamp m pod) = cfg m.
Proof.
  unfold podStep.
  pose proof (parseContainerStats_cfg m pod timestamp) as Hc.
  destruct (parseContainerStats m pod timestamp) as [[c u] m'].
  simpl in Hc. rewrite <- Hc.
  change (isFullDiscovery (genUsedMetrics m' _ _ _ _ _)) with (isFullDiscovery m').
  destruct (isFullDiscovery m'); [ | reflexivity ].
  destruct (Enabled features.PersistentVolumes).
  - by rewrite parseVolumeStats_cfg, genFSMetrics_cfg.
  - by rewrite genFSMetrics_cfg.
Qed.

Lemma parsePodStats_prepend s m podStats timestamp :
  parsePodStats (prepend s m) podStats timestamp
  = prepend s (parsePodStats m podStats timestamp).
Proof.
  unfold parsePodStats. apply fold_left_prepend.
  intros m' p. apply podStep_prepend.
Qed.

Lemma parsePodStats_cfg m podStats timestamp :
  cfg (parsePodStats m podStats timestamp) = cfg m.
Proof.
  unfold parsePodStats. apply fold_left_cfg. intros m' p. apply podStep_cfg.
Qed.

Lemma collect_prepend s m node ip summary :
  collect (prepend s m) node ip summary = prepend s <$> collect m node ip summary.
Proof.
  unfold collect. simpl.
  destruct (kubeclient.GetKubeletThresholds _ _ _) as [thresholds e1].
  destruct (kubeclient.GetCPUThrottlingMetrics _ _ _) as [metricFamilies e2].
  destruct summary as [summary | ]; simpl; [ | reflexivity ].
  rewrite generateThrottlingMetrics_prepend, parseNodeStats_prepend.
  destruct (parseNodeStats _ _ _ _); simpl; [ | reflexivity ].
  by rewrite parsePodStats_prepend.
Qed.

Lemma collect_cfg m node ip summary m' :
  collect m node ip summary = Some m' -> cfg m' = cfg m.
Proof.
  unfold collect.
  destruct (kubeclient.GetKubeletThresholds _ _ _) as [thresholds e1].
  destruct (kubeclient.GetCPUThrottlingMetrics _ _ _) as [metricFamilies e2].
  destruct summary as [summary | ]; simpl; [ | discriminate ].
  destruct (parseNodeStats _ _ _ _) as [m1 | ] eqn:E; simpl; [ | discriminate ].
  intros [= <-]. apply parseNodeStats_cfg in E.
  by rewrite parsePodStats_cfg, E, generateThrottlingMetrics_cfg.
Qed.

Lemma scrapeKubelet_prepend s m node :
  scrapeKubelet (prepend s m) node = prepend s <$> scrapeKubelet m node.
Proof.
  unfold scrapeKubelet. simpl.
  destruct (isFullDiscovery m) eqn:Ef.
  - destruct (kubeclient.GetNodeCpuFrequency _ _) as [f [e | ]]; [ reflexivity | ].
    destruct (GetNodeIPForMonitor _ _) as [ip [e | ]];
      [ unfold parseNodeCpuFreq; by rewrite prepend_addEntries | ].
    simpl.
    destruct (kubeclient.GetSummary _ _ _) as [summary [e | ]];
      [ unfold parseNodeCpuFreq; by rewrite prepend_addEntries | ].
    unfold parseNodeCpuFreq. rewrite Ef.
    destruct (kubeclient.HasCacheBeenUsed _ _);
      by rewrite !prepend_addEntries, collect_prepend.
  - destruct (GetNodeIPForMonitor _ _) as [ip [e | ]]; [ reflexivity | ].
    destruct (kubeclient.GetSummary _ _ _) as [summary [e | ]]; [ reflexivity | ].
    simpl. rewrite Ef.
    destruct (kubeclient.HasCacheBeenUsed _ _); [ reflexivity | ].
    apply collect_prepend.
Qed.

Lemma scrapeKubelet_cfg m node m' :
  scrapeKubelet m node = Some m' -> cfg m' = cfg m.
Proof.
  unfold scrapeKubelet.
  destruct (isFullDiscovery m) eqn:Ef.
  - destruct (kubeclient.GetNodeCpuFrequency _ _) as [f [e | ]];
      [ by intros [= <-] | ].
    destruct (GetNodeIPForMonitor _ _) as [ip [e | ]]; [ by intros [= <-] | ].
    simpl.
    destruct (kubeclient.GetSummary _ _ _) as [summary [e | ]];
      [ by intros [= <-] | ].
    rewrite Ef.
    destruct (kubeclient.HasCacheBeenUsed _ _); intros Hc;
      by apply collect_cfg in Hc.
  - destruct (GetNodeIPForMonitor _ _) as [ip [e | ]]; [ by intros [= <-] | ].
    destruct (kubeclient.GetSummary _ _ _) as [summary [e | ]];
      [ by intros [= <-] | ].
    rewrite Ef.
    destruct (kubeclient.HasCacheBeenUsed _ _); [ by intros [= <-] | ].
    apply collect_cfg.
Qed.

(** The scrape adds its contribution to the sink and changes nothing else. *)
Lemma scrapeKubelet_contribution m node :
  scrapeKubelet m node = addEntries m <$> contribution m node.
Proof.
  unfold contribution.
  rewrite <- (prepend_cfg m) at 1. rewrite scrapeKubelet_prepend.
  destruct (scrapeKubelet (cfg m) node) as [m0 | ] eqn:E; simpl; [ | reflexivity ].
  f_equal. apply prepend_same_cfg.
  by apply scrapeKubelet_cfg in E.
Qed.

End MonitorFrames.

(** ** Statistics with absent fields *)

(** C9 fails on the code: parseNodeStats checks [ImageFs.UsedBytes] and then
    dereferences [ImageFs.AvailableBytes].  Node statistics whose image file
    system has used bytes and no available bytes make it panic, in either
    mode, before any entry is added. *)
Theorem parseNodeStats_imagefs_nil_available_panics
    (C : Collaborators) (m : KubeletMonitor)
    (thresholds : list evictionapi.Threshold) (timestamp : Z) :
  parseNodeStats m fixtures.imagefsUsedOnly thresholds timestamp = None.
Proof. reflexivity. Qed.

Section Cycle.
Context `{Collaborators}.

Lemma parseNodeStats_used m nodeStats thresholds timestamp m' :
  parseNodeStats m nodeStats thresholds timestamp = Some m' ->
  exists cpu mem rest,
    isNodeUsed (NodeStatsKeyFunc nodeStats) metrics.CPU cpu /\
    isNodeUsed (NodeStatsKeyFunc nodeStats) metrics.Memory mem /\
    m' = addEntries m (cpu :: mem :: rest).
Proof.
  unfold parseNodeStats.
  match goal with |- context [ mbind _ ?o ] => destruct o end;
    simpl; [ | discriminate ].
  unfold genUsedMetrics.
  match goal with
  | |- context [ addEntries m [?a; ?b] ] =>
      set (cpu := a); set (mem := b)
  end.
  assert (Hc : isNodeUsed (NodeStatsKeyFunc nodeStats) metrics.CPU cpu)
    by (eexists _, _; reflexivity).
  assert (Hm : isNodeUsed (NodeStatsKeyFunc nodeStats) metrics.Memory mem)
    by (eexists _, _; reflexivity).
  clearbody cpu mem.
  destruct (isFullDiscovery m).
  - unfold parseThresholdValues, genFSMetrics; simpl.
    destruct (computeThresholds _ _ _ _); simpl; [ | discriminate ].
    intros [= <-]. rewrite !addEntries_addEntries.
    eexists cpu, mem, _. repeat split; try done.
  - intros [= <-]. exists cpu, mem, []. repeat split; done.
Qed.

(** ** Scraping one node *)

(** Started after the entries [es], the collection adds what it adds on its
    own. *)
Lemma collect_addEntries m es node ip summary :
  collect (addEntries m es) node ip summary
  = (fun m0 => addEntries m (es ++ metricSink m0))
      <$> collect (cfg m) node ip summary.
Proof.
  rewrite <- (prepend_cfg (addEntries m es)). rewrite collect_prepend.
  rewrite cfg_addEntries.
  destruct (collect (cfg m) node ip summary) as [m0 | ] eqn:E; simpl;
    [ | reflexivity ].
  f_equal. apply collect_cfg in E.
  etrans; [ by apply (prepend_same_cfg (addEntries m es) m0) | ].
  apply addEntries_addEntries.
Qed.

(** The scrape of a node whose answers did not come from the cache: the
    frequency entry in full discovery, then the collection. *)
Lemma scrapeKubelet_not_cached m node ip summary :
  GetNodeIPForMonitor node types.KubeletSource = (ip, None) ->
  kubeclient.GetSummary (kubeletClient m) ip (api.Name node) = (summary, None) ->
  kubeclient.HasCacheBeenUsed (kubeletClient m) ip = false ->
  (isFullDiscovery m = false ->
     scrapeKubelet m node
     = (fun m0 => addEntries m (metricSink m0))
         <$> collect (cfg m) node ip summary) /\
  (isFullDiscovery m = true ->
     forall nodefreq,
       kubeclient.GetNodeCpuFrequency (kubeletClient m) node = (nodefreq, None) ->
       scrapeKubelet m node
       = (fun m0 => addEntries m (cpuFrequencyEntry node nodefreq :: metricSink m0))
           <$> collect (cfg m) node ip summary).
Proof.
  intros Hip Hs Hc. split.
  - intros Hf. unfold scrapeKubelet. rewrite Hf, Hip, Hs, Hf, Hc.
    rewrite <- (addEntries_nil m) at 1. by rewrite collect_addEntries.
  - intros Hf nodefreq Hq. unfold scrapeKubelet. rewrite Hf, Hq, Hip.
    unfold parseNodeCpuFreq; simpl. rewrite Hs, Hf, Hc.
    by rewrite collect_addEntries.
Qed.

(** C5: when the summary of a node was fetched and the client reports that
    the answer came from its cache, the scrape of a sampling discovery
    returns at once and leaves the monitor, its sink included, as it was;
    the scrape of a full discovery adds the "NodeCacheUsed" state metric of
    the node (after the frequency metric) and goes on with the collection,
    which adds what it adds when the cache was not used. *)
Theorem scrapeKubelet_cache_hit
    (m : KubeletMonitor) (node : api.Node) (ip : string)
    (summary : ptr stats.Summary.t) :
  GetNodeIPForMonitor node types.KubeletSource = (ip, None) ->
  kubeclient.GetSummary (kubeletClient m) ip (api.Name node) = (summary, None) ->
  kubeclient.HasCacheBeenUsed (kubeletClient m) ip = true ->
  (isFullDiscovery m = false -> scrapeKubelet m node = Some m) /\
  (isFullDiscovery m = true ->
     forall nodefreq,
       kubeclient.GetNodeCpuFrequency (kubeletClient m) node = (nodefreq, None) ->
       scrapeKubelet m node
       = (fun m0 =>
            addEntries m
              (cpuFrequencyEntry node nodefreq :: cacheUsedEntry node
               :: metricSink m0))
           <$> collect (cfg m) node ip summary).
Proof.
  intros Hip Hs Hc. split.
  - intros Hf. unfold scrapeKubelet. by rewrite Hf, Hip, Hs, Hf, Hc.
  - intros Hf nodefreq Hq. unfold scrapeKubelet. rewrite Hf, Hq, Hip.
    unfold parseNodeCpuFreq; simpl. rewrite Hs, Hf, Hc.
    rewrite addEntries_addEntries. by rewrite collect_addEntries.
Qed.

(** ** The cycle *)

Lemma task_no_stop m n :
  try_receive (stopCh m) = None -> task m n = scrapeKubelet m n.
Proof. intros Hr. unfold task. by rewrite Hr. Qed.

(** With no stop signal, the tasks add their contributions one after the
    other, in the order of the schedule. *)
Lemma runTasks_contributions sched :
  forall m,
    try_receive (stopCh m) = None ->
    runTasks sched m = addEntries m <$> (mjoin <$> mapM (contribution m) sched).
Proof.
  unfold runTasks.
  induction sched as [ | n sched IH ]; intros m Hr; simpl.
  - by rewrite addEntries_nil.
  - rewrite (task_no_stop _ _ Hr), scrapeKubelet_contribution.
    destruct (contribution m n) as [es | ] eqn:E; simpl; [ | reflexivity ].
    rewrite IH by done.
    change (contribution (addEntries m es)) with (contribution m).
    destruct (mapM (contribution m) sched) as [ess | ]; simpl; [ | reflexivity ].
    by rewrite addEntries_addEntries.
Qed.

Lemma contribution_summary_fails m node :
  summaryFails m node -> contribution m node = Some (entriesBeforeSummary m node).
Proof.
  unfold summaryFails, contribution, entriesBeforeSummary, scrapeKubelet. simpl.
  destruct (GetNodeIPForMonitor node types.KubeletSource) as [ip iperr]. simpl.
  destruct (kubeclient.GetSummary (kubeletClient m) ip (api.Name node))
    as [summary serr]. simpl.
  intros Hfail. destruct (isFullDiscovery m).
  - destruct (kubeclient.GetNodeCpuFrequency _ _) as [f [e | ]]; [ reflexivity | ].
    destruct iperr as [e | ]; [ reflexivity | ].
    destruct serr as [e | ]; [ reflexivity | ].
    destruct Hfail as [ [? [=]] | [? [=]] ].
  - destruct iperr as [e | ]; [ reflexivity | ].
    destruct serr as [e | ]; [ reflexivity | ].
    destruct Hfail as [ [? [=]] | [? [=]] ].
Qed.

Lemma parsePodStats_adds m podStats timestamp :
  parsePodStats m podStats timestamp
  = addEntries m (metricSink (parsePodStats (cfg m) podStats timestamp)).
Proof.
  rewrite <- (prepend_cfg m) at 1. rewrite parsePodStats_prepend.
  apply prepend_same_cfg. etrans; [ apply parsePodStats_cfg | reflexivity ].
Qed.

(** The collection adds the used entries of the node of the summary. *)
Lemma collect_used m node ip summary m' :
  collect m node ip (Some summary) = Some m' ->
  exists cpu mem,
    cpu ∈ metricSink m' /\ mem ∈ metricSink m' /\
    isNodeUsed (NodeStatsKeyFunc (stats.Summary.Node summary)) metrics.CPU cpu /\
    isNodeUsed (NodeStatsKeyFunc (stats.Summary.Node summary)) metrics.Memory mem.
Proof.
  unfold collect.
  destruct (kubeclient.GetKubeletThresholds _ _ _) as [thresholds e1].
  destruct (kubeclient.GetCPUThrottlingMetrics _ _ _) as [metricFamilies e2].
  simpl.
  destruct (parseNodeStats _ _ _ _) as [m1 | ] eqn:E; simpl; [ | discriminate ].
  intros [= <-].
  apply parseNodeStats_used in E as (cpu & mem & rest & Hc & Hm & ->).
  exists cpu, mem. rewrite parsePodStats_adds.
  unfold addEntries at 1 3, metrics.AddNewMetricEntries; simpl.
  repeat split; try done; set_solver.
Qed.

(** When every fetch before the collection succeeds and the scrape does not
    return at the cache check, it ends with the collection. *)
Lemma scrapeKubelet_reaches_collect m node ip summary nodefreq :
  kubeclient.GetNodeCpuFrequency (kubeletClient m) node = (nodefreq, None) ->
  GetNodeIPForMonitor node types.KubeletSource = (ip, None) ->
  kubeclient.GetSummary (kubeletClient m) ip (api.Name node) = (summary, None) ->
  isFullDiscovery m = true
  \/ kubeclient.HasCacheBeenUsed (kubeletClient m) ip = false ->
  exists pre,
    scrapeKubelet m node
    = (fun m0 => addEntries m (pre ++ metricSink m0))
        <$> collect (cfg m) node ip summary.
Proof.
  intros Hq Hip Hs Hmode. unfold scrapeKubelet.
  destruct (isFullDiscovery m) eqn:Ef.
  - rewrite Hq, Hip. unfold parseNodeCpuFreq; simpl. rewrite Hs, Ef.
    destruct (kubeclient.HasCacheBeenUsed (kubeletClient m) ip).
    + rewrite addEntries_addEntries, collect_addEntries. by eexists.
    + rewrite collect_addEntries. by eexists.
  - destruct Hmode as [ [=] | Hc ].
    rewrite Hip, Hs, Ef, Hc. exists [].
    rewrite <- (addEntries_nil m) at 1. by rewrite collect_addEntries.
Qed.

Lemma contribution_answers_all m node summary es :
  answersAll m node summary -> contribution m node = Some es ->
  exists cpu mem,
    cpu ∈ es /\ mem ∈ es /\
    isNodeUsed (NodeStatsKeyFunc (stats.Summary.Node summary)) metrics.CPU cpu /\
    isNodeUsed (NodeStatsKeyFunc (stats.Summary.Node summary)) metrics.Memory mem.
Proof.
  intros (ip & Hq & Hip & Hs & _ & _ & Hmode). unfold contribution.
  destruct (kubeclient.GetNodeCpuFrequency (kubeletClient m) node)
    as [nodefreq qerr] eqn:Eq.
  simpl in Hq. subst qerr.
  destruct (scrapeKubelet_reaches_collect (cfg m) node ip (Some summary) nodefreq
              Eq Hip Hs Hmode) as [pre ->].
  destruct (collect (cfg (cfg m)) node ip (Some summary)) as [m0 | ] eqn:E;
    simpl; [ | discriminate ].
  intros [= <-].
  apply collect_used in E as (cpu & mem & Hc & Hm & Hcu & Hmu).
  exists cpu, mem.
  repeat split; try done; simpl; rewrite !elem_of_app; auto.
Qed.

Lemma closeStopCh_open m :
  closed (stopCh m) = false ->
  closeStopCh m
  = Some (with_stopCh m {| buffered := buffered (stopCh m); closed := true |}).
Proof. intros Hc. unfold closeStopCh, close. by rewrite Hc. Qed.

(** The cycle of a non-empty node list on which no stop signal was raised:
    no error, and the contributions of the nodes added to the sink. *)
Lemma RetrieveResourceStat_contributions sched m :
  nodeList m <> [] -> stopCh m = make_chan ->
  RetrieveResourceStat sched m
  = (fun ess =>
       (None,
        with_stopCh (addEntries m (mjoin ess))
          {| buffered := 0; closed := true |}))
      <$> mapM (contribution m) sched.
Proof.
  intros Hn Hs. unfold RetrieveResourceStat.
  destruct (nodeList m) as [ | n0 l ]; [ done | ].
  rewrite runTasks_contributions by (by rewrite Hs).
  destruct (mapM (contribution m) sched) as [ess | ]; simpl; [ | reflexivity ].
  rewrite closeStopCh_open by (by simpl; rewrite Hs). simpl.
  by rewrite Hs.
Qed.

(** C6, as amended: for a non-empty node list on which no stop signal was
    raised, the cycle returns, unless a task panics, the sink to which the
    tasks added their contributions in the order they ran.  A node whose
    summary is not fetched contributes no entry in a sampling discovery; in
    a full discovery it contributes the CPU frequency entry when its
    frequency was fetched, and no entry otherwise.  The returned sink holds
    the CPU and memory used entries of every node all of whose calls
    succeed (and, in a sampling discovery, were not answered from the
    cache). *)
Theorem RetrieveResourceStat_sink (sched : list api.Node) (m : KubeletMonitor) :
  nodeList m <> [] -> stopCh m = make_chan -> sched ≡ₚ nodeList m ->
  RetrieveResourceStat sched m
    = (fun ess =>
         (None,
          with_stopCh (addEntries m (mjoin ess))
            {| buffered := 0; closed := true |}))
        <$> mapM (contribution m) sched
  /\ (forall node,
        node ∈ nodeList m -> summaryFails m node ->
        contribution m node = Some (entriesBeforeSummary m node) /\
        (isFullDiscovery m = false -> contribution m node = Some []))
  /\ (forall r node summary,
        RetrieveResourceStat sched m = Some r ->
        node ∈ nodeList m -> answersAll m node summary ->
        exists cpu mem,
          cpu ∈ metricSink r.2 /\ mem ∈ metricSink r.2 /\
          isNodeUsed (NodeStatsKeyFunc (stats.Summary.Node summary))
            metrics.CPU cpu /\
          isNodeUsed (NodeStatsKeyFunc (stats.Summary.Node summary))
            metrics.Memory mem).
Proof.
  intros Hn Hs Hp.
  pose proof (RetrieveResourceStat_contributions sched m Hn Hs) as Hr.
  split; [ exact Hr | ]. split.
  - intros node _ Hfail. split.
    + by apply contribution_summary_fails.
    + intros Hf. rewrite (contribution_summary_fails _ _ Hfail).
      unfold entriesBeforeSummary. by rewrite Hf.
  - intros r node summary Hret Hin Hall.
    rewrite Hr in Hret.
    destruct (mapM (contribution m) sched) as [ess | ] eqn:E; simpl in Hret;
      [ | discriminate ].
    injection Hret as <-. simpl.
    apply mapM_Some_1 in E.
    rewrite <- Hp in Hin. apply list_elem_of_lookup in Hin as [i Hi].
    destruct (Forall2_lookup_l _ _ _ _ _ E Hi) as (es & Hes & Hc).
    destruct (contribution_answers_all _ _ _ _ Hall Hc)
      as (cpu & mem & Hcpu & Hmem & Hcu & Hmu).
    assert (Hsub : forall e, e ∈ es -> e ∈ metricSink m ++ mjoin ess).
    { intros e He. apply elem_of_app. right. apply list_elem_of_join.
      exists es. split; [ done | ]. by eapply list_elem_of_lookup_2. }
    exists cpu, mem. repeat split; auto.
Qed.

(** *** Errors and panics *)

Lemma parseThresholdValues_is_Some m key mc rc ic thresholds :
  Forall readable thresholds ->
  is_Some (parseThresholdValues m key mc rc ic thresholds).
Proof.
  intros Hr. unfold parseThresholdValues.
  destruct (computeThresholds_is_Some mc rc ic thresholds Hr) as [c ->].
  by eexists.
Qed.

Lemma parseNodeStats_is_Some m nodeStats thresholds timestamp :
  imagefsConsistent nodeStats ->
  (isFullDiscovery m = true -> Forall readable thresholds) ->
  is_Some (parseNodeStats m nodeStats thresholds timestamp).
Proof.
  intros Hc Hr. unfold parseNodeStats, imagefsConsistent in *.
  destruct (nonNil2 (stats.NodeStats.Runtime nodeStats) _) as [fs | ]; simpl.
  - destruct (stats.FsStats.UsedBytes fs) as [u | ] eqn:Eu; simpl.
    + destruct (Hc fs eq_refl) as [a Ha]; [ by eexists | ].
      rewrite Ha; simpl.
      destruct (isFullDiscovery m); [ | by eexists ].
      by apply parseThresholdValues_is_Some, Hr.
    + destruct (isFullDiscovery m); [ | by eexists ].
      by apply parseThresholdValues_is_Some, Hr.
  - destruct (isFullDiscovery m); [ | by eexists ].
    by apply parseThresholdValues_is_Some, Hr.
Qed.

Lemma collect_is_Some m node ip summary :
  imagefsConsistent (stats.Summary.Node summary) ->
  (isFullDiscovery m = true ->
   Forall readable
     (kubeclient.GetKubeletThresholds (kubeletClient m) ip (api.Name node)).1) ->
  is_Some (collect m node ip (Some summary)).
Proof.
  intros Hc Hr. unfold collect.
  destruct (kubeclient.GetKubeletThresholds _ _ _) as [thresholds e1].
  destruct (kubeclient.GetCPUThrottlingMetrics _ _ _) as [metricFamilies e2].
  simpl in *.
  destruct (parseNodeStats_is_Some
              (generateThrottlingMetrics m metricFamilies (UnixNano node ÷ 1000000))
              (stats.Summary.Node summary) thresholds
              (UnixNano node ÷ 1000000) Hc) as [m1 ->].
  - by rewrite generateThrottlingMetrics_entries.
  - by eexists.
Qed.

Lemma scrapeKubelet_is_Some m node :
  wellFormedAnswers (isFullDiscovery m) (kubeletClient m) node ->
  is_Some (scrapeKubelet m node).
Proof.
  intros Hw. unfold scrapeKubelet, wellFormedAnswers in *.
  destruct (isFullDiscovery m) eqn:Ef.
  - destruct (kubeclient.GetNodeCpuFrequency _ _) as [f [e | ]]; [ by eexists | ].
    destruct (GetNodeIPForMonitor _ _) as [ip [e | ]]; [ by eexists | ].
    simpl.
    destruct (kubeclient.GetSummary _ _ _) as [summary [e | ]] eqn:Es;
      [ by eexists | ].
    destruct (Hw ip summary eq_refl Es) as (s & -> & Hc & Hr).
    rewrite Ef.
    destruct (kubeclient.HasCacheBeenUsed _ _); apply collect_is_Some; auto.
  - destruct (GetNodeIPForMonitor _ _) as [ip [e | ]]; [ by eexists | ].
    destruct (kubeclient.GetSummary _ _ _) as [summary [e | ]] eqn:Es;
      [ by eexists | ].
    destruct (Hw ip summary eq_refl Es) as (s & -> & Hc & Hr).
    rewrite Ef.
    destruct (kubeclient.HasCacheBeenUsed _ _); [ by eexists | ].
    apply collect_is_Some; [ done | ]. intros Hf. congruence.
Qed.

Lemma try_receive_closed c c' : try_receive c = Some c' -> closed c' = closed c.
Proof.
  unfold try_receive. destruct (buffered c).
  - destruct (closed c) eqn:E; [ | discriminate ].
    intros [= <-]. by rewrite E.
  - by intros [= <-].
Qed.

(** A task leaves the client and the mode as they are, and the stop channel
    open if it was. *)
Lemma task_preserves m n m' :
  task m n = Some m' ->
  kubeletClient m' = kubeletClient m /\
  isFullDiscovery m' = isFullDiscovery m /\
  closed (stopCh m') = closed (stopCh m).
Proof.
  unfold task. destruct (try_receive (stopCh m)) as [c | ] eqn:E.
  - intros [= <-]. simpl. repeat split. by apply try_receive_closed.
  - intros Hs. apply scrapeKubelet_cfg in Hs.
    repeat split.
    + exact (f_equal kubeletClient Hs).
    + exact (f_equal isFullDiscovery Hs).
    + exact (f_equal (fun x => closed (stopCh x)) Hs).
Qed.

Lemma task_is_Some m n :
  wellFormedAnswers (isFullDiscovery m) (kubeletClient m) n ->
  is_Some (task m n).
Proof.
  intros Hw. unfold task. destruct (try_receive (stopCh m)); [ by eexists | ].
  by apply scrapeKubelet_is_Some.
Qed.

Lemma runTasks_is_Some sched :
  forall m,
    closed (stopCh m) = false ->
    (forall node, node ∈ sched ->
       wellFormedAnswers (isFullDiscovery m) (kubeletClient m) node) ->
    exists m', runTasks sched m = Some m' /\ closed (stopCh m') = false.
Proof.
  unfold runTasks.
  induction sched as [ | n sched IH ]; intros m Hc Hw; simpl.
  - by exists m.
  - destruct (task_is_Some m n) as [m1 Hm1]; [ apply Hw; left | ].
    rewrite Hm1; simpl.
    apply task_preserves in Hm1 as (Hk & Hf & Hcl).
    apply IH; [ congruence | ].
    intros node Hin. rewrite Hk, Hf. apply Hw. by right.
Qed.

(** C7: RetrieveResourceStat returns an error exactly when the node list is
    empty.  For a non-empty list it returns the nil error whatever fetches
    fail: with an open stop channel and answers that cannot make a scrape
    panic (nothing is asked of the errors), the cycle returns; and when no
    stop signal was raised, every node adds its own contribution to the
    sink, which does not depend on what the fetches of the other nodes
    answer. *)
Theorem RetrieveResourceStat_error_iff_empty
    (sched : list api.Node) (m : KubeletMonitor) :
  closed (stopCh m) = false ->
  (forall node, node ∈ sched ->
     wellFormedAnswers (isFullDiscovery m) (kubeletClient m) node) ->
  exists r,
    RetrieveResourceStat sched m = Some r /\
    (is_Some r.1 <-> nodeList m = []) /\
    (nodeList m = [] -> metricSink r.2 = metricSink m) /\
    (nodeList m <> [] -> stopCh m = make_chan ->
     exists ess,
       Forall2 (fun node es => contribution m node = Some es) sched ess /\
       metricSink r.2 = metricSink m ++ mjoin ess).
Proof.
  intros Hc Hw.
  assert (Hret : exists r,
            RetrieveResourceStat sched m = Some r /\
            (is_Some r.1 <-> nodeList m = []) /\
            (nodeList m = [] -> metricSink r.2 = metricSink m)).
  { unfold RetrieveResourceStat.
    destruct (nodeList m) as [ | n0 l ].
    - rewrite closeStopCh_open by done. simpl.
      eexists. split; [ reflexivity | ]. simpl.
      split; [ | done ]. split; [ done | by eexists ].
    - destruct (runTasks_is_Some sched m Hc Hw) as (m' & -> & Hc'). simpl.
      rewrite closeStopCh_open by done. simpl.
      eexists. split; [ reflexivity | ]. simpl.
      split; [ | done ]. split; [ intros [? [=]] | done ]. }
  destruct Hret as (r & Hr & Herr & Hempty).
  exists r. repeat split; try done; try apply Herr.
  intros Hn Hs.
  rewrite (RetrieveResourceStat_contributions sched m Hn Hs) in Hr.
  destruct (mapM (contribution m) sched) as [ess | ] eqn:E; simpl in Hr;
    [ | discriminate ].
  injection Hr as <-. exists ess. split; [ by apply mapM_Some_1 | done ].
Qed.

(** Whenever the cycle returns, its error is nil exactly for a non-empty
    node list. *)
Lemma RetrieveResourceStat_returned_error sched m r :
  RetrieveResourceStat sched m = Some r -> (r.1 = None <-> nodeList m <> []).
Proof.
  unfold RetrieveResourceStat. destruct (nodeList m) as [ | n0 l ].
  - destruct (closeStopCh m); simpl; [ | discriminate ].
    intros [= <-]. simpl. split; [ discriminate | done ].
  - destruct (runTasks sched m) as [m1 | ]; simpl; [ | discriminate ].
    destruct (closeStopCh m1); simpl; [ | discriminate ].
    intros [= <-]. simpl. split; done.
Qed.

(** *** The stop signal *)

(** One stop signal is one value in the channel, and the first task to
    start receives it: the others find the channel empty and scrape. *)
Lemma runTasks_after_Stop m n rest :
  stopCh m = make_chan ->
  exists m1,
    Stop m = Some m1 /\ runTasks (n :: rest) m1 = runTasks rest m.
Proof.
  intros Hs. unfold Stop, send. rewrite Hs. simpl.
  eexists. split; [ reflexivity | ].
  unfold runTasks, task. simpl.
  f_equal. destruct m; simpl in *. by subst.
Qed.

End Cycle.

(** ** The statements at concrete inputs *)

Lemma scrapeKubelet_cache_hit_witness :
  let mS := ReceiveTask (NewKubeletMonitor fixtures.cached false) [fixtures.node1] in
  let mF := ReceiveTask (NewKubeletMonitor fixtures.cached true) [fixtures.node1] in
  @scrapeKubelet fixtures.collab mS fixtures.node1 = Some mS /\
  @scrapeKubelet fixtures.collab mF fixtures.node1
  = (fun m0 =>
       addEntries mF
         (@cpuFrequencyEntry fixtures.collab fixtures.node1 2400
          :: @cacheUsedEntry fixtures.collab fixtures.node1
          :: metricSink m0))
      <$> @collect fixtures.collab (cfg mF) fixtures.node1 "ip-of-node-1"
            (Some (fixtures.summaryOf "node-1")).
Proof.
  split.
  - exact (proj1 (@scrapeKubelet_cache_hit fixtures.collab
                    (ReceiveTask (NewKubeletMonitor fixtures.cached false)
                       [fixtures.node1])
                    fixtures.node1 "ip-of-node-1"
                    (Some (fixtures.summaryOf "node-1"))
                    eq_refl eq_refl eq_refl) eq_refl).
  - exact (proj2 (@scrapeKubelet_cache_hit fixtures.collab
                    (ReceiveTask (NewKubeletMonitor fixtures.cached true)
                       [fixtures.node1])
                    fixtures.node1 "ip-of-node-1"
                    (Some (fixtures.summaryOf "node-1"))
                    eq_refl eq_refl eq_refl) eq_refl 2400 eq_refl).
Defined.

(** The sink of a full discovery of one node answered from the cache: the
    frequency, the cache state, then the collection. *)
Example Do_cached_full_discovery :
  @Do fixtures.collab [fixtures.node1]
    (ReceiveTask (NewKubeletMonitor fixtures.cached true) [fixtures.node1])
  = Some
      ([ metrics.EntityStateMetric metrics.NodeType "node-1" metrics.CpuFrequency 2400;
         metrics.EntityStateMetric metrics.NodeType "node-1" metrics.NodeCacheUsed 1 ]
       ++ fixtures.usedEntries "node-1"
       ++ [ metrics.EntityResourceMetric metrics.NodeType "node-1"
              metrics.VStorage metrics.Capacity (metrics.Scalar 0);
            metrics.EntityResourceMetric metrics.NodeType "node-1"
              metrics.VStorage metrics.Available (metrics.Scalar 0);
            metrics.EntityResourceMetric metrics.NodeType "node-1-imagefs"
              metrics.VStorage metrics.Capacity (metrics.Scalar 0);
            metrics.EntityResourceMetric metrics.NodeType "node-1-imagefs"
              metrics.VStorage metrics.Available (metrics.Scalar 0);
            thresholdEntry "node-1" metrics.Memory 1.220703125;
            thresholdEntry "node-1" metrics.VStorage 15;
            thresholdEntry "node-1-imagefs" metrics.VStorage 0 ]).
Proof. vm_compute. reflexivity. Qed.

(** The same in a sampling discovery: nothing. *)
Example Do_cached_sampling_discovery :
  @Do fixtures.collab [fixtures.node1]
    (ReceiveTask (NewKubeletMonitor fixtures.cached false) [fixtures.node1])
  = Some [].
Proof. vm_compute. reflexivity. Qed.

(** C6 fails as stated: in a full discovery, a node whose frequency is
    fetched and whose summary is not leaves its CPU frequency entry in the
    sink. *)
Lemma Do_summary_fails_full_discovery :
  kubeclient.GetSummary fixtures.summaryDown "ip-of-node-1" "node-1"
    = (None, Some "connection refused")
  /\ @Do fixtures.collab [fixtures.node1]
       (ReceiveTask (NewKubeletMonitor fixtures.summaryDown true) [fixtures.node1])
     = Some [ metrics.EntityStateMetric metrics.NodeType "node-1"
                metrics.CpuFrequency 2400 ].
Proof. split; vm_compute; reflexivity. Qed.

Lemma RetrieveResourceStat_sink_witness :
  let sched := [fixtures.node2; fixtures.node1] in
  let m := ReceiveTask (NewKubeletMonitor fixtures.reachable false)
             [fixtures.node1; fixtures.node2] in
  @RetrieveResourceStat fixtures.collab sched m
  = (fun ess =>
       (None,
        with_stopCh (addEntries m (mjoin ess))
          {| buffered := 0; closed := true |}))
      <$> mapM (@contribution fixtures.collab m) sched.
Proof.
  assert (Hn : nodeList (ReceiveTask (NewKubeletMonitor fixtures.reachable false)
                           [fixtures.node1; fixtures.node2]) <> [])
    by discriminate.
  assert (Hp : [fixtures.node2; fixtures.node1]
               ≡ₚ nodeList (ReceiveTask (NewKubeletMonitor fixtures.reachable false)
                              [fixtures.node1; fixtures.node2]))
    by apply perm_swap.
  exact (proj1 (@RetrieveResourceStat_sink fixtures.collab
                  [fixtures.node2; fixtures.node1]
                  (ReceiveTask (NewKubeletMonitor fixtures.reachable false)
                     [fixtures.node1; fixtures.node2])
                  Hn eq_refl Hp)).
Defined.

(** The sink of a sampling discovery of two reachable nodes, the task of
    the second one run first. *)
Example Do_two_nodes :
  @Do fixtures.collab [fixtures.node2; fixtures.node1]
    (ReceiveTask (NewKubeletMonitor fixtures.reachable false)
       [fixtures.node1; fixtures.node2])
  = Some (fixtures.usedEntries "node-2" ++ fixtures.usedEntries "node-1").
Proof. vm_compute. reflexivity. Qed.

Lemma RetrieveResourceStat_error_iff_empty_witness :
  exists r,
    @RetrieveResourceStat fixtures.collab [fixtures.node1; fixtures.node2]
      (ReceiveTask (NewKubeletMonitor fixtures.unreachable true)
         [fixtures.node1; fixtures.node2])
    = Some r /\ r.1 = None.
Proof.
  assert (Hw : forall node,
            node ∈ [fixtures.node1; fixtures.node2] ->
            @wellFormedAnswers fixtures.collab true fixtures.unreachable node).
  { intros node _ ip summary _ Hs. discriminate Hs. }
  destruct (@RetrieveResourceStat_error_iff_empty fixtures.collab
              [fixtures.node1; fixtures.node2]
              (ReceiveTask (NewKubeletMonitor fixtures.unreachable true)
                 [fixtures.node1; fixtures.node2])
              eq_refl Hw) as (r & Hr & Herr & _ & _).
  exists r. split; [ exact Hr | ].
  destruct (fst r) as [e | ] eqn:E; [ | reflexivity ].
  assert (He : is_Some (Some e)) by (by eexists).
  apply Herr in He. discriminate He.
Defined.

(** The empty node list: the error, and the sink as it was. *)
Example RetrieveResourceStat_empty :
  @RetrieveResourceStat fixtures.collab []
    (ReceiveTask (NewKubeletMonitor fixtures.reachable true) [])
  = Some
      (Some "Invalid nodeList or empty nodeList. Finish Immediately...",
       with_stopCh (ReceiveTask (NewKubeletMonitor fixtures.reachable true) [])
         {| buffered := 0; closed := true |}).
Proof. reflexivity. Qed.

(** A scrape that panics ends the cycle: no sink is returned. *)
Example Do_imagefs_used_only_panics :
  @Do fixtures.collab [fixtures.node1]
    (ReceiveTask (NewKubeletMonitor fixtures.imagefsUsedOnlyClient false)
       [fixtures.node1])
  = None.
Proof. reflexivity. Qed.

(** C8 fails on the code: Stop sends one value on the stop channel, and a
    receive consumes it.  With two nodes and the stop signal raised before
    any task starts, the task that starts first receives the value and
    returns; the other finds the channel empty and scrapes its node, so
    the sink is not empty. *)
Theorem Stop_reaches_one_task :
  let m := ReceiveTask (NewKubeletMonitor fixtures.reachable false)
             [fixtures.node1; fixtures.node2] in
  (Stop m ≫= @Do fixtures.collab [fixtures.node1; fixtures.node2])
    = Some (fixtures.usedEntries "node-2")
  /\ (Stop m ≫= @Do fixtures.collab [fixtures.node2; fixtures.node1])
    = Some (fixtures.usedEntries "node-1").
Proof. split; vm_compute; reflexivity. Qed.

(** * Further properties *)

(** ** The correlator beyond the two families *)

Lemma parseFamilies_stops fams1 metricName f fams2 :
  dto.GetType f <> dto.MetricType_COUNTER ->
  forall parsed,
    parseFamilies (fams1 ++ (metricName, f) :: fams2) parsed
    = parseFamilies fams1 parsed.
Proof.
  intros Hf. induction fams1 as [ | [n g] fams1 IH ]; intros parsed; simpl.
  - destruct (dto.GetType f); simpl; try reflexivity. done.
  - destruct (negb _); [ reflexivity | apply IH ].
Qed.

(** X1: a family that is not a counter ends the correlation: what was parsed
    from the families ranged over before it is returned, and every family
    after it is left unread, whatever it holds. *)
Theorem parseMetricFamilies_stops_at_non_counter
    (fams1 : list (string * ptr dto.MetricFamily)) (metricName : string)
    (f : ptr dto.MetricFamily) (fams2 : list (string * ptr dto.MetricFamily)) :
  dto.GetType f <> dto.MetricType_COUNTER ->
  parseMetricFamilies (fams1 ++ (metricName, f) :: fams2)
  = parseMetricFamilies fams1.
Proof. intros Hf. unfold parseMetricFamilies. by apply parseFamilies_stops. Qed.

Lemma parseMetricFamilies_stops_at_non_counter_witness :
  parseMetricFamilies
    [ fixtures.total "c" "ns" "p"; samples.memoryGauge;
      fixtures.throttled "c" "ns" "p" ]
  = parseMetricFamilies [fixtures.total "c" "ns" "p"].
Proof.
  assert (Hg : dto.GetType samples.memoryGauge.2 <> dto.MetricType_COUNTER)
    by discriminate.
  exact (parseMetricFamilies_stops_at_non_counter
           [fixtures.total "c" "ns" "p"] samples.memoryGauge.1
           samples.memoryGauge.2 [fixtures.throttled "c" "ns" "p"] Hg).
Defined.

(** With a gauge among the families, the result depends on the order of the
    range: ranged over first, the gauge leaves nothing. *)
Example parseMetricFamilies_order_matters :
  parseMetricFamilies [fixtures.total "c" "ns" "p"; samples.memoryGauge]
    = {[ "ns/p/c" := {| cpuThrottled := 0; cpuTotal := 10 |} ]}
  /\ parseMetricFamilies [samples.memoryGauge; fixtures.total "c" "ns" "p"] = ∅.
Proof. split; vm_compute; reflexivity. Qed.

(** X2: nil pointers are passed over.  A nil family is an empty counter
    family and a nil metric is skipped: the result is the one without them,
    wherever they stand. *)
Theorem parseMetricFamilies_skips_nil
    (fams1 fams2 : list (string * ptr dto.MetricFamily))
    (metricName : string) (type : ptr dto.MetricType)
    (points1 points2 : list (ptr dto.Metric)) :
  parseMetricFamilies (fams1 ++ (metricName, None) :: fams2)
    = parseMetricFamilies (fams1 ++ fams2)
  /\ parseMetricFamilies
       (fams1
        ++ (metricName,
            Some {| dto.Type_ := type; dto.Metric_ := points1 ++ None :: points2 |})
        :: fams2)
     = parseMetricFamilies
         (fams1
          ++ (metricName,
              Some {| dto.Type_ := type; dto.Metric_ := points1 ++ points2 |})
          :: fams2).
Proof.
  split.
  - unfold parseMetricFamilies. generalize (∅ : gmap string throttlingMetric).
    induction fams1 as [ | [n g] fams1 IH ]; intros parsed; simpl.
    + reflexivity.
    + destruct (negb _); [ reflexivity | apply IH ].
  - unfold parseMetricFamilies.
    apply parseFamilies_family_ext; [ reflexivity | ].
    intros parsed. cbn [dto.GetMetric dto.Metric_].
    by rewrite !fold_left_app.
Qed.

(** A point of the total-periods family and a point of another family
    write different fields: their turns commute. *)
Lemma metricStep_commute other parsed a b :
  other <> kubeclient.ContainerCPUTotal ->
  metricStep kubeclient.ContainerCPUTotal (metricStep other parsed a) b
  = metricStep other (metricStep kubeclient.ContainerCPUTotal parsed b) a.
Proof.
  intros Ho. apply String.eqb_neq in Ho.
  unfold metricStep. rewrite Ho, String.eqb_refl.
  destruct a as [a | ], b as [b | ]; try reflexivity.
  - destruct (name (readLabels (dto.Label a)) =? "")%string;
      destruct (name (readLabels (dto.Label b)) =? "")%string; try reflexivity.
    set (ia := metricID (readLabels (dto.Label a))).
    set (ib := metricID (readLabels (dto.Label b))).
    destruct (decide (ia = ib)) as [ <- | Hne ].
    + rewrite !lookup_insert_eq. simpl. by rewrite !insert_insert_eq.
    + rewrite (lookup_insert_ne _ ia ib) by done.
      rewrite (lookup_insert_ne _ ib ia) by done.
      by apply insert_insert_ne.
Qed.

Lemma fold_metricStep_commute_one other points b :
  other <> kubeclient.ContainerCPUTotal ->
  forall parsed,
    metricStep kubeclient.ContainerCPUTotal
      (fold_left (metricStep other) points parsed) b
    = fold_left (metricStep other) points
        (metricStep kubeclient.ContainerCPUTotal parsed b).
Proof.
  intros Ho. induction points as [ | a points IH ]; intros parsed; simpl.
  - reflexivity.
  - by rewrite IH, metricStep_commute.
Qed.

Lemma fold_metricStep_commute other pointsO pointsT :
  other <> kubeclient.ContainerCPUTotal ->
  forall parsed,
    fold_left (metricStep kubeclient.ContainerCPUTotal) pointsT
      (fold_left (metricStep other) pointsO parsed)
    = fold_left (metricStep other) pointsO
        (fold_left (metricStep kubeclient.ContainerCPUTotal) pointsT parsed).
Proof.
  intros Ho. induction pointsT as [ | b pointsT IH ]; intros parsed; simpl.
  - reflexivity.
  - by rewrite fold_metricStep_commute_one, IH.
Qed.

(** X3: for the total-periods family and one other family, both counters,
    the order of the range does not matter, whatever points they hold: the
    two families write different fields of the throttling metrics. *)
Theorem parseMetricFamilies_two_families_any_order
    (other : string) (fT fO : ptr dto.MetricFamily) :
  other <> kubeclient.ContainerCPUTotal ->
  dto.GetType fT = dto.MetricType_COUNTER ->
  dto.GetType fO = dto.MetricType_COUNTER ->
  parseMetricFamilies [(kubeclient.ContainerCPUTotal, fT); (other, fO)]
  = parseMetricFamilies [(other, fO); (kubeclient.ContainerCPUTotal, fT)].
Proof.
  intros Ho HT HO. unfold parseMetricFamilies; simpl.
  rewrite HT, HO. simpl. symmetry. by apply fold_metricStep_commute.
Qed.

Lemma parseMetricFamilies_two_families_any_order_witness :
  parseMetricFamilies [fixtures.total "c" "ns" "p"; fixtures.throttled "c2" "ns" "p"]
  = parseMetricFamilies [fixtures.throttled "c2" "ns" "p"; fixtures.total "c" "ns" "p"].
Proof.
  assert (Ho : kubeclient.ContainerCPUThrottledTotal <> kubeclient.ContainerCPUTotal)
    by discriminate.
  exact (parseMetricFamilies_two_families_any_order
           kubeclient.ContainerCPUThrottledTotal
           (fixtures.counterFamily [fixtures.point (fixtures.labels "c" "ns" "p") 10])
           (fixtures.counterFamily [fixtures.point (fixtures.labels "c2" "ns" "p") 5])
           Ho eq_refl eq_refl).
Defined.

Lemma parseFamilies_reported metricFamilies i :
  forall parsed,
    is_Some (parseFamilies metricFamilies parsed !! i) ->
    is_Some (parsed !! i) \/ reports metricFamilies i.
Proof.
  induction metricFamilies as [ | [n f] fams IH ]; intros parsed; simpl.
  - by left.
  - destruct (negb _); [ by left | ].
    intros Hs. apply IH in Hs as [Hs | (n' & f' & mt & Hin & Hp & Hn & Hi)].
    + apply fold_metricStep_is_Some in Hs as [ ? | (mt & Hin & Hn & Hi) ];
        [ by left | ].
      right. exists n, f, mt. split; [ left | done ].
    + right. exists n', f', mt. split; [ by right | done ].
Qed.

(** X4: every identity of the result comes from a point that carries a
    container label of non-empty value, whose namespace, pod and container
    labels spell it; when every family is a counter, each such point gives
    its identity a throttling metric. *)
Theorem parseMetricFamilies_identities
    (metricFamilies : list (string * ptr dto.MetricFamily)) (i : string) :
  (is_Some (parseMetricFamilies metricFamilies !! i) -> reports metricFamilies i)
  /\ (allCounters metricFamilies -> reports metricFamilies i ->
      is_Some (parseMetricFamilies metricFamilies !! i)).
Proof.
  unfold parseMetricFamilies. split.
  - intros Hs. apply parseFamilies_reported in Hs as [ Hs | ? ]; [ | done ].
    rewrite lookup_empty in Hs. by destruct Hs.
  - intros Hc Hr. apply (parseFamilies_is_Some _ _ Hc). by right.
Qed.

Lemma parseMetricFamilies_identities_witness :
  is_Some (parseMetricFamilies [fixtures.throttled "c" "ns" "p"] !! "ns/p/c").
Proof.
  assert (Hc : allCounters [fixtures.throttled "c" "ns" "p"]).
  { constructor; [ reflexivity | constructor ]. }
  apply (proj2 (parseMetricFamilies_identities
                  [fixtures.throttled "c" "ns" "p"] "ns/p/c") Hc).
  exists kubeclient.ContainerCPUThrottledTotal,
    (fixtures.counterFamily [fixtures.point (fixtures.labels "c" "ns" "p") 5]).
  eexists. split; [ left | ]. split; [ left | ].
  split; [ discriminate | reflexivity ].
Defined.

(** X5: generateThrottlingMetrics adds one entry for each identity of the
    correlated map and no more: the keys of the entries it adds are pairwise
    distinct, and there are as many as the map has identities. *)
Theorem generateThrottlingMetrics_one_per_identity
    (m : KubeletMonitor) (metricFamilies : list (string * ptr dto.MetricFamily))
    (timestamp : Z) :
  exists added,
    generateThrottlingMetrics m metricFamilies timestamp = addEntries m added /\
    NoDup (entryKey <$> added) /\
    length added = size (parseMetricFamilies metricFamilies) /\
    forall i, i ∈ entryKey <$> added
              <-> is_Some (parseMetricFamilies metricFamilies !! i).
Proof.
  exists (throttlingEntry timestamp
            <$> map_to_list (parseMetricFamilies metricFamilies)).
  split; [ apply generateThrottlingMetrics_entries | ].
  assert (Hk : entryKey <$> (throttlingEntry timestamp
                  <$> map_to_list (parseMetricFamilies metricFamilies))
               = (map_to_list (parseMetricFamilies metricFamilies)).*1).
  { rewrite <- list_fmap_compose. by apply list_fmap_ext. }
  rewrite Hk. split; [ apply NoDup_fst_map_to_list | ]. split.
  - by rewrite length_fmap, length_map_to_list.
  - intros i. rewrite list_elem_of_fmap. split.
    + intros ([k tm] & -> & Hin). apply elem_of_map_to_list in Hin. by exists tm.
    + intros [tm Htm]. exists (i, tm). split; [ done | ].
      by apply elem_of_map_to_list.
Qed.

(** ** Pod and container statistics *)

Section ExtraStats.
Context `{Collaborators}.

Lemma containerStep_usage podMId timestamp cpu mem m container :
  containerStep podMId timestamp (cpu, mem, m) container
  = match usage container with
    | None => (cpu, mem, m)
    | Some (c, u) =>
        (cpu + c, mem + u,
         addEntries m (containerEntries podMId timestamp container))
    end.
Proof.
  unfold containerStep, containerEntries, usage.
  destruct (nonNil2 (stats.ContainerStats.CPU container) _) as [c | ]; simpl;
    [ | reflexivity ].
  destruct (nonNil2 (stats.ContainerStats.Memory container) _) as [u | ]; simpl;
    [ | reflexivity ].
  unfold genUsedMetrics, genRequestUsedMetrics.
  by rewrite !addEntries_addEntries.
Qed.

Lemma fold_containerStep podMId timestamp containers :
  forall cpu mem m,
    fold_left (containerStep podMId timestamp) containers (cpu, mem, m)
    = (fold_left PrimFloat.add (fst <$> omap usage containers) cpu,
       fold_left PrimFloat.add (snd <$> omap usage containers) mem,
       addEntries m (containers ≫= containerEntries podMId timestamp)).
Proof.
  induction containers as [ | c containers IH ]; intros cpu mem m.
  - simpl. by rewrite addEntries_nil.
  - cbn [fold_left]. rewrite containerStep_usage, bind_cons.
    change (omap usage (c :: containers))
      with (match usage c with
            | Some y => y :: omap usage containers
            | None => omap usage containers
            end).
    destruct (usage c) as [[x y] | ] eqn:E.
    + by rewrite IH, addEntries_addEntries.
    + rewrite IH. unfold containerEntries at 2. by rewrite E.
Qed.

(** X6: the CPU and memory totals parseContainerStats returns for a pod are
    the sums, from 0 and in the order of the list, over the containers whose
    statistics hold both a CPU usage and a memory working set; each of those
    containers adds six entries (used and request-used of the container, used
    of its application) and the others add none. *)
Theorem parseContainerStats_totals
    (m : KubeletMonitor) (pod : stats.PodStats.t) (timestamp : Z) :
  let containers := stats.PodStats.Containers pod in
  let podMId := PodMetricId (stats.PodStats.PodRef pod) in
  parseContainerStats m pod timestamp
    = (fsum (fst <$> omap usage containers),
       fsum (snd <$> omap usage containers),
       addEntries m (containers ≫= containerEntries podMId timestamp))
  /\ length (containers ≫= containerEntries podMId timestamp)
     = (6 * length (omap usage containers))%nat.
Proof.
  simpl. split.
  - unfold parseContainerStats, fsum. apply fold_containerStep.
  - induction (stats.PodStats.Containers pod) as [ | c l IH ];
      [ reflexivity | ].
    rewrite bind_cons, length_app, IH.
    change (omap usage (c :: l))
      with (match usage c with
            | Some y => y :: omap usage l
            | None => omap usage l
            end).
    unfold containerEntries at 1.
    destruct (usage c) as [[x y] | ]; simpl; lia.
Qed.

(** A container without a CPU usage or without a memory working set. *)
Lemma containerStep_incomplete podMId timestamp acc container :
  usage container = None -> containerStep podMId timestamp acc container = acc.
Proof.
  destruct acc as [[cpu mem] m]. intros Hu.
  by rewrite containerStep_usage, Hu.
Qed.

(** X7: a container without a CPU usage or without a memory working set
    leaves no trace: what parsePodStats adds for the pods is what it adds
    when the container is taken out of its pod (no zero-filled entry, no
    share in the totals of the pod). *)
Theorem parsePodStats_incomplete_container
    (m : KubeletMonitor) (timestamp : Z)
    (pods1 pods2 : list stats.PodStats.t) (podRef : stats.PodReference.t)
    (containers1 containers2 : list stats.ContainerStats.t)
    (container : stats.ContainerStats.t)
    (ephemeralStorage : ptr stats.FsStats.t)
    (volumeStats : list stats.VolumeStats.t) :
  usage container = None ->
  parsePodStats m
    (pods1
     ++ {| stats.PodStats.PodRef := podRef;
           stats.PodStats.Containers := containers1 ++ container :: containers2;
           stats.PodStats.EphemeralStorage := ephemeralStorage;
           stats.PodStats.VolumeStats := volumeStats |}
     :: pods2) timestamp
  = parsePodStats m
      (pods1
       ++ {| stats.PodStats.PodRef := podRef;
             stats.PodStats.Containers := containers1 ++ containers2;
             stats.PodStats.EphemeralStorage := ephemeralStorage;
             stats.PodStats.VolumeStats := volumeStats |}
       :: pods2) timestamp.
Proof.
  intros Hu. unfold parsePodStats. rewrite !fold_left_app. cbn [fold_left].
  f_equal. unfold podStep, parseContainerStats.
  cbn [stats.PodStats.Containers stats.PodStats.PodRef].
  rewrite !fold_left_app. cbn [fold_left].
  by rewrite containerStep_incomplete.
Qed.

End ExtraStats.

Lemma parsePodStats_incomplete_container_witness :
  @parsePodStats fixtures.collab (NewKubeletMonitor fixtures.reachable false)
    [samples.pod [samples.busy; samples.starting]] 1000
  = @parsePodStats fixtures.collab (NewKubeletMonitor fixtures.reachable false)
      [samples.pod [samples.busy]] 1000.
Proof.
  exact (@parsePodStats_incomplete_container fixtures.collab
           (NewKubeletMonitor fixtures.reachable false) 1000 [] []
           samples.podRef [samples.busy] [] samples.starting None [] eq_refl).
Defined.

(** The entries of that pod in a sampling discovery. *)
Example parsePodStats_sampling :
  metricSink
    (@parsePodStats fixtures.collab (NewKubeletMonitor fixtures.reachable false)
       [samples.pod [samples.busy; samples.starting]] 1000)
  = [ usedSample metrics.ContainerType "ns/p/busy" metrics.CPU 0.25 1000;
      usedSample metrics.ContainerType "ns/p/busy" metrics.Memory 1024 1000;
      usedSample metrics.ContainerType "ns/p/busy" metrics.CPURequest 0.25 1000;
      usedSample metrics.ContainerType "ns/p/busy" metrics.MemoryRequest 1024 1000;
      usedSample metrics.ApplicationType "App-ns/p/busy" metrics.CPU 0.25 1000;
      usedSample metrics.ApplicationType "App-ns/p/busy" metrics.Memory 1024 1000;
      usedSample metrics.PodType "ns/p" metrics.CPU 0.25 1000;
      usedSample metrics.PodType "ns/p" metrics.Memory 1024 1000 ].
Proof. vm_compute. reflexivity. Qed.

(** ** What a scrape adds *)

Lemma sink_addEntries (P : metrics.EntityMetric -> Prop) m es :
  Forall P (metricSink m) -> Forall P es ->
  Forall P (metricSink (addEntries m es)).
Proof. intros Hm He. simpl. by apply Forall_app. Qed.

Ltac entry_ok1 :=
  unfold entryOK, metrics.NewEntityResourceMetric, metrics.NewEntityStateMetric;
  split; [ simpl; repeat constructor | split ];
  [ intros ?; first [ congruence | simpl; auto 10 ]
  | let Hg := fresh in
    intros Hg;
    first [ exact I
          | apply andb_false_iff in Hg as [ ? | ? ]; congruence ] ].

Ltac entry_ok :=
  repeat first [ apply List.Forall_nil | apply List.Forall_cons; [ entry_ok1 | ] ].

Section ExtraInvariants.
Context `{Collaborators}.
Variables (full gate : bool) (timestamp : Z).

Abbreviation sinkOK m := (Forall (entryOK full gate timestamp) (metricSink m)).

Lemma genUsedMetrics_ok m etype key cpu memory :
  sinkOK m -> sinkOK (genUsedMetrics m etype key cpu memory timestamp).
Proof. intros Hm. apply sink_addEntries; [ done | ]. entry_ok. Qed.

Lemma genRequestUsedMetrics_ok m etype key cpu memory :
  sinkOK m -> sinkOK (genRequestUsedMetrics m etype key cpu memory timestamp).
Proof. intros Hm. apply sink_addEntries; [ done | ]. entry_ok. Qed.

Lemma genNumConsumersUsedMetrics_ok m etype key :
  full = true -> sinkOK m -> sinkOK (genNumConsumersUsedMetrics m etype key).
Proof. intros Hf Hm. apply sink_addEntries; [ done | ]. entry_ok. Qed.

Lemma genFSMetrics_ok m etype key capacity used available :
  full = true -> sinkOK m ->
  sinkOK (genFSMetrics m etype key capacity used available).
Proof.
  intros Hf Hm. unfold genFSMetrics.
  destruct (is_NodeType etype);
    (apply sink_addEntries; [ apply sink_addEntries; [ done | ] | ]); entry_ok.
Qed.

Lemma genPVMetrics_ok m etype key capacity used :
  full = true -> gate = true -> sinkOK m ->
  sinkOK (genPVMetrics m etype key capacity used).
Proof. intros Hf Hg Hm. apply sink_addEntries; [ done | ]. entry_ok. Qed.

Lemma generateThrottlingMetrics_ok m metricFamilies :
  sinkOK m -> sinkOK (generateThrottlingMetrics m metricFamilies timestamp).
Proof.
  intros Hm. rewrite generateThrottlingMetrics_entries.
  apply sink_addEntries; [ done | ].
  apply Forall_fmap, Forall_forall. intros [k tm] _. simpl. entry_ok1.
Qed.

Lemma parseThresholdValues_ok m key mc rc ic thresholds m' :
  full = true -> sinkOK m ->
  parseThresholdValues m key mc rc ic thresholds = Some m' -> sinkOK m'.
Proof.
  intros Hf Hm. unfold parseThresholdValues.
  destruct (computeThresholds mc rc ic thresholds); simpl; [ | discriminate ].
  intros [= <-].
  repeat (apply sink_addEntries; [ | entry_ok ]). done.
Qed.

Lemma parseNodeStats_ok m nodeStats thresholds m' :
  isFullDiscovery m = full -> sinkOK m ->
  parseNodeStats m nodeStats thresholds timestamp = Some m' -> sinkOK m'.
Proof.
  intros Hf Hm. unfold parseNodeStats.
  match goal with |- context [ mbind _ ?o ] => destruct o end;
    simpl; [ | discriminate ].
  destruct (isFullDiscovery m) eqn:Efull.
  - intros Hp. symmetry in Hf.
    eapply parseThresholdValues_ok; [ done | | exact Hp ].
    do 2 (apply genFSMetrics_ok; [ done | ]). by apply genUsedMetrics_ok.
  - intros [= <-]. by apply genUsedMetrics_ok.
Qed.

Lemma containerStep_ok podMId acc container :
  sinkOK acc.2 -> sinkOK (containerStep podMId timestamp acc container).2.
Proof.
  destruct acc as [[cpu mem] m]. intros Hm. rewrite containerStep_usage.
  destruct (usage container) as [[c u] | ]; simpl in *; [ | done ].
  apply Forall_app. split; [ done | ].
  unfold containerEntries. destruct (usage container) as [[c' u'] | ];
    unfold usedSample; entry_ok.
Qed.

Lemma parseContainerStats_ok m pod :
  sinkOK m -> sinkOK (parseContainerStats m pod timestamp).2.
Proof.
  intros Hm. unfold parseContainerStats.
  change (sinkOK (0, 0, m).2) in Hm. revert Hm. generalize (0, 0, m).
  induction (stats.PodStats.Containers pod) as [ | c l IH ]; intros acc Hacc;
    cbn [fold_left]; [ done | ].
  by apply IH, containerStep_ok.
Qed.

Lemma parseVolumeStats_ok m volStats podKey :
  full = true -> gate = true -> sinkOK m ->
  sinkOK (parseVolumeStats m volStats podKey).
Proof.
  intros Hf Hg. unfold parseVolumeStats. revert m.
  induction volStats as [ | v l IH ]; intros m Hm; cbn [fold_left]; [ done | ].
  apply IH. unfold volumeStep. by apply genPVMetrics_ok.
Qed.

Lemma podStep_ok m pod :
  isFullDiscovery m = full -> Enabled features.PersistentVolumes = gate ->
  sinkOK m -> sinkOK (podStep timestamp m pod).
Proof.
  intros Hf Hg Hm. unfold podStep.
  pose proof (parseContainerStats_ok m pod Hm) as Hc.
  pose proof (f_equal isFullDiscovery (parseContainerStats_cfg m pod timestamp))
    as Hfc. simpl in Hfc.
  destruct (parseContainerStats m pod timestamp) as [[cpu mem] m1].
  simpl in Hc, Hfc.
  change (isFullDiscovery (genUsedMetrics m1 _ _ _ _ _)) with (isFullDiscovery m1).
  rewrite Hfc.
  destruct (isFullDiscovery m) eqn:Efull; [ | by apply genUsedMetrics_ok ].
  symmetry in Hf.
  destruct (Enabled features.PersistentVolumes) eqn:Egate.
  - symmetry in Hg. apply parseVolumeStats_ok; try done.
    apply genFSMetrics_ok; [ done | ].
    apply genNumConsumersUsedMetrics_ok; [ done | ].
    by apply genUsedMetrics_ok.
  - apply genFSMetrics_ok; [ done | ].
    apply genNumConsumersUsedMetrics_ok; [ done | ].
    by apply genUsedMetrics_ok.
Qed.

Lemma parsePodStats_ok m podStats :
  isFullDiscovery m = full -> Enabled features.PersistentVolumes = gate ->
  sinkOK m -> sinkOK (parsePodStats m podStats timestamp).
Proof.
  intros Hf Hg. unfold parsePodStats. revert m Hf.
  induction podStats as [ | p l IH ]; intros m Hf Hm; cbn [fold_left]; [ done | ].
  apply IH.
  - rewrite <- Hf. exact (f_equal isFullDiscovery (podStep_cfg timestamp m p)).
  - by apply podStep_ok.
Qed.

End ExtraInvariants.

Section ExtraScrape.
Context `{Collaborators}.

Lemma collect_ok full gate m node ip summary m' :
  isFullDiscovery m = full -> Enabled features.PersistentVolumes = gate ->
  Forall (entryOK full gate (UnixNano node ÷ 1000000)) (metricSink m) ->
  collect m node ip summary = Some m' ->
  Forall (entryOK full gate (UnixNano node ÷ 1000000)) (metricSink m').
Proof.
  intros Hf Hg Hm. unfold collect.
  destruct (kubeclient.GetKubeletThresholds _ _ _) as [thresholds e1].
  destruct (kubeclient.GetCPUThrottlingMetrics _ _ _) as [metricFamilies e2].
  destruct summary as [summary | ]; simpl; [ | discriminate ].
  destruct (parseNodeStats _ _ _ _) as [m1 | ] eqn:E; simpl; [ | discriminate ].
  intros [= <-].
  pose proof (f_equal isFullDiscovery (parseNodeStats_cfg _ _ _ _ _ E)) as Hf1.
  simpl in Hf1.
  eapply parseNodeStats_ok in E;
    [ | by rewrite generateThrottlingMetrics_entries
      | by apply generateThrottlingMetrics_ok ].
  apply parsePodStats_ok; try done.
  rewrite Hf1. by rewrite generateThrottlingMetrics_entries.
Qed.

Lemma scrapeKubelet_ok full gate m node m' :
  isFullDiscovery m = full -> Enabled features.PersistentVolumes = gate ->
  Forall (entryOK full gate (UnixNano node ÷ 1000000)) (metricSink m) ->
  scrapeKubelet m node = Some m' ->
  Forall (entryOK full gate (UnixNano node ÷ 1000000)) (metricSink m').
Proof.
  intros Hf Hg Hm. unfold scrapeKubelet.
  destruct (isFullDiscovery m) eqn:Ef.
  - symmetry in Hf.
    destruct (kubeclient.GetNodeCpuFrequency _ _) as [f [e | ]];
      [ by intros [= <-] | ].
    assert (Hm1 : Forall (entryOK full gate (UnixNano node ÷ 1000000))
                    (metricSink (parseNodeCpuFreq m node f))).
    { unfold parseNodeCpuFreq. apply sink_addEntries; [ done | ]. entry_ok. }
    destruct (GetNodeIPForMonitor _ _) as [ip [e | ]]; [ by intros [= <-] | ].
    simpl.
    destruct (kubeclient.GetSummary _ _ _) as [summary [e | ]];
      [ by intros [= <-] | ].
    rewrite Ef.
    destruct (kubeclient.HasCacheBeenUsed _ _); intros Hc.
    + eapply collect_ok; [ | exact Hg | | exact Hc ];
        [ simpl; congruence | ].
      apply sink_addEntries; [ done | ]. entry_ok.
    + eapply collect_ok; [ | exact Hg | | exact Hc ];
        [ simpl; congruence | done ].
  - destruct (GetNodeIPForMonitor _ _) as [ip [e | ]]; [ by intros [= <-] | ].
    destruct (kubeclient.GetSummary _ _ _) as [summary [e | ]];
      [ by intros [= <-] | ].
    rewrite Ef.
    destruct (kubeclient.HasCacheBeenUsed _ _); [ by intros [= <-] | ].
    intros Hc. eapply collect_ok; [ | exact Hg | | exact Hc ]; [ congruence | done ].
Qed.

Lemma contribution_ok m node es :
  contribution m node = Some es ->
  Forall (entryOK (isFullDiscovery m) (Enabled features.PersistentVolumes)
            (UnixNano node ÷ 1000000)) es.
Proof.
  unfold contribution.
  destruct (scrapeKubelet (cfg m) node) as [m0 | ] eqn:E; simpl;
    [ | discriminate ].
  intros [= <-].
  eapply scrapeKubelet_ok; [ | | | exact E ]; done.
Qed.

(** X8: all the samples one scrape adds carry one time stamp, the reading of
    the clock taken after the fetches, in milliseconds: the used samples of
    the node, of its pods, containers and applications, and the throttling
    counters. *)
Theorem scrapeKubelet_one_timestamp
    (m : KubeletMonitor) (node : api.Node) (es : list metrics.EntityMetric) :
  contribution m node = Some es ->
  Forall (stamped (UnixNano node ÷ 1000000)) es.
Proof.
  intros Hc. apply contribution_ok in Hc.
  eapply Forall_impl; [ exact Hc | ]. by intros e (Hs & _).
Qed.

(** X9: a scrape of a sampling discovery adds usage samples only: used CPU
    and memory (plain and against the request) and the throttling counters
    of containers; no capacity, availability or threshold, no state metric,
    no consumer count and no storage. *)
Theorem scrapeKubelet_sampling_usage_only
    (m : KubeletMonitor) (node : api.Node) (es : list metrics.EntityMetric) :
  isFullDiscovery m = false ->
  contribution m node = Some es ->
  Forall usageSample es.
Proof.
  intros Hf Hc. apply contribution_ok in Hc.
  eapply Forall_impl; [ exact Hc | ]. intros e (_ & Hu & _). by apply Hu.
Qed.

(** X10: entries of volumes are added only in a full discovery with the
    PersistentVolumes gate enabled: with the gate disabled, or in a sampling
    discovery, a scrape adds no StorageAmount entry, whatever volumes the
    pods mount. *)
Theorem scrapeKubelet_volumes_gated
    (m : KubeletMonitor) (node : api.Node) (es : list metrics.EntityMetric) :
  isFullDiscovery m = false \/ Enabled features.PersistentVolumes = false ->
  contribution m node = Some es ->
  Forall noVolume es.
Proof.
  intros Hg Hc. apply contribution_ok in Hc.
  eapply Forall_impl; [ exact Hc | ]. intros e (_ & _ & Hv). apply Hv.
  apply andb_false_iff. exact Hg.
Qed.

End ExtraScrape.

Lemma scrapeKubelet_one_timestamp_witness :
  exists es,
    @contribution fixtures.collab
      (NewKubeletMonitor samples.busyClient true) fixtures.node1 = Some es
    /\ Forall (stamped 1700000000123) es.
Proof.
  eexists. split; [ reflexivity | ].
  exact (@scrapeKubelet_one_timestamp fixtures.collab
           (NewKubeletMonitor samples.busyClient true) fixtures.node1 _ eq_refl).
Defined.

Lemma scrapeKubelet_sampling_usage_only_witness :
  exists es,
    @contribution fixtures.collab
      (NewKubeletMonitor samples.busyClient false) fixtures.node1 = Some es
    /\ Forall usageSample es.
Proof.
  eexists. split; [ reflexivity | ].
  exact (@scrapeKubelet_sampling_usage_only fixtures.collab
           (NewKubeletMonitor samples.busyClient false) fixtures.node1 _
           eq_refl eq_refl).
Defined.

Lemma scrapeKubelet_volumes_gated_witness :
  exists es,
    @contribution samples.gatesOff
      (NewKubeletMonitor samples.busyClient true) fixtures.node1 = Some es
    /\ Forall noVolume es.
Proof.
  eexists. split; [ reflexivity | ].
  exact (@scrapeKubelet_volumes_gated samples.gatesOff
           (NewKubeletMonitor samples.busyClient true) fixtures.node1 _
           (or_intror eq_refl) eq_refl).
Defined.

(** What a full discovery adds for a node that runs a pod with a volume,
    with the gate of the volumes enabled. *)
Example contribution_full_discovery :
  @contribution fixtures.collab
    (NewKubeletMonitor samples.busyClient true) fixtures.node1
  = Some
      ([ metrics.EntityStateMetric metrics.NodeType "node-1" metrics.CpuFrequency 2400;
         metrics.EntityResourceMetric metrics.ContainerType "ns/p/busy"
           metrics.VCPUThrottling metrics.Used
           (metrics.Throttling
              [ {| metrics.Throttled := 5; metrics.Total := 10;
                   metrics.TTimestamp := 1700000000123 |} ]) ]
       ++ fixtures.usedEntries "node-1"
       ++ [ metrics.EntityResourceMetric metrics.NodeType "node-1"
              metrics.VStorage metrics.Capacity (metrics.Scalar 0);
            metrics.EntityResourceMetric metrics.NodeType "node-1"
              metrics.VStorage metrics.Available (metrics.Scalar 0);
            metrics.EntityResourceMetric metrics.NodeType "node-1-imagefs"
              metrics.VStorage metrics.Capacity (metrics.Scalar 0);
            metrics.EntityResourceMetric metrics.NodeType "node-1-imagefs"
              metrics.VStorage metrics.Available (metrics.Scalar 0);
            thresholdEntry "node-1" metrics.Memory 1.220703125;
            thresholdEntry "node-1" metrics.VStorage 15;
            thresholdEntry "node-1-imagefs" metrics.VStorage 0;
            usedSample metrics.ContainerType "ns/p/busy" metrics.CPU 0.25 1700000000123;
            usedSample metrics.ContainerType "ns/p/busy" metrics.Memory 1024 1700000000123;
            usedSample metrics.ContainerType "ns/p/busy" metrics.CPURequest 0.25 1700000000123;
            usedSample metrics.ContainerType "ns/p/busy" metrics.MemoryRequest 1024 1700000000123;
            usedSample metrics.ApplicationType "App-ns/p/busy" metrics.CPU 0.25 1700000000123;
            usedSample metrics.ApplicationType "App-ns/p/busy" metrics.Memory 1024 1700000000123;
            usedSample metrics.PodType "ns/p" metrics.CPU 0.25 1700000000123;
            usedSample metrics.PodType "ns/p" metrics.Memory 1024 1700000000123;
            metrics.EntityResourceMetric metrics.PodType "ns/p"
              metrics.NumPods metrics.Used (metrics.Scalar 1);
            metrics.EntityResourceMetric metrics.PodType "ns/p"
              metrics.VStorage metrics.Capacity (metrics.Scalar 0);
            metrics.EntityResourceMetric metrics.PodType "ns/p"
              metrics.VStorage metrics.Used (metrics.Scalar 0);
            metrics.EntityResourceMetric metrics.PodType "ns/p-data"
              metrics.StorageAmount metrics.Capacity (metrics.Scalar 1024);
            metrics.EntityResourceMetric metrics.PodType "ns/p-data"
              metrics.StorageAmount metrics.Used (metrics.Scalar 512) ]).
Proof. vm_compute. reflexivity. Qed.

(** ** More on the eviction thresholds *)

Lemma thresholdStep_agree mc rc ic s c c' t :
  evictionapi.Signal_ t = s -> agreeOutside s c c' ->
  thresholdStep mc rc ic c t = thresholdStep mc rc ic c' t.
Proof.
  intros <-. unfold thresholdStep, agreeOutside.
  destruct (evictionapi.Signal_ t).
  - intros [-> ->]. reflexivity.
  - intros [-> ->]. reflexivity.
  - intros [-> ->]. reflexivity.
  - by intros ->.
Qed.

Lemma thresholdStep_keeps_agree mc rc ic s c c' t :
  agreeOutside s c c' ->
  match thresholdStep mc rc ic c t, thresholdStep mc rc ic c' t with
  | Some d, Some d' => agreeOutside s d d'
  | None, None => True
  | _, _ => False
  end.
Proof.
  unfold thresholdStep, agreeOutside.
  destruct (evictionapi.Signal_ t), s; simpl;
    try (destruct (GetThresholdPercentile _ _); simpl);
    try done; try (by intros [? ?]); by intros ->.
Qed.

#[local] Instance Signal_eq_dec : EqDecision evictionapi.Signal.
Proof. solve_decision. Defined.

Lemma foldM_thresholdStep_overwritten mc rc ic s l :
  (exists t', t' ∈ l /\ evictionapi.Signal_ t' = s) ->
  forall c c',
    agreeOutside s c c' ->
    foldM (thresholdStep mc rc ic) l c = foldM (thresholdStep mc rc ic) l c'.
Proof.
  induction l as [ | t l IH ]; intros (t' & Hin & Hs) c c' Ha.
  - by apply elem_of_nil in Hin.
  - simpl. destruct (decide (evictionapi.Signal_ t = s)) as [Ht | Ht].
    + by rewrite (thresholdStep_agree mc rc ic s c c' t Ht Ha).
    + apply elem_of_cons in Hin as [ -> | Hin ]; [ done | ].
      pose proof (thresholdStep_keeps_agree mc rc ic s c c' t Ha) as Hk.
      destruct (thresholdStep mc rc ic c t) as [d | ],
               (thresholdStep mc rc ic c' t) as [d' | ]; simpl; try done.
      apply IH; [ by exists t' | done ].
Qed.

Lemma thresholdStep_agreeOutside_self mc rc ic c t d :
  thresholdStep mc rc ic c t = Some d -> agreeOutside (evictionapi.Signal_ t) d c.
Proof.
  unfold thresholdStep, agreeOutside.
  destruct (evictionapi.Signal_ t);
    try (destruct (GetThresholdPercentile _ _); simpl; [ | discriminate ]);
    by intros [= <-].
Qed.

Lemma foldM_app {A B} (f : A -> B -> option A) l1 l2 a :
  foldM f (l1 ++ l2) a = foldM f l1 a ≫= foldM f l2.
Proof.
  revert a. induction l1 as [ | b l1 IH ]; intros a; simpl; [ done | ].
  destruct (f a b); simpl; [ apply IH | done ].
Qed.

Lemma computeThresholds_drop_other mc rc ic l1 l2 t name :
  evictionapi.Signal_ t = evictionapi.SignalOther name ->
  computeThresholds mc rc ic (l1 ++ t :: l2) = computeThresholds mc rc ic (l1 ++ l2).
Proof.
  intros Hs. unfold computeThresholds. rewrite !foldM_app.
  destruct (foldM _ l1 _) as [c | ]; [ | done ].
  assert (thresholdStep mc rc ic c t = Some c) as Ht
    by (unfold thresholdStep; by rewrite Hs).
  cbn [mbind option_bind foldM]. by rewrite Ht.
Qed.

Lemma computeThresholds_drop_overwritten mc rc ic l1 l2 t :
  readable t ->
  (exists t', t' ∈ l2 /\ evictionapi.Signal_ t' = evictionapi.Signal_ t) ->
  computeThresholds mc rc ic (l1 ++ t :: l2) = computeThresholds mc rc ic (l1 ++ l2).
Proof.
  intros Hr Hlater. unfold computeThresholds. rewrite !foldM_app.
  destruct (foldM _ l1 _) as [c | ]; [ | done ].
  destruct (thresholdStep_is_Some mc rc ic c t Hr) as [d Hd].
  cbn [mbind option_bind foldM]. rewrite Hd. cbn [mbind option_bind].
  apply (foldM_thresholdStep_overwritten mc rc ic (evictionapi.Signal_ t) l2 Hlater).
  by apply (thresholdStep_agreeOutside_self mc rc ic).
Qed.

(** X11: among the thresholds handed to parseThresholdValues, those of
    signals other than memory, node file system and image file system are
    ignored, and for each of the three signals the last threshold in the
    list decides (a hard and a soft threshold on the same signal: the later
    one wins): a readable threshold that is followed by one of its signal
    can be taken out without changing what is added. *)
Theorem parseThresholdValues_last_threshold_wins
    (m : KubeletMonitor) (key : string)
    (memoryCapacity rootfsCapacity imagefsCapacity : float)
    (thresholds1 thresholds2 : list evictionapi.Threshold)
    (t : evictionapi.Threshold) :
  (forall name, evictionapi.Signal_ t = evictionapi.SignalOther name ->
     parseThresholdValues m key memoryCapacity rootfsCapacity imagefsCapacity
       (thresholds1 ++ t :: thresholds2)
     = parseThresholdValues m key memoryCapacity rootfsCapacity imagefsCapacity
         (thresholds1 ++ thresholds2))
  /\ (readable t ->
      (exists t', t' ∈ thresholds2
                  /\ evictionapi.Signal_ t' = evictionapi.Signal_ t) ->
      parseThresholdValues m key memoryCapacity rootfsCapacity imagefsCapacity
        (thresholds1 ++ t :: thresholds2)
      = parseThresholdValues m key memoryCapacity rootfsCapacity imagefsCapacity
          (thresholds1 ++ thresholds2)).
Proof.
  unfold parseThresholdValues. split.
  - intros name Hs. by rewrite (computeThresholds_drop_other _ _ _ _ _ _ name Hs).
  - intros Hr Hlater. by rewrite computeThresholds_drop_overwritten.
Qed.

Lemma parseThresholdValues_last_threshold_wins_witness :
  parseThresholdValues (NewKubeletMonitor fixtures.unreachable true) "node-1"
    fixtures.GiB8 fixtures.GiB8 fixtures.GiB8
    [samples.memoryHard; samples.pidAvailable; samples.memorySoft]
  = parseThresholdValues (NewKubeletMonitor fixtures.unreachable true) "node-1"
      fixtures.GiB8 fixtures.GiB8 fixtures.GiB8
      [samples.pidAvailable; samples.memorySoft].
Proof.
  assert (Hr : readable samples.memoryHard) by (right; by eexists).
  assert (Hl : exists t', t' ∈ [samples.pidAvailable; samples.memorySoft]
                 /\ evictionapi.Signal_ t' = evictionapi.Signal_ samples.memoryHard).
  { exists samples.memorySoft. split; [ right; left | reflexivity ]. }
  exact (proj2 (parseThresholdValues_last_threshold_wins
                  (NewKubeletMonitor fixtures.unreachable true) "node-1"
                  fixtures.GiB8 fixtures.GiB8 fixtures.GiB8
                  [] [samples.pidAvailable; samples.memorySoft]
                  samples.memoryHard) Hr Hl).
Defined.

(** With the hard threshold of 100 MiB first and the soft one of 6.25% last,
    the memory threshold is 6.25. *)
Example parseThresholdValues_soft_after_hard :
  parseThresholdValues (NewKubeletMonitor fixtures.unreachable true) "node-1"
    fixtures.GiB8 fixtures.GiB8 fixtures.GiB8
    [samples.memoryHard; samples.pidAvailable; samples.memorySoft]
  = Some (addEntries (NewKubeletMonitor fixtures.unreachable true)
            [ thresholdEntry "node-1" metrics.Memory 6.25;
              thresholdEntry "node-1" metrics.VStorage 15;
              thresholdEntry "node-1-imagefs" metrics.VStorage 0 ]).
Proof. reflexivity. Qed.

(** X12: whatever thresholds it can read, parseThresholdValues emits a root
    file system threshold that is 10, 15 or a computed threshold that
    passed the range check, so it lies strictly inside (0,100) unless it is
    a NaN; and the image file system threshold it emits is the computed
    one, also when that failed the range check. *)
Theorem parseThresholdValues_rootfs_inside
    (m : KubeletMonitor) (key : string)
    (memoryCapacity rootfsCapacity imagefsCapacity : float)
    (thresholds : list evictionapi.Threshold) :
  Forall readable thresholds ->
  exists c mem root,
    computeThresholds memoryCapacity rootfsCapacity imagefsCapacity thresholds
      = Some c /\
    parseThresholdValues m key memoryCapacity rootfsCapacity imagefsCapacity
      thresholds
    = Some (addEntries m
              [ thresholdEntry key metrics.Memory mem;
                thresholdEntry key metrics.VStorage root;
                thresholdEntry (key +:+ "-imagefs") metrics.VStorage
                  (imagefsThreshold c) ]) /\
    (root = 10 \/ root = 15
     \/ (root = rootfsThreshold c /\ outOfRange root = false)) /\
    (is_nan root = false -> strictly_inside_0_100 root = true).
Proof.
  intros Hr.
  destruct (computeThresholds_is_Some memoryCapacity rootfsCapacity
              imagefsCapacity thresholds Hr) as [c Hc].
  exists c, (memThreshold (applyDefaults memoryCapacity c)),
    (rootfsThreshold (applyDefaults memoryCapacity c)).
  split; [ exact Hc | ]. split.
  - unfold parseThresholdValues. rewrite Hc. simpl.
    by rewrite !addEntries_addEntries.
  - unfold applyDefaults; simpl.
    fold (outOfRange (rootfsThreshold c)) (outOfRange (imagefsThreshold c)).
    destruct (outOfRange (imagefsThreshold c)).
    + split; [ right; by left | reflexivity ].
    + destruct (outOfRange (rootfsThreshold c)) eqn:Ho.
      * split; [ by left | reflexivity ].
      * split; [ right; right; done | ].
        intros Hn. unfold outOfRange in Ho.
        apply orb_false_iff in Ho as [H0 H100]. by apply guard_inside.
Qed.

Lemma parseThresholdValues_rootfs_inside_witness :
  exists c mem root,
    computeThresholds fixtures.GiB8 fixtures.GiB8 fixtures.GiB8 [samples.memorySoft]
      = Some c /\
    parseThresholdValues (NewKubeletMonitor fixtures.unreachable true) "node-1"
      fixtures.GiB8 fixtures.GiB8 fixtures.GiB8 [samples.memorySoft]
    = Some (addEntries (NewKubeletMonitor fixtures.unreachable true)
              [ thresholdEntry "node-1" metrics.Memory mem;
                thresholdEntry "node-1" metrics.VStorage root;
                thresholdEntry "node-1-imagefs" metrics.VStorage
                  (imagefsThreshold c) ]) /\
    (is_nan root = false -> strictly_inside_0_100 root = true).
Proof.
  assert (Hr : Forall readable [samples.memorySoft]).
  { constructor; [ left; reflexivity | constructor ]. }
  destruct (parseThresholdValues_rootfs_inside
              (NewKubeletMonitor fixtures.unreachable true) "node-1"
              fixtures.GiB8 fixtures.GiB8 fixtures.GiB8 [samples.memorySoft] Hr)
    as (c & mem & root & Hc & Hp & _ & Hin).
  exists c, mem, root. repeat split; assumption.
Defined.

(** ** What parseNodeStats reads *)

Section ExtraNode.
Context `{Collaborators}.

(** X13: parseNodeStats never reports how many bytes of a file system are
    used: the used bytes of the root file system are not read, and those
    of the image file system only decide, by being there or not, whether
    the available bytes are read (without them the available bytes count
    as zero).  Two statistics with the same key that differ in nothing
    else give the same result. *)
Theorem parseNodeStats_ignores_used_bytes
    (m : KubeletMonitor) (nodeStats nodeStats' : stats.NodeStats.t)
    (thresholds : list evictionapi.Threshold) (timestamp : Z) :
  withoutUsedBytes nodeStats = withoutUsedBytes nodeStats' ->
  NodeStatsKeyFunc nodeStats = NodeStatsKeyFunc nodeStats' ->
  parseNodeStats m nodeStats thresholds timestamp
  = parseNodeStats m nodeStats' thresholds timestamp.
Proof.
  intros Hw Hk. unfold parseNodeStats. rewrite Hk. clear Hk.
  destruct nodeStats as [n cpu mem fs rt], nodeStats' as [n' cpu' mem' fs' rt'].
  unfold withoutUsedBytes in Hw. cbn [stats.NodeStats.NodeName stats.NodeStats.CPU
    stats.NodeStats.Memory stats.NodeStats.Fs stats.NodeStats.Runtime] in *.
  injection Hw as -> -> -> Hfs Hrt.
  assert (Hcap : nonNil2 fs stats.FsStats.CapacityBytes
                 = nonNil2 fs' stats.FsStats.CapacityBytes
                 /\ nonNil2 fs stats.FsStats.AvailableBytes
                    = nonNil2 fs' stats.FsStats.AvailableBytes).
  { destruct fs as [[a c u] | ], fs' as [[a' c' u'] | ]; simpl in Hfs;
      try discriminate; [ | done ].
    injection Hfs as -> ->. done. }
  destruct Hcap as [-> ->].
  assert (Himg :
    nonNil2 (nonNil2 rt stats.RuntimeStats.ImageFs) stats.FsStats.CapacityBytes
    = nonNil2 (nonNil2 rt' stats.RuntimeStats.ImageFs) stats.FsStats.CapacityBytes
    /\ match nonNil2 rt stats.RuntimeStats.ImageFs with
       | Some fs =>
           match stats.FsStats.UsedBytes fs with
           | Some _ => float64 <$> deref (stats.FsStats.AvailableBytes fs)
           | None => Some 0
           end
       | None => Some 0
       end
       = match nonNil2 rt' stats.RuntimeStats.ImageFs with
         | Some fs =>
             match stats.FsStats.UsedBytes fs with
             | Some _ => float64 <$> deref (stats.FsStats.AvailableBytes fs)
             | None => Some 0
             end
         | None => Some 0
         end).
  { destruct rt as [[[[a c [u | ]] | ]] | ], rt' as [[[[a' c' [u' | ]] | ]] | ];
      simpl in Hrt; try discriminate; try done;
      simplify_eq; done. }
  destruct Himg as [-> ->].
  reflexivity.
Qed.

End ExtraNode.

Lemma parseNodeStats_ignores_used_bytes_witness :
  @parseNodeStats fixtures.collab (NewKubeletMonitor fixtures.reachable true)
    (samples.withFileSystems 64424509440) [] 1700000000123
  = @parseNodeStats fixtures.collab (NewKubeletMonitor fixtures.reachable true)
      (samples.withFileSystems 1) [] 1700000000123.
Proof.
  exact (@parseNodeStats_ignores_used_bytes fixtures.collab
           (NewKubeletMonitor fixtures.reachable true)
           (samples.withFileSystems 64424509440) (samples.withFileSystems 1)
           [] 1700000000123 eq_refl eq_refl).
Defined.

(** In a full discovery the file system entries of that node give the
    capacity and the available bytes; the node has no memory statistics, so
    the default memory threshold is a division by zero. *)
Example parseNodeStats_file_systems :
  metricSink <$>
    @parseNodeStats fixtures.collab (NewKubeletMonitor fixtures.reachable true)
      (samples.withFileSystems 64424509440) [] 1700000000123
  = Some
      [ metrics.EntityResourceMetric metrics.NodeType "node-1" metrics.CPU
          metrics.Used
          (metrics.Points [ {| metrics.Value := 0; metrics.Timestamp := 1700000000123 |} ]);
        metrics.EntityResourceMetric metrics.NodeType "node-1" metrics.Memory
          metrics.Used
          (metrics.Points [ {| metrics.Value := 0; metrics.Timestamp := 1700000000123 |} ]);
        metrics.EntityResourceMetric metrics.NodeType "node-1"
          metrics.VStorage metrics.Capacity (metrics.Scalar 107374182400);
        metrics.EntityResourceMetric metrics.NodeType "node-1"
          metrics.VStorage metrics.Available (metrics.Scalar 42949672960);
        metrics.EntityResourceMetric metrics.NodeType "node-1-imagefs"
          metrics.VStorage metrics.Capacity (metrics.Scalar 107374182400);
        metrics.EntityResourceMetric metrics.NodeType "node-1-imagefs"
          metrics.VStorage metrics.Available (metrics.Scalar 42949672960);
        thresholdEntry "node-1" metrics.Memory infinity;
        thresholdEntry "node-1" metrics.VStorage 15;
        thresholdEntry "node-1-imagefs" metrics.VStorage 0 ].
Proof. vm_compute. reflexivity. Qed.

(** ** More on the cycle *)

Lemma mapM_Permutation {A B} (f : A -> option B) (l l' : list A) :
  l ≡ₚ l' -> option_Forall2 (≡ₚ) (mapM f l) (mapM f l').
Proof.
  induction 1 as [ | x l l' _ IH | x y l | l1 l2 l3 _ IH1 _ IH2 ].
  - by constructor.
  - cbn [mapM]. destruct (f x) as [b | ]; simpl; [ | constructor ].
    destruct IH as [k k' Hk | ]; simpl; constructor. by constructor.
  - cbn [mapM]. destruct (f x) as [b | ], (f y) as [b' | ]; simpl;
      try constructor;
      destruct (mapM f l) as [k | ]; simpl; constructor.
    apply perm_swap.
  - etrans; eassumption.
Qed.

Section ExtraCycle.
Context `{Collaborators}.

(** X14: the order in which the goroutines of a cycle run decides nothing
    but the order of the entries: for two schedules of the same tasks, on a
    monitor on which no stop signal was raised, either both runs panic or
    both return, and the sinks they return hold the same entries. *)
Theorem Do_schedule_independent
    (sched sched' : list api.Node) (m : KubeletMonitor) :
  sched ≡ₚ sched' -> stopCh m = make_chan ->
  option_Forall2 (≡ₚ) (Do sched m) (Do sched' m).
Proof.
  intros Hp Hs. unfold Do.
  destruct (decide (nodeList m = [])) as [Hn | Hn].
  - unfold RetrieveResourceStat. rewrite Hn.
    destruct (closeStopCh m); simpl; by constructor.
  - rewrite !RetrieveResourceStat_contributions by done.
    destruct (mapM_Permutation (contribution m) sched sched' Hp)
      as [ess ess' Hess | ]; simpl; constructor.
    by rewrite Hess.
Qed.

(** X15: one call of Stop before the cycle takes out exactly the task that
    starts first: the cycle then gives what the cycle of the other tasks
    gives without a stop signal. *)
Theorem Stop_skips_first_task
    (n : api.Node) (rest : list api.Node) (m : KubeletMonitor) :
  stopCh m = make_chan ->
  Stop m ≫= Do (n :: rest) = Do rest m.
Proof.
  intros Hs. destruct (runTasks_after_Stop m n rest Hs) as (m1 & Hm1 & Hrun).
  rewrite Hm1. cbn [mbind option_bind].
  assert (Hl : nodeList m1 = nodeList m).
  { unfold Stop in Hm1. destruct (send (stopCh m)); [ | done | done ].
    by injection Hm1 as <-. }
  unfold Do, RetrieveResourceStat. rewrite Hl.
  destruct (nodeList m) as [ | n0 l ].
  - unfold Stop, send in Hm1. rewrite Hs in Hm1. simpl in Hm1.
    injection Hm1 as <-. unfold closeStopCh, close. by rewrite Hs.
  - by rewrite Hrun.
Qed.

Lemma task_closed m n :
  closed (stopCh m) = true ->
  exists c, task m n = Some (with_stopCh m c) /\ closed c = true.
Proof.
  intros Hc. unfold task, try_receive.
  destruct (buffered (stopCh m)) as [ | k ].
  - rewrite Hc. by exists (stopCh m).
  - eexists. split; [ reflexivity | done ].
Qed.

Lemma runTasks_closed sched :
  forall m,
    closed (stopCh m) = true ->
    exists m', runTasks sched m = Some m' /\ closed (stopCh m') = true.
Proof.
  unfold runTasks.
  induction sched as [ | n sched IH ]; intros m Hc.
  - by exists m.
  - destruct (task_closed m n Hc) as (c & Ht & Hcc).
    cbn [foldM]. rewrite Ht. cbn [mbind option_bind]. by apply IH.
Qed.

Lemma runTasks_preserves sched :
  forall m m',
    runTasks sched m = Some m' ->
    nodeList m' = nodeList m /\
    kubeletClient m' = kubeletClient m /\
    isFullDiscovery m' = isFullDiscovery m.
Proof.
  unfold runTasks.
  induction sched as [ | n sched IH ]; intros m m'.
  - by intros [= <-].
  - cbn [foldM]. destruct (task m n) as [m1 | ] eqn:Ht; [ | discriminate ].
    cbn [mbind option_bind]. intros Hr.
    destruct (IH _ _ Hr) as (Hl & Hk & Hf).
    assert (Hl1 : nodeList m1 = nodeList m).
    { unfold task in Ht. destruct (try_receive (stopCh m)).
      - by injection Ht as <-.
      - apply scrapeKubelet_cfg in Ht. exact (f_equal nodeList Ht). }
    apply task_preserves in Ht as (Hk1 & Hf1 & _).
    repeat split; congruence.
Qed.

(** X16: a monitor is good for one cycle.  Once RetrieveResourceStat has
    returned, the stop channel is closed: a further cycle on the monitor
    panics at the deferred close, whatever the node list, and Stop panics
    on its send.  ReceiveTask puts the monitor back to where ReceiveTask
    put it before the cycle. *)
Theorem RetrieveResourceStat_once
    (sched sched' : list api.Node) (m : KubeletMonitor)
    (r : ptr error * KubeletMonitor) (nodes : list api.Node) :
  RetrieveResourceStat sched m = Some r ->
  RetrieveResourceStat sched' r.2 = None
  /\ send (stopCh r.2) = SendPanics
  /\ ReceiveTask r.2 nodes = ReceiveTask m nodes.
Proof.
  intros Hr.
  assert (Hc : closed (stopCh r.2) = true
               /\ kubeletClient r.2 = kubeletClient m
               /\ isFullDiscovery r.2 = isFullDiscovery m).
  { unfold RetrieveResourceStat in Hr.
    assert (Hclose : forall m0 m1, closeStopCh m0 = Some m1 ->
              closed (stopCh m1) = true
              /\ kubeletClient m1 = kubeletClient m0
              /\ isFullDiscovery m1 = isFullDiscovery m0).
    { intros m0 m1. unfold closeStopCh, close.
      destruct (closed (stopCh m0)); [ discriminate | ].
      by intros [= <-]. }
    destruct (nodeList m) as [ | n0 l ].
    - destruct (closeStopCh m) as [m1 | ] eqn:E; [ | discriminate ].
      injection Hr as <-. by apply Hclose.
    - destruct (runTasks sched m) as [m1 | ] eqn:E1; [ | discriminate ].
      cbn [mbind option_bind] in Hr.
      destruct (closeStopCh m1) as [m2 | ] eqn:E2; [ | discriminate ].
      injection Hr as <-.
      destruct (Hclose _ _ E2) as (? & ? & ?).
      destruct (runTasks_preserves _ _ _ E1) as (? & ? & ?).
      repeat split; simpl; congruence. }
  destruct Hc as (Hc & Hk & Hf). repeat split.
  - assert (Hpanic : forall m0, closed (stopCh m0) = true -> closeStopCh m0 = None).
    { intros m0 Hc0. unfold closeStopCh, close. by rewrite Hc0. }
    unfold RetrieveResourceStat. destruct (nodeList r.2) as [ | n0 l ].
    + by rewrite Hpanic.
    + destruct (runTasks_closed sched' r.2 Hc) as (m' & -> & Hc').
      cbn [mbind option_bind]. by rewrite Hpanic.
  - unfold send. by rewrite Hc.
  - unfold ReceiveTask, reset. simpl. by rewrite Hk, Hf.
Qed.

(** X17: the stop channel holds one signal.  After a call of Stop, a second
    call blocks for as long as no task has started; the task that starts
    first takes the signal and returns without adding to the sink, and
    leaves the channel as it was before the call of Stop. *)
Theorem Stop_one_signal (m m1 : KubeletMonitor) (n : api.Node) :
  Stop m = Some m1 ->
  send (stopCh m1) = SendBlocks
  /\ task m1 n = Some m.
Proof.
  unfold Stop, send.
  destruct (closed (stopCh m)) eqn:Hc; [ discriminate | ].
  destruct (buffered (stopCh m)) as [ | k ] eqn:Hb; [ | discriminate ].
  intros [= <-]. split; [ reflexivity | ].
  unfold task, try_receive. simpl. f_equal.
  destruct m as [l kc s [b c] f]; simpl in *. by subst.
Qed.

End ExtraCycle.

Lemma Do_schedule_independent_witness :
  option_Forall2 (≡ₚ)
    (@Do fixtures.collab [fixtures.node1; fixtures.node2]
       (ReceiveTask (NewKubeletMonitor fixtures.reachable false)
          [fixtures.node1; fixtures.node2]))
    (@Do fixtures.collab [fixtures.node2; fixtures.node1]
       (ReceiveTask (NewKubeletMonitor fixtures.reachable false)
          [fixtures.node1; fixtures.node2])).
Proof.
  exact (@Do_schedule_independent fixtures.collab
           [fixtures.node1; fixtures.node2] [fixtures.node2; fixtures.node1]
           (ReceiveTask (NewKubeletMonitor fixtures.reachable false)
              [fixtures.node1; fixtures.node2])
           (perm_swap _ _ _) eq_refl).
Defined.

Lemma Stop_skips_first_task_witness :
  Stop (ReceiveTask (NewKubeletMonitor fixtures.reachable false)
          [fixtures.node1; fixtures.node2])
    ≫= @Do fixtures.collab [fixtures.node1; fixtures.node2]
  = @Do fixtures.collab [fixtures.node2]
      (ReceiveTask (NewKubeletMonitor fixtures.reachable false)
         [fixtures.node1; fixtures.node2]).
Proof.
  exact (@Stop_skips_first_task fixtures.collab fixtures.node1 [fixtures.node2]
           (ReceiveTask (NewKubeletMonitor fixtures.reachable false)
              [fixtures.node1; fixtures.node2])
           eq_refl).
Defined.

Lemma RetrieveResourceStat_once_witness :
  exists r,
    @RetrieveResourceStat fixtures.collab [fixtures.node1]
      (ReceiveTask (NewKubeletMonitor fixtures.reachable false) [fixtures.node1])
    = Some r
    /\ @RetrieveResourceStat fixtures.collab [fixtures.node1] r.2 = None
    /\ send (stopCh r.2) = SendPanics
    /\ ReceiveTask r.2 [fixtures.node2]
       = ReceiveTask (NewKubeletMonitor fixtures.reachable false) [fixtures.node2].
Proof.
  eexists. split; [ reflexivity | ].
  exact (@RetrieveResourceStat_once fixtures.collab
           [fixtures.node1] [fixtures.node1]
           (ReceiveTask (NewKubeletMonitor fixtures.reachable false) [fixtures.node1])
           _ [fixtures.node2] eq_refl).
Defined.

Lemma Stop_one_signal_witness :
  send (stopCh (with_stopCh
                  (ReceiveTask (NewKubeletMonitor fixtures.reachable false)
                     [fixtures.node1])
                  {| buffered := 1; closed := false |}))
  = SendBlocks
  /\ @task fixtures.collab
       (with_stopCh
          (ReceiveTask (NewKubeletMonitor fixtures.reachable false) [fixtures.node1])
          {| buffered := 1; closed := false |})
       fixtures.node1
     = Some (ReceiveTask (NewKubeletMonitor fixtures.reachable false) [fixtures.node1]).
Proof.
  exact (@Stop_one_signal fixtures.collab
           (ReceiveTask (NewKubeletMonitor fixtures.reachable false) [fixtures.node1])
           _ fixtures.node1 eq_refl).
Defined.

(** * The group and version of a resource *)

Section ExtraBuilder.
Context `{Apimachinery}.

Lemma found_nil resourceName apiResources :
  (length apiResources =? 0)%nat = true -> found resourceName apiResources = false.
Proof. by destruct apiResources. Qed.

Lemma discovered_no_error ext apps : (discovered ext apps).2 = None.
Proof. unfold discovered. by repeat case_match. Qed.

Lemma discoverLoop_skip resourceName l rest ext apps :
  found resourceName (metav1.APIResources l) = false ->
  discoverLoop resourceName (Some l :: rest) ext apps
  = discoverLoop resourceName rest ext apps.
Proof.
  intros Hf. cbn [discoverLoop deref mbind option_bind]. rewrite Hf.
  cbn [negb]. by destruct (length _ =? 0)%nat.
Qed.

Lemma discoverLoop_app_skip resourceName l l1 l2 :
  found resourceName (metav1.APIResources l) = false ->
  forall ext apps,
    discoverLoop resourceName (l1 ++ Some l :: l2) ext apps
    = discoverLoop resourceName (l1 ++ l2) ext apps.
Proof.
  intros Hf. induction l1 as [ | a l1 IH ]; intros ext apps.
  - by apply discoverLoop_skip.
  - cbn [app discoverLoop]. destruct a as [a | ]; [ | done ].
    cbn [deref mbind option_bind].
    repeat case_match; try done; apply IH.
Qed.

(** X18: lists that do not name the resource (the empty ones among them)
    decide nothing, whatever their group version is, parsable or not: such
    a list can be taken out of the answer of the client without changing
    what discoverk8sAPIResourceGV returns. *)
Theorem discoverk8sAPIResourceGV_skips_other_resources
    (resourceName : string) (l : metav1.APIResourceList)
    (lists1 lists2 : list (ptr metav1.APIResourceList)) (err : ptr error) :
  found resourceName (metav1.APIResources l) = false ->
  discoverk8sAPIResourceGV
    {| kubernetes.ServerPreferredResources := (Some (lists1 ++ Some l :: lists2), err) |}
    resourceName
  = discoverk8sAPIResourceGV
      {| kubernetes.ServerPreferredResources := (Some (lists1 ++ lists2), err) |}
      resourceName.
Proof.
  intros Hf. unfold discoverk8sAPIResourceGV. simpl.
  by apply discoverLoop_app_skip.
Qed.

Lemma discoverLoop_returns resourceName lists :
  Forall is_Some lists ->
  forall ext apps,
    exists gv e,
      discoverLoop resourceName lists ext apps = Some (gv, e) /\
      (e = None \/
       gv = K8sAPIDeploymentReplicasetDefaultGV /\
       exists l perr,
         Some l ∈ lists /\ unparsable resourceName l perr /\
         e = Some ("error parsing GroupVersion: " +:+ perr)).
Proof.
  induction 1 as [ | a lists [l ->] _ IH ]; intros ext apps.
  - exists (discovered ext apps).1, None. split; [ | by left ].
    cbn [discoverLoop]. rewrite <- (discovered_no_error ext apps).
    by destruct (discovered ext apps).
  - assert (Hrest : forall ext apps,
      exists gv e,
        discoverLoop resourceName lists ext apps = Some (gv, e) /\
        (e = None \/
         gv = K8sAPIDeploymentReplicasetDefaultGV /\
         exists l0 perr,
           Some l0 ∈ Some l :: lists /\ unparsable resourceName l0 perr /\
           e = Some ("error parsing GroupVersion: " +:+ perr))).
    { intros ext' apps'.
      destruct (IH ext' apps') as (gv & e & Hl & He).
      exists gv, e. split; [ done | ].
      destruct He as [ -> | (Hd & l0 & perr & Hin & Hu & ->) ]; [ by left | ].
      right. split; [ done | ]. exists l0, perr.
      split; [ by right | by split ]. }
    cbn [discoverLoop deref mbind option_bind].
    destruct (length _ =? 0)%nat; [ apply Hrest | ].
    destruct (found resourceName (metav1.APIResources l)) eqn:Hf;
      cbn [negb]; [ | apply Hrest ].
    destruct (ParseGroupVersion (metav1.GroupVersion l)) as [gv [perr | ]] eqn:Hp.
    + eexists _, _. split; [ reflexivity | ]. right. split; [ done | ].
      exists l, perr. split; [ by left | ]. split; [ | done ].
      split; [ done | by rewrite Hp ].
    + repeat case_match; apply Hrest.
Qed.

(** X19: when the client answers lists none of which is nil,
    discoverk8sAPIResourceGV returns, and the error of the client is
    dropped: the error returned is nil, or it is the parse error of a list
    that names the resource, and then the group version returned is the
    default. *)
Theorem discoverk8sAPIResourceGV_returns
    (resourceName : string) (lists : list (ptr metav1.APIResourceList))
    (err : ptr error) :
  Forall is_Some lists ->
  exists gv e,
    discoverk8sAPIResourceGV
      {| kubernetes.ServerPreferredResources := (Some lists, err) |} resourceName
    = Some (gv, e) /\
    (e = None \/
     gv = K8sAPIDeploymentReplicasetDefaultGV /\
     exists l perr,
       Some l ∈ lists /\ unparsable resourceName l perr /\
       e = Some ("error parsing GroupVersion: " +:+ perr)).
Proof.
  intros Hl. unfold discoverk8sAPIResourceGV. simpl.
  by apply discoverLoop_returns.
Qed.

Lemma offeredVersions_cons resourceName group a rest :
  offeredVersions resourceName group (a :: rest)
  = match offeredVersion resourceName group a with
    | Some v => v :: offeredVersions resourceName group rest
    | None => offeredVersions resourceName group rest
    end.
Proof. reflexivity. Qed.

Lemma offeredVersions_skip resourceName group l rest :
  found resourceName (metav1.APIResources l) = false ->
  offeredVersions resourceName group (Some l :: rest)
  = offeredVersions resourceName group rest.
Proof.
  intros Hf. rewrite offeredVersions_cons. unfold offeredVersion. by rewrite Hf.
Qed.

Lemma offeredVersions_other resourceName group l rest gv :
  ParseGroupVersion (metav1.GroupVersion l) = (gv, None) ->
  schema.Group gv <> group ->
  offeredVersions resourceName group (Some l :: rest)
  = offeredVersions resourceName group rest.
Proof.
  intros Hp Hg. rewrite offeredVersions_cons. unfold offeredVersion.
  rewrite Hp. apply String.eqb_neq in Hg. rewrite Hg.
  by destruct (found _ _).
Qed.

Lemma offeredVersions_same resourceName l rest gv :
  found resourceName (metav1.APIResources l) = true ->
  ParseGroupVersion (metav1.GroupVersion l) = (gv, None) ->
  offeredVersions resourceName (schema.Group gv) (Some l :: rest)
  = schema.Version gv :: offeredVersions resourceName (schema.Group gv) rest.
Proof.
  intros Hf Hp. rewrite offeredVersions_cons. unfold offeredVersion.
  by rewrite Hf, Hp, String.eqb_refl.
Qed.

(** Without an error, the loop finds in each of the two groups the latest
    of the versions the lists offer in it. *)
Lemma discoverLoop_latest resourceName :
  K8sExtensionsGroupName <> K8sAppsGroupName ->
  forall lists ext apps gv,
    discoverLoop resourceName lists ext apps = Some (gv, None) ->
    (gv, None)
    = discovered
        {| schema.Group := schema.Group ext;
           schema.Version :=
             latest (schema.Version ext)
               (offeredVersions resourceName K8sExtensionsGroupName lists) |}
        {| schema.Group := schema.Group apps;
           schema.Version :=
             latest (schema.Version apps)
               (offeredVersions resourceName K8sAppsGroupName lists) |}.
Proof.
  intros Hne. induction lists as [ | a lists IH ]; intros ext apps gv.
  - cbn [discoverLoop]. intros [= <-]. by destruct ext, apps.
  - destruct a as [l | ]; [ | discriminate ].
    cbn [discoverLoop deref mbind option_bind].
    destruct (length _ =? 0)%nat eqn:Hlen.
    { intros Hl. rewrite !offeredVersions_skip by (by apply found_nil).
      by apply IH. }
    destruct (found resourceName (metav1.APIResources l)) eqn:Hf; cbn [negb].
    2:{ intros Hl. rewrite !offeredVersions_skip by done. by apply IH. }
    destruct (ParseGroupVersion (metav1.GroupVersion l)) as [gv' [perr | ]] eqn:Hp;
      [ discriminate | ].
    destruct (String.eqb_spec (schema.Group gv') K8sExtensionsGroupName) as [He | He].
    { intros Hl. apply IH in Hl. rewrite Hl. cbn [schema.Group schema.Version].
      rewrite <- He.
      rewrite (offeredVersions_same _ _ _ _ Hf Hp).
      rewrite (offeredVersions_other _ K8sAppsGroupName _ _ _ Hp) by congruence.
      reflexivity. }
    destruct (String.eqb_spec (schema.Group gv') K8sAppsGroupName) as [Ha | Ha].
    { intros Hl. apply IH in Hl. rewrite Hl. cbn [schema.Group schema.Version].
      rewrite <- Ha.
      rewrite (offeredVersions_same _ _ _ _ Hf Hp).
      rewrite (offeredVersions_other _ K8sExtensionsGroupName _ _ _ Hp) by congruence.
      reflexivity. }
    intros Hl. apply IH in Hl. rewrite Hl.
    by rewrite !(offeredVersions_other _ _ _ _ _ Hp) by done.
Qed.

Lemma latest_elem existing versions :
  latest existing versions = existing \/ latest existing versions ∈ versions.
Proof.
  revert existing. induction versions as [ | v versions IH ]; intros existing.
  - by left.
  - unfold latest. cbn [fold_left]. fold (latest (latestComparedVersion v existing) versions).
    destruct (IH (latestComparedVersion v existing)) as [-> | Hin].
    + unfold latestComparedVersion. case_match; [ by left | right; by left ].
    + right. by right.
Qed.

(** X20: discoverk8sAPIResourceGV invents no version.  When it returns a
    group version without an error from the lists of the client, this is
    the default, or a group version of the apps group, or one of the
    extensions group, whose version is not empty and is one that a list
    naming the resource offers in that group; one of the extensions group
    only when the run found no version in the apps group. *)
Theorem discoverk8sAPIResourceGV_offered
    (resourceName : string) (lists : list (ptr metav1.APIResourceList))
    (err : ptr error) (gv : schema.GroupVersion) :
  K8sExtensionsGroupName <> K8sAppsGroupName ->
  discoverk8sAPIResourceGV
    {| kubernetes.ServerPreferredResources := (Some lists, err) |} resourceName
  = Some (gv, None) ->
  gv = K8sAPIDeploymentReplicasetDefaultGV
  \/ (schema.Group gv = K8sAppsGroupName /\
      schema.Version gv <> "" /\
      schema.Version gv ∈ offeredVersions resourceName K8sAppsGroupName lists)
  \/ (schema.Group gv = K8sExtensionsGroupName /\
      schema.Version gv <> "" /\
      schema.Version gv ∈ offeredVersions resourceName K8sExtensionsGroupName lists /\
      latest "" (offeredVersions resourceName K8sAppsGroupName lists) = "").
Proof.
  intros Hne Hd. unfold discoverk8sAPIResourceGV in Hd. simpl in Hd.
  apply (discoverLoop_latest resourceName Hne) in Hd.
  cbn [schema.Group schema.Version] in Hd. unfold discovered in Hd.
  cbn [schema.Group schema.Version] in Hd.
  set (a := latest "" (offeredVersions resourceName K8sAppsGroupName lists)) in *.
  set (e := latest "" (offeredVersions resourceName K8sExtensionsGroupName lists)) in *.
  destruct (String.eqb_spec a "") as [Ha | Ha]; cbn [negb] in Hd.
  - destruct (String.eqb_spec e "") as [He | He]; cbn [negb] in Hd.
    + left. congruence.
    + right; right. injection Hd as ->. cbn [schema.Group schema.Version].
      repeat split; try done.
      destruct (latest_elem "" (offeredVersions resourceName K8sExtensionsGroupName lists))
        as [Hl | Hl]; [ by fold e in Hl | done ].
  - right; left. injection Hd as ->. cbn [schema.Group schema.Version].
    repeat split; try done.
    destruct (latest_elem "" (offeredVersions resourceName K8sAppsGroupName lists))
      as [Hl | Hl]; [ by fold a in Hl | done ].
Qed.

Lemma latest_greatest versions :
  (forall a b, (0 < CompareKubeAwareVersionStrings a b)%Z ->
     (CompareKubeAwareVersionStrings b a <= 0)%Z) ->
  (forall a b c, (CompareKubeAwareVersionStrings a b <= 0)%Z ->
     (CompareKubeAwareVersionStrings b c <= 0)%Z ->
     (CompareKubeAwareVersionStrings a c <= 0)%Z) ->
  "" ∉ versions ->
  forall existing,
    existing <> "" ->
    latest existing versions <> "" /\
    (CompareKubeAwareVersionStrings existing (latest existing versions) <= 0)%Z /\
    Forall (fun v => (CompareKubeAwareVersionStrings v (latest existing versions) <= 0)%Z)
      versions.
Proof.
  intros Htotal Htrans.
  induction versions as [ | v versions IH ]; intros Hno existing Hex.
  - repeat split; [ done | | constructor ].
    destruct (Z.lt_ge_cases 0 (CompareKubeAwareVersionStrings existing existing))
      as [Hlt | Hge]; [ by apply Htotal | done ].
  - apply not_elem_of_cons in Hno as [Hv Hno].
    unfold latest. cbn [fold_left].
    fold (latest (latestComparedVersion v existing) versions).
    unfold latestComparedVersion.
    apply String.eqb_neq in Hex as Hexb. rewrite Hexb. cbn [negb andb].
    destruct (Z.leb_spec (CompareKubeAwareVersionStrings v existing) 0) as [Hle | Hgt].
    + destruct (IH Hno existing Hex) as (Hn & Hc & Hall).
      repeat split; [ done | done | ].
      constructor; [ | done ]. by eapply Htrans.
    + destruct (IH Hno v (not_eq_sym Hv)) as (Hn & Hc & Hall).
      repeat split; [ done | | by constructor ].
      eapply Htrans; [ | exact Hc ]. by apply Htotal.
Qed.

(** X21: discoverk8sAPIResourceGV prefers the apps group and, in it, the
    latest version.  The comparison of versions being total and transitive,
    and the lists of the client offering the resource in the apps group, in
    versions none of which is empty: a return without an error is of the
    apps group, in one of the versions offered, and no version offered in
    the apps group is later. *)
Theorem discoverk8sAPIResourceGV_latest_apps
    (resourceName : string) (lists : list (ptr metav1.APIResourceList))
    (err : ptr error) (gv : schema.GroupVersion) :
  K8sExtensionsGroupName <> K8sAppsGroupName ->
  (forall a b, (0 < CompareKubeAwareVersionStrings a b)%Z ->
     (CompareKubeAwareVersionStrings b a <= 0)%Z) ->
  (forall a b c, (CompareKubeAwareVersionStrings a b <= 0)%Z ->
     (CompareKubeAwareVersionStrings b c <= 0)%Z ->
     (CompareKubeAwareVersionStrings a c <= 0)%Z) ->
  offeredVersions resourceName K8sAppsGroupName lists <> [] ->
  "" ∉ offeredVersions resourceName K8sAppsGroupName lists ->
  discoverk8sAPIResourceGV
    {| kubernetes.ServerPreferredResources := (Some lists, err) |} resourceName
  = Some (gv, None) ->
  schema.Group gv = K8sAppsGroupName /\
  schema.Version gv ∈ offeredVersions resourceName K8sAppsGroupName lists /\
  Forall (fun v => (CompareKubeAwareVersionStrings v (schema.Version gv) <= 0)%Z)
    (offeredVersions resourceName K8sAppsGroupName lists).
Proof.
  intros Hne Htotal Htrans Hsome Hno Hd.
  unfold discoverk8sAPIResourceGV in Hd. simpl in Hd.
  apply (discoverLoop_latest resourceName Hne) in Hd.
  cbn [schema.Group schema.Version] in Hd. unfold discovered in Hd.
  cbn [schema.Group schema.Version] in Hd.
  destruct (offeredVersions resourceName K8sAppsGroupName lists)
    as [ | v versions ] eqn:Hvs; [ done | ].
  apply not_elem_of_cons in Hno as [Hv Hno].
  assert (Hl : latest "" (v :: versions) = latest v versions).
  { unfold latest. cbn [fold_left]. unfold latestComparedVersion at 2.
    by rewrite String.eqb_refl. }
  rewrite Hl in Hd.
  destruct (latest_greatest versions Htotal Htrans Hno v (not_eq_sym Hv))
    as (Hn & Hc & Hall).
  apply String.eqb_neq in Hn as Hnb. rewrite Hnb in Hd. cbn [negb] in Hd.
  injection Hd as ->. cbn [schema.Group schema.Version].
  repeat split; [ | by constructor ].
  destruct (latest_elem v versions) as [-> | Hin]; [ by left | by right ].
Qed.

End ExtraBuilder.

Lemma discoverk8sAPIResourceGV_skips_other_resources_witness :
  @discoverk8sAPIResourceGV samples.apimachinery
    {| kubernetes.ServerPreferredResources :=
         (Some ([] ++ samples.core :: samples.workloads), None) |}
    "deployments"
  = @discoverk8sAPIResourceGV samples.apimachinery
      {| kubernetes.ServerPreferredResources :=
           (Some ([] ++ samples.workloads), None) |}
      "deployments".
Proof.
  exact (@discoverk8sAPIResourceGV_skips_other_resources samples.apimachinery
           "deployments"
           {| metav1.GroupVersion := "v1";
              metav1.APIResources :=
                (fun n => {| metav1.Name := n |}) <$> ["pods"; "nodes"] |}
           [] samples.workloads None eq_refl).
Defined.

Lemma discoverk8sAPIResourceGV_returns_witness :
  exists gv e,
    @discoverk8sAPIResourceGV samples.apimachinery
      {| kubernetes.ServerPreferredResources :=
           (Some (samples.resourcesOf "apps" ["deployments"] :: samples.workloads),
            Some "the server is currently unable to handle the request") |}
      "deployments"
    = Some (gv, e) /\
    (e = None \/
     gv = {| schema.Group := "apps"; schema.Version := "v1" |} /\
     exists l perr,
       Some l ∈ samples.resourcesOf "apps" ["deployments"] :: samples.workloads /\
       @unparsable samples.apimachinery "deployments" l perr /\
       e = Some ("error parsing GroupVersion: " +:+ perr)).
Proof.
  assert (Hl : Forall is_Some
                 (samples.resourcesOf "apps" ["deployments"] :: samples.workloads)).
  { repeat constructor; eexists; reflexivity. }
  exact (@discoverk8sAPIResourceGV_returns samples.apimachinery "deployments"
           (samples.resourcesOf "apps" ["deployments"] :: samples.workloads)
           (Some "the server is currently unable to handle the request") Hl).
Defined.

(** The group version of the first list does not parse: the default comes
    back with the parse error, and the error of the client is lost. *)
Example discoverk8sAPIResourceGV_parse_error :
  @discoverk8sAPIResourceGV samples.apimachinery
    {| kubernetes.ServerPreferredResources :=
         (Some (samples.resourcesOf "apps" ["deployments"] :: samples.workloads),
          Some "the server is currently unable to handle the request") |}
    "deployments"
  = Some ({| schema.Group := "apps"; schema.Version := "v1" |},
          Some "error parsing GroupVersion: unexpected GroupVersion string: apps").
Proof. reflexivity. Qed.

Lemma discoverk8sAPIResourceGV_offered_witness :
  {| schema.Group := "extensions"; schema.Version := "v1beta1" |}
    = {| schema.Group := "apps"; schema.Version := "v1" |}
  \/ ("extensions" = "apps" /\
      "v1beta1" <> "" /\
      "v1beta1" ∈ @offeredVersions samples.apimachinery "ingresses" "apps"
                    samples.workloads)
  \/ ("extensions" = "extensions" /\
      "v1beta1" <> "" /\
      "v1beta1" ∈ @offeredVersions samples.apimachinery "ingresses" "extensions"
                    samples.workloads /\
      @latest samples.apimachinery ""
        (@offeredVersions samples.apimachinery "ingresses" "apps" samples.workloads)
      = "").
Proof.
  assert (Hne : "extensions" <> "apps") by discriminate.
  exact (@discoverk8sAPIResourceGV_offered samples.apimachinery "ingresses"
           samples.workloads None
           {| schema.Group := "extensions"; schema.Version := "v1beta1" |}
           Hne eq_refl).
Defined.

Lemma discoverk8sAPIResourceGV_latest_apps_witness :
  "apps" = "apps" /\
  "v1" ∈ @offeredVersions samples.apimachinery "deployments" "apps" samples.workloads /\
  Forall (fun v => (samples.versionRank v - samples.versionRank "v1" <= 0)%Z)
    (@offeredVersions samples.apimachinery "deployments" "apps" samples.workloads).
Proof.
  assert (Hne : "extensions" <> "apps") by discriminate.
  assert (Htotal : forall a b,
            (0 < samples.versionRank a - samples.versionRank b)%Z ->
            (samples.versionRank b - samples.versionRank a <= 0)%Z)
    by (intros a b; lia).
  assert (Htrans : forall a b c,
            (samples.versionRank a - samples.versionRank b <= 0)%Z ->
            (samples.versionRank b - samples.versionRank c <= 0)%Z ->
            (samples.versionRank a - samples.versionRank c <= 0)%Z)
    by (intros a b c; lia).
  assert (Hsome : @offeredVersions samples.apimachinery "deployments" "apps"
                    samples.workloads <> []) by discriminate.
  assert (Hno : "" ∉ @offeredVersions samples.apimachinery "deployments" "apps"
                       samples.workloads).
  { apply (bool_decide_unpack _). vm_compute. reflexivity. }
  exact (@discoverk8sAPIResourceGV_latest_apps samples.apimachinery "deployments"
           samples.workloads None
           {| schema.Group := "apps"; schema.Version := "v1" |}
           Hne Htotal Htrans Hsome Hno eq_refl).
Defined.

(** With the lists in the other order the same group version is found. *)
Example discoverk8sAPIResourceGV_deployments :
  @discoverk8sAPIResourceGV samples.apimachinery
    {| kubernetes.ServerPreferredResources := (Some samples.workloads, None) |}
    "deployments"
  = Some ({| schema.Group := "apps"; schema.Version := "v1" |}, None)
  /\ @discoverk8sAPIResourceGV samples.apimachinery
       {| kubernetes.ServerPreferredResources :=
            (Some (reverse samples.workloads), None) |}
       "deployments"
     = Some ({| schema.Group := "apps"; schema.Version := "v1" |}, None).
Proof. split; reflexivity. Qed.
